(** * The store layer of the user-management panel

    A shallow embedding of the three Redux slices of the application
    (users, auth, ui), of the notification timers armed by
    [NotificationComponent] and of the event handlers of [UsersList],
    followed by the properties of the derived views (filtered search,
    pagination) and of the reducers.

    Conventions of the embedding.
    - A JavaScript string is well-formed text, held in a [string] as the
      bytes of its UTF-8 form: being empty, concatenation, equality and
      [includes] are the same on the bytes as on the code units.
      [String.prototype.toLowerCase] is an interface of the embedding,
      [Js.Lowercase]: the properties hold of every implementation, and
      the sample data is evaluated with the implementation of the
      characters it is written in.
    - The numbers the store handles (page numbers, page sizes, lengths,
      millisecond clocks and durations) are integers, modelled in [Z]; a
      quotient is taken in [Q] before [Math.ceil] rounds it.  A division
      by zero yields the non-finite values of [JsNum].
    - A value that is [null] or [undefined] is the [None] of an [option].
      Where an object may lack a key, the key is an [option] of its
      value: [None] is the lacking key and [Some None] the key that
      holds [null] or [undefined].
    - A reducer written against an Immer draft is the function from the
      state before to the state after. *)

From Stdlib Require Import ZArith QArith Qabs Qround String Ascii List Bool Lia.
From stdpp Require Import gmap strings list pretty.
Import ListNotations.
Open Scope Z_scope.

(** ** JavaScript values *)

Module Js.

(** Results of [Math.ceil (a / b)] and [Math.max] on integer arguments:
    a finite integer, or what a division by zero produces. *)
Inductive JsNum : Type :=
  | Num (z : Z)
  | PosInfinity
  | NegInfinity
  | NaN.

(** [Math.ceil (a / b)]. *)
Definition ceil_quot (a b : Z) : JsNum :=
  if b =? 0 then
    (if a =? 0 then NaN else if 0 <? a then PosInfinity else NegInfinity)
  else Num (Qceiling (inject_Z a / inject_Z b)).

(** [Math.max (m, x)] for a finite [m]. *)
Definition max_with (m : Z) (x : JsNum) : JsNum :=
  match x with
  | Num z => Num (Z.max m z)
  | PosInfinity => PosInfinity
  | NegInfinity => Num m
  | NaN => NaN
  end.

(** [a < x] for a finite [a]. *)
Definition lt_num (a : Z) (x : JsNum) : bool :=
  match x with
  | Num z => a <? z
  | PosInfinity => true
  | NegInfinity => false
  | NaN => false
  end.

(** Truthiness of a string: only the empty string is falsy. *)
Definition truthy (s : string) : bool :=
  match s with
  | EmptyString => false
  | String _ _ => true
  end.

(** Truthiness of a possibly absent string. *)
Definition truthy_opt (o : option string) : bool :=
  match o with
  | Some s => truthy s
  | None => false
  end.

(** [o || d] where [o] is a string or absent and [d] a string. *)
Definition or_default (o : option string) (d : string) : string :=
  match o with
  | Some s => if truthy s then s else d
  | None => d
  end.

(** [o.k], the value read from a key that the object may lack: a
    lacking key reads as [undefined]. *)
Definition read {A : Type} (k : option (option A)) : option A :=
  match k with
  | Some v => v
  | None => None
  end.

(** [{...a, ...b}] on one key that each of the two objects may lack: the
    later object wins where it has the key, whatever the key holds. *)
Definition spread {A : Type} (a b : option A) : option A :=
  match b with
  | Some _ => b
  | None => a
  end.

(** [{...a, ...b}] on one key that [a] has, with the value [a]: the later
    object wins where it has the key, whatever the key holds. *)
Definition assign {A : Type} (a : A) (b : option A) : A :=
  match b with
  | Some v => v
  | None => a
  end.

(** [s.toLowerCase ()].  The case conversion of Unicode maps every cased
    letter and looks at the letters around a capital sigma; the embedding
    takes it as an interface. *)
Class Lowercase := toLowerCase : string -> string.

Definition is_upper (c : ascii) : bool :=
  let n := nat_of_ascii c in (65 <=? n)%nat && (n <=? 90)%nat.

Definition is_lower (c : ascii) : bool :=
  let n := nat_of_ascii c in (97 <=? n)%nat && (n <=? 122)%nat.

Definition lower_ascii (c : ascii) : ascii :=
  if is_upper c then ascii_of_nat (nat_of_ascii c + 32) else c.

(** The fold of the letters A-Z, one character at a time: what
    [toLowerCase] does on text of Basic Latin characters. *)
Fixpoint foldBasicLatin (s : string) : string :=
  match s with
  | EmptyString => EmptyString
  | String c r => String (lower_ascii c) (foldBasicLatin r)
  end.

(** The characters of the Basic Latin block that the case conversion
    skips when it looks for a letter next to a sigma (the property
    Case_Ignorable): the apostrophe, the full stop, the colon, the
    circumflex and the grave accent. *)
Definition is_ignorable (c : ascii) : bool :=
  let n := nat_of_ascii c in
  (n =? 39)%nat || (n =? 46)%nat || (n =? 58)%nat || (n =? 94)%nat
  || (n =? 96)%nat.

(** The two bytes of a sigma: the capital (U+03A3), the small (U+03C3) and
    the small final one (U+03C2). *)
Definition is_capital_sigma (c d : ascii) : bool :=
  (nat_of_ascii c =? 206)%nat && (nat_of_ascii d =? 163)%nat.

Definition is_small_sigma (c d : ascii) : bool :=
  (nat_of_ascii c =? 207)%nat
  && ((nat_of_ascii d =? 131)%nat || (nat_of_ascii d =? 130)%nat).

Definition small_sigma : string :=
  String (ascii_of_nat 207) (String (ascii_of_nat 131) EmptyString).

Definition final_sigma : string :=
  String (ascii_of_nat 207) (String (ascii_of_nat 130) EmptyString).

(** The text goes on, after characters that are skipped, with a cased
    letter. *)
Fixpoint cased_ahead (s : string) : bool :=
  match s with
  | EmptyString => false
  | String c r =>
      if is_upper c || is_lower c then true
      else if is_ignorable c then cased_ahead r
      else
        match r with
        | String d _ => is_capital_sigma c d || is_small_sigma c d
        | EmptyString => false
        end
  end.

(** [toLowerCase] on text written with the characters of Basic Latin and
    the Greek letter sigma.  The letters A-Z are folded; a capital sigma
    becomes the final sigma when a cased letter comes before it (skipped
    characters apart) and none comes after it, and the small sigma
    otherwise (the condition Final_Sigma of the Unicode case conversion).
    [after] tells whether a cased letter comes before. *)
Fixpoint lowerFrom (after : bool) (s : string) : string :=
  match s with
  | EmptyString => EmptyString
  | String c r =>
      match r with
      | String d r' =>
          if is_capital_sigma c d then
            ((if after && negb (cased_ahead r') then final_sigma
              else small_sigma) ++ lowerFrom true r')%string
          else if is_small_sigma c d then
            String c (String d (lowerFrom true r'))
          else
            String (lower_ascii c)
              (lowerFrom
                 (if is_upper c || is_lower c then true
                  else if is_ignorable c then after else false) r)
      | EmptyString => String (lower_ascii c) EmptyString
      end
  end.

Definition lowerLatinSigma : Lowercase := lowerFrom false.

(** [s.includes (q)]: [q] occurs in [s] at some position. *)
Fixpoint includes (s q : string) : bool :=
  String.prefix q s ||
  match s with
  | EmptyString => false
  | String _ r => includes r q
  end.

(** [f?.toLowerCase ().includes (q)], used as a condition: an absent
    field short-circuits to [undefined], which is falsy. *)
Definition opt_lower_includes `{Lowercase} (f : option string) (q : string) :
    bool :=
  match f with
  | Some s => includes (toLowerCase s) q
  | None => false
  end.

(** The binade of a positive rational [x]: the [e] with
    [2 ^ e <= x < 2 ^ (e + 1)]. *)
Definition binade (x : Q) : Z :=
  let e := Z.log2 (Qnum x) - Z.log2 (Z.pos (Qden x)) in
  if Qle_bool (2 ^ e) x then e else e - 1.

(** The number (an IEEE 754 double) nearest to a rational, ties to the
    even significand: what an arithmetic operation of JavaScript yields
    on the exact result [x].  The significand has 53 bits and the
    binades below [-1022] share the spacing of that one; the overflow to
    [Infinity] above [2 ^ 1024] is left out. *)
Definition toDouble (x : Q) : Q :=
  if Qeq_bool x 0 then 0%Q
  else
    let a := Qabs x in
    let e := Z.max (binade a) (-1022) in
    let quantum := (2 ^ (e - 52))%Q in
    let m := (a / quantum)%Q in
    let f := Qfloor m in
    let k :=
      match (m - inject_Z f ?= 1 # 2)%Q with
      | Lt => f
      | Eq => if Z.even f then f else f + 1
      | Gt => f + 1
      end in
    let r := Qred (inject_Z k * quantum) in
    if Qle_bool 0 x then r else (- r)%Q.

(** [l.slice (start, end)] for integer bounds: a negative bound counts
    from the end of the array, and both are cut to its length. *)
Definition slice {A : Type} (l : list A) (start final : Z) : list A :=
  let len := Z.of_nat (length l) in
  let from := if start <? 0 then Z.max (len + start) 0 else Z.min start len in
  let to := if final <? 0 then Z.max (len + final) 0 else Z.min final len in
  firstn (Z.to_nat (to - from)) (skipn (Z.to_nat from) l).

End Js.

(** The loose equality [==] of JavaScript on the values used as record
    identifiers.  The slices compare identifiers with [==] and [!=] only,
    so that a numeric id matches its string form; the embedding takes the
    comparison as an interface of the identifier type. *)
Class LooseEq (Id : Type) := loose_eq : Id -> Id -> bool.

(** Numeric identifiers: [==] on two numbers is numeric equality. *)
#[export] Instance Z_LooseEq : LooseEq Z := Z.eqb.

(** What the thunks do with an identifier besides comparing it: they
    test it in a condition and put the number [Date.now ()] in its
    place. *)
Class IdValue (Id : Type) := {
  id_truthy : Id -> bool;
  id_of_number : Z -> Id;
}.

(** Numeric identifiers: zero is the falsy number. *)
#[export] Instance Z_IdValue : IdValue Z :=
  {| id_truthy z := negb (z =? 0); id_of_number z := z |}.

(** ** The users slice ([usersSlice.js]) *)

Module Users.
Section WithIds.
Context {Id : Type} `{LooseEq Id} `{Js.Lowercase}.

(** A record of the list.  A field is the text it holds, or [None] where
    it holds no text: the key is lacking, or it holds [null] or
    [undefined]. *)
Record User : Type := mkUser {
  id : Id;
  first_name : option string;
  last_name : option string;
  email : option string;
  avatar : option string;
}.

(** The payload of [updateUser.fulfilled]: [{ id, ...userData, ...data }].
    Every key but [id] may be lacking. *)
Record UserPatch : Type := mkPatch {
  patch_id : Id;
  patch_first_name : option (option string);
  patch_last_name : option (option string);
  patch_email : option (option string);
  patch_avatar : option (option string);
}.

Record State : Type := mkState {
  users : list User;
  loading : bool;
  error : option string;
  searchQuery : string;
}.

Definition initialState : State :=
  {| users := []; loading := false; error := None; searchQuery := "" |}.

(** *** Reducers *)

Definition setSearchQuery (state : State) (payload : string) : State :=
  {| users := users state; loading := loading state; error := error state;
     searchQuery := payload |}.

Definition clearError (state : State) : State :=
  {| users := users state; loading := loading state; error := None;
     searchQuery := searchQuery state |}.

Definition clearUsers (state : State) : State :=
  {| users := []; loading := loading state; error := error state;
     searchQuery := searchQuery state |}.

(** The four [pending] cases are the same two assignments. *)
Definition pending (state : State) : State :=
  {| users := users state; loading := true; error := None;
     searchQuery := searchQuery state |}.

(** The four [rejected] cases are the same two assignments. *)
Definition rejected (state : State) (payload : string) : State :=
  {| users := users state; loading := false; error := Some payload;
     searchQuery := searchQuery state |}.

Definition fetchUsers_pending := pending.
Definition createUser_pending := pending.
Definition updateUser_pending := pending.
Definition deleteUser_pending := pending.

Definition fetchUsers_rejected := rejected.
Definition createUser_rejected := rejected.
Definition updateUser_rejected := rejected.
Definition deleteUser_rejected := rejected.

Definition fetchUsers_fulfilled (state : State) (payload : list User) : State :=
  {| users := payload; loading := false; error := None;
     searchQuery := searchQuery state |}.

Definition createUser_fulfilled (state : State) (payload : User) : State :=
  {| users := users state ++ [payload]; loading := false; error := None;
     searchQuery := searchQuery state |}.

(** [{ ...u, ...payload }]. *)
Definition merge (u : User) (p : UserPatch) : User :=
  {| id := patch_id p;
     first_name := Js.assign (first_name u) (patch_first_name p);
     last_name := Js.assign (last_name u) (patch_last_name p);
     email := Js.assign (email u) (patch_email p);
     avatar := Js.assign (avatar u) (patch_avatar p) |}.

(** [findIndex] followed by the assignment at the index found: the first
    record whose id [==] the payload's is replaced, none when there is
    no such record. *)
Fixpoint replace_first (us : list User) (p : UserPatch) : list User :=
  match us with
  | [] => []
  | u :: rest =>
      if loose_eq (id u) (patch_id p) then merge u p :: rest
      else u :: replace_first rest p
  end.

Definition updateUser_fulfilled (state : State) (payload : UserPatch) : State :=
  {| users := replace_first (users state) payload; loading := false;
     error := None; searchQuery := searchQuery state |}.

Definition deleteUser_fulfilled (state : State) (payload : Id) : State :=
  {| users := List.filter (fun u => negb (loose_eq (id u) payload)) (users state);
     loading := false; error := None; searchQuery := searchQuery state |}.

(** *** Selectors *)

Definition selectUsers (state : State) : list User := users state.
Definition selectSearchQuery (state : State) : string := searchQuery state.

(** The result function of [selectFilteredUsers]. *)
Definition filterUsers (us : list User) (q : string) : list User :=
  if negb (Js.truthy q) then us
  else
    let query := Js.toLowerCase q in
    List.filter
      (fun user =>
         Js.opt_lower_includes (first_name user) query
         || Js.opt_lower_includes (last_name user) query
         || Js.opt_lower_includes (email user) query)
      us.

Definition selectFilteredUsers (state : State) : list User :=
  filterUsers (selectUsers state) (selectSearchQuery state).

End WithIds.
Arguments User Id : clear implicits.
Arguments UserPatch Id : clear implicits.
Arguments State Id : clear implicits.

(** *** Payload creators of the thunks *)

(** What [fetch] followed by [response.json ()] gives a thunk: an
    exception with its message, or a status and a body. *)
Inductive Reply (B : Type) : Type :=
  | Throws (message : string)
  | Response (ok : bool) (data : B).
Arguments Throws {B} message.
Arguments Response {B} ok data.

Inductive Outcome (P : Type) : Type :=
  | Fulfilled (payload : P)
  | Rejected (payload : string).
Arguments Fulfilled {P} payload.
Arguments Rejected {P} payload.

(** [Math.floor (Math.random () * 12) + 1] inside the address of a stock
    portrait. *)
Definition stockAvatar (random : Q) : string :=
  ("https://reqres.in/img/faces/" ++ pretty (Qfloor (random * 12) + 1)
   ++ "-image.jpg")%string.

Section Thunks.
Context {Id : Type} `{IdValue Id}.

(** The form data of the modal, and the record a reply echoes: any key
    may be lacking, and a key that is there may hold [null].  An
    identifier that is [null] is a value of [Id] like any other. *)
Record Draft : Type := mkDraft {
  draft_id : option Id;
  draft_first_name : option (option string);
  draft_last_name : option (option string);
  draft_email : option (option string);
  draft_avatar : option (option string);
}.

(** The body of a reply to a create or an update: an error message or
    the echoed record. *)
Record Echo : Type := mkEcho {
  echo_error : option string;
  echo : Draft;
}.

(** The body of a reply to the listing. *)
Record Listing : Type := mkListing {
  listing_error : option string;
  listing_data : list (User Id);
}.

Definition fetchUsers (r : Reply Listing) : Outcome (list (User Id)) :=
  match r with
  | Throws message => Rejected message
  | Response ok data =>
      if negb ok then
        Rejected (Js.or_default (listing_error data) "Failed to fetch users")
      else Fulfilled (listing_data data)
  end.

(** [{ id: data.id || Date.now (), avatar: userData.avatar || stock,
    ...userData, ...data }]. *)
Definition createUser (now : Z) (random : Q) (userData : Draft)
    (r : Reply Echo) : Outcome (User Id) :=
  match r with
  | Throws message => Rejected message
  | Response ok data =>
      if negb ok then
        Rejected (Js.or_default (echo_error data) "Failed to create user")
      else
        let id0 :=
          match draft_id (echo data) with
          | Some i => if id_truthy i then i else id_of_number now
          | None => id_of_number now
          end in
        let avatar0 :=
          Js.or_default (Js.read (draft_avatar userData)) (stockAvatar random) in
        Fulfilled
          {| id :=
               match draft_id (echo data) with
               | Some i => i
               | None => match draft_id userData with
                         | Some i => i
                         | None => id0
                         end
               end;
             first_name :=
               Js.read
                 (Js.spread (draft_first_name userData)
                    (draft_first_name (echo data)));
             last_name :=
               Js.read
                 (Js.spread (draft_last_name userData)
                    (draft_last_name (echo data)));
             email :=
               Js.read
                 (Js.spread (draft_email userData) (draft_email (echo data)));
             avatar :=
               Js.assign (Js.assign (Some avatar0) (draft_avatar userData))
                 (draft_avatar (echo data)) |}
  end.

(** [{ id, ...userData, ...data }]. *)
Definition updateUser (userId : Id) (userData : Draft) (r : Reply Echo) :
    Outcome (UserPatch Id) :=
  match r with
  | Throws message => Rejected message
  | Response ok data =>
      if negb ok then
        Rejected (Js.or_default (echo_error data) "Failed to update user")
      else
        Fulfilled
          {| patch_id :=
               match draft_id (echo data) with
               | Some i => i
               | None => match draft_id userData with
                         | Some i => i
                         | None => userId
                         end
               end;
             patch_first_name :=
               Js.spread (draft_first_name userData) (draft_first_name (echo data));
             patch_last_name :=
               Js.spread (draft_last_name userData) (draft_last_name (echo data));
             patch_email :=
               Js.spread (draft_email userData) (draft_email (echo data));
             patch_avatar :=
               Js.spread (draft_avatar userData) (draft_avatar (echo data)) |}
  end.

(** The body of a reply to a delete is read for its error only, when
    the status is not ok. *)
Definition deleteUser (userId : Id) (r : Reply (option string)) : Outcome Id :=
  match r with
  | Throws message => Rejected message
  | Response ok data_error =>
      if negb ok then Rejected (Js.or_default data_error "Failed to delete user")
      else Fulfilled userId
  end.

End Thunks.
Arguments Draft Id : clear implicits.
Arguments Echo Id : clear implicits.
Arguments Listing Id : clear implicits.
End Users.

(** ** The auth slice ([authSlices.js]) *)

Module Auth.

Record AuthUser : Type := mkAuthUser {
  user_email : option string;
  user_name : option string;
}.

(** The payload of [updateUser]: an object that may lack either key. *)
Record AuthUserPatch : Type := mkAuthUserPatch {
  patch_user_email : option (option string);
  patch_user_name : option (option string);
}.

Record State : Type := mkState {
  user : option AuthUser;
  token : option string;
  isAuthenticated : bool;
  loading : bool;
  error : option string;
  loginAttempts : Z;
  lastLoginAttempt : option Z;
}.

Definition initialState : State :=
  {| user := None; token := None; isAuthenticated := false; loading := false;
     error := None; loginAttempts := 0; lastLoginAttempt := None |}.

(** The store together with the [authToken] entry of [localStorage],
    which the thunks and the [logout] reducer write. *)
Record World : Type := mkWorld {
  auth : State;
  authToken : option string;
}.

(** The JSON body of a response of [/login] or [/register]. *)
Record Body : Type := mkBody {
  body_token : option string;
  body_error : option string;
}.

(** What [fetch] followed by [response.json ()] gives a thunk: an
    exception with its message, or a status and a body. *)
Inductive FetchResult : Type :=
  | Throws (message : string)
  | Response (ok : bool) (data : Body).

(** The payload of a fulfilled login, registration or check. *)
Record Session : Type := mkSession {
  session_token : option string;
  session_user : AuthUser;
}.

Inductive Outcome : Type :=
  | Fulfilled (payload : Session)
  | Rejected (payload : string).

(** *** Payload creators of the thunks *)

(** [loginUser]: the token is stored when the body has one, and the
    thunk resolves whenever the status is ok. *)
Definition loginUser (storage : option string) (credentials_email : string)
    (r : FetchResult) : option string * Outcome :=
  match r with
  | Throws message => (storage, Rejected message)
  | Response ok data =>
      if negb ok then
        (storage, Rejected (Js.or_default (body_error data) "Login failed"))
      else
        (if Js.truthy_opt (body_token data) then body_token data else storage,
         Fulfilled {| session_token := body_token data;
                      session_user := {| user_email := Some credentials_email;
                                         user_name := None |} |})
  end.

Definition registerUser (storage : option string) (userData_email : string)
    (r : FetchResult) : option string * Outcome :=
  match r with
  | Throws message => (storage, Rejected message)
  | Response ok data =>
      if negb ok then
        (storage, Rejected (Js.or_default (body_error data) "Registration failed"))
      else
        (if Js.truthy_opt (body_token data) then body_token data else storage,
         Fulfilled {| session_token := body_token data;
                      session_user := {| user_email := Some userData_email;
                                         user_name := None |} |})
  end.

(** [checkAuthStatus]: a stored token is trusted as it is; without one
    the thunk throws, empties the entry and rejects. *)
Definition checkAuthStatus (storage : option string) : option string * Outcome :=
  if negb (Js.truthy_opt storage) then (None, Rejected "No token found")
  else
    (storage,
     Fulfilled {| session_token := storage;
                  session_user := {| user_email := Some "user@example.com";
                                     user_name := Some "Demo User" |} |}).

(** *** Reducers *)

Definition logout (state : State) : State :=
  {| user := None; token := None; isAuthenticated := false;
     loading := loading state; error := None;
     loginAttempts := loginAttempts state;
     lastLoginAttempt := lastLoginAttempt state |}.

Definition clearError (state : State) : State :=
  {| user := user state; token := token state;
     isAuthenticated := isAuthenticated state; loading := loading state;
     error := None; loginAttempts := loginAttempts state;
     lastLoginAttempt := lastLoginAttempt state |}.

Definition resetLoginAttempts (state : State) : State :=
  {| user := user state; token := token state;
     isAuthenticated := isAuthenticated state; loading := loading state;
     error := error state; loginAttempts := 0; lastLoginAttempt := None |}.

Definition incrementLoginAttempts (state : State) (now : Z) : State :=
  {| user := user state; token := token state;
     isAuthenticated := isAuthenticated state; loading := loading state;
     error := error state; loginAttempts := loginAttempts state + 1;
     lastLoginAttempt := Some now |}.

Definition updateUser (state : State) (payload : AuthUserPatch) : State :=
  match user state with
  | Some u =>
      {| user :=
           Some {| user_email :=
                     Js.assign (user_email u) (patch_user_email payload);
                   user_name :=
                     Js.assign (user_name u) (patch_user_name payload) |};
         token := token state; isAuthenticated := isAuthenticated state;
         loading := loading state; error := error state;
         loginAttempts := loginAttempts state;
         lastLoginAttempt := lastLoginAttempt state |}
  | None => state
  end.

Definition loginUser_pending (state : State) : State :=
  {| user := user state; token := token state;
     isAuthenticated := isAuthenticated state; loading := true;
     error := None; loginAttempts := loginAttempts state;
     lastLoginAttempt := lastLoginAttempt state |}.

Definition loginUser_fulfilled (state : State) (payload : Session) : State :=
  {| user := Some (session_user payload); token := session_token payload;
     isAuthenticated := true; loading := false; error := None;
     loginAttempts := 0; lastLoginAttempt := None |}.

Definition loginUser_rejected (state : State) (payload : string) (now : Z) : State :=
  {| user := user state; token := token state;
     isAuthenticated := isAuthenticated state; loading := false;
     error := Some payload; loginAttempts := loginAttempts state + 1;
     lastLoginAttempt := Some now |}.

Definition registerUser_pending := loginUser_pending.

Definition registerUser_fulfilled (state : State) (payload : Session) : State :=
  {| user := Some (session_user payload); token := session_token payload;
     isAuthenticated := true; loading := false; error := None;
     loginAttempts := loginAttempts state;
     lastLoginAttempt := lastLoginAttempt state |}.

Definition registerUser_rejected (state : State) (payload : string) : State :=
  {| user := user state; token := token state;
     isAuthenticated := isAuthenticated state; loading := false;
     error := Some payload; loginAttempts := loginAttempts state;
     lastLoginAttempt := lastLoginAttempt state |}.

Definition logoutUser_pending (state : State) : State :=
  {| user := user state; token := token state;
     isAuthenticated := isAuthenticated state; loading := true;
     error := error state; loginAttempts := loginAttempts state;
     lastLoginAttempt := lastLoginAttempt state |}.

Definition logoutUser_fulfilled (state : State) : State :=
  {| user := None; token := None; isAuthenticated := false; loading := false;
     error := None; loginAttempts := 0; lastLoginAttempt := None |}.

Definition logoutUser_rejected (state : State) (payload : option string) : State :=
  {| user := None; token := None; isAuthenticated := false; loading := false;
     error := payload; loginAttempts := loginAttempts state;
     lastLoginAttempt := lastLoginAttempt state |}.

Definition checkAuthStatus_pending := logoutUser_pending.

Definition checkAuthStatus_fulfilled (state : State) (payload : Session) : State :=
  {| user := Some (session_user payload); token := session_token payload;
     isAuthenticated := true; loading := false; error := None;
     loginAttempts := loginAttempts state;
     lastLoginAttempt := lastLoginAttempt state |}.

Definition checkAuthStatus_rejected (state : State) : State :=
  {| user := None; token := None; isAuthenticated := false; loading := false;
     error := error state; loginAttempts := loginAttempts state;
     lastLoginAttempt := lastLoginAttempt state |}.

(** *** Dispatches

    What the application can make of the slice: the plain actions, the
    [pending] action of a thunk, and the completion of a thunk, which
    runs its payload creator against [localStorage] and the response it
    received and dispatches the outcome. *)
Inductive Event : Type :=
  | Logout
  | ClearError
  | ResetLoginAttempts
  | IncrementLoginAttempts (now : Z)
  | UpdateUser (payload : AuthUserPatch)
  | LoginPending
  | LoginDone (credentials_email : string) (r : FetchResult) (now : Z)
  | RegisterPending
  | RegisterDone (userData_email : string) (r : FetchResult)
  | LogoutPending
  | LogoutDone
  | CheckPending
  | CheckDone.

Definition dispatch (w : World) (e : Event) : World :=
  match e with
  | Logout => {| auth := logout (auth w); authToken := None |}
  | ClearError => {| auth := clearError (auth w); authToken := authToken w |}
  | ResetLoginAttempts =>
      {| auth := resetLoginAttempts (auth w); authToken := authToken w |}
  | IncrementLoginAttempts now =>
      {| auth := incrementLoginAttempts (auth w) now; authToken := authToken w |}
  | UpdateUser payload =>
      {| auth := updateUser (auth w) payload; authToken := authToken w |}
  | LoginPending =>
      {| auth := loginUser_pending (auth w); authToken := authToken w |}
  | LoginDone credentials_email r now =>
      match loginUser (authToken w) credentials_email r with
      | (storage, Fulfilled payload) =>
          {| auth := loginUser_fulfilled (auth w) payload; authToken := storage |}
      | (storage, Rejected payload) =>
          {| auth := loginUser_rejected (auth w) payload now; authToken := storage |}
      end
  | RegisterPending =>
      {| auth := registerUser_pending (auth w); authToken := authToken w |}
  | RegisterDone userData_email r =>
      match registerUser (authToken w) userData_email r with
      | (storage, Fulfilled payload) =>
          {| auth := registerUser_fulfilled (auth w) payload; authToken := storage |}
      | (storage, Rejected payload) =>
          {| auth := registerUser_rejected (auth w) payload; authToken := storage |}
      end
  | LogoutPending =>
      {| auth := logoutUser_pending (auth w); authToken := authToken w |}
  | LogoutDone =>
      {| auth := logoutUser_fulfilled (auth w); authToken := None |}
  | CheckPending =>
      {| auth := checkAuthStatus_pending (auth w); authToken := authToken w |}
  | CheckDone =>
      match checkAuthStatus (authToken w) with
      | (storage, Fulfilled payload) =>
          {| auth := checkAuthStatus_fulfilled (auth w) payload; authToken := storage |}
      | (storage, Rejected _) =>
          {| auth := checkAuthStatus_rejected (auth w); authToken := storage |}
      end
  end.

(** The states the store goes through from its initial state, whatever
    [localStorage] holds when the page loads. *)
Definition run (storage : option string) (es : list Event) : World :=
  fold_left dispatch es {| auth := initialState; authToken := storage |}.

(** A response whose status is ok and whose body has a token, as the
    remote service documents for a successful login. *)
Definition carries_token (r : FetchResult) : bool :=
  match r with
  | Throws _ => true
  | Response ok data => negb ok || Js.truthy_opt (body_token data)
  end.

Definition well_served (e : Event) : bool :=
  match e with
  | LoginDone _ r _ => carries_token r
  | RegisterDone _ r => carries_token r
  | _ => true
  end.

(** The invariant of the session, as a test on a state. *)
Definition token_present (state : State) : bool :=
  match token state with
  | Some _ => true
  | None => false
  end.

Definition session_consistent (state : State) : bool :=
  Bool.eqb (isAuthenticated state) (token_present state).

End Auth.

(** ** The ui slice ([uiReducers.js]) *)

Module UI.

(** A notification of the queue.  Its [id] is the number
    [Date.now () + Math.random ()], the double nearest to the sum, unless
    the payload brings its own. *)
Record Notification : Type := mkNotification {
  id : Q;
  type : string;
  message : option string;
  duration : Z;
  timestamp : Z;
}.

(** The payload of [addNotification]: a lacking key is [None], and a key
    that is there holds a number or a text, as its field does. *)
Record NotificationPayload : Type := mkPayload {
  payload_id : option Q;
  payload_type : option string;
  payload_message : option string;
  payload_duration : option Z;
  payload_timestamp : option Z;
}.

(** What the reducer reads from its environment: [Date.now ()], a whole
    number of milliseconds, and [Math.random ()], a number from 0 up to
    but not including 1. *)
Record Env : Type := mkEnv {
  now : Z;
  random : Q;
}.

Section WithIds.
Context {Id : Type}.

Record State : Type := mkState {
  viewMode : string;
  isUserModalOpen : bool;
  modalMode : string;
  selectedUser : option (Users.User Id);
  deleteConfirmUser : option (Users.User Id);
  currentPage : Z;
  itemsPerPage : Z;
  notifications : list Notification;
  isDeleting : bool;
  isSaving : bool;
  sidebarOpen : bool;
  theme : string;
  sortField : option string;
  sortDirection : string;
  activeFilters : gmap string string;
}.

Definition initialState : State :=
  {| viewMode := "table";
     isUserModalOpen := false;
     modalMode := "create";
     selectedUser := None;
     deleteConfirmUser := None;
     currentPage := 1;
     itemsPerPage := 10;
     notifications := [];
     isDeleting := false;
     isSaving := false;
     sidebarOpen := false;
     theme := "light";
     sortField := None;
     sortDirection := "asc";
     activeFilters := ∅ |}.

(** Field updates of the draft, one setter per group of fields a reducer
    assigns. *)
Definition with_viewMode (state : State) (v : string) : State :=
  {| viewMode := v;
     isUserModalOpen := isUserModalOpen state; modalMode := modalMode state;
     selectedUser := selectedUser state;
     deleteConfirmUser := deleteConfirmUser state;
     currentPage := currentPage state; itemsPerPage := itemsPerPage state;
     notifications := notifications state; isDeleting := isDeleting state;
     isSaving := isSaving state; sidebarOpen := sidebarOpen state;
     theme := theme state; sortField := sortField state;
     sortDirection := sortDirection state;
     activeFilters := activeFilters state |}.

Definition with_modal (state : State) (open : bool) (mode : string)
    (u : option (Users.User Id)) : State :=
  {| viewMode := viewMode state;
     isUserModalOpen := open; modalMode := mode; selectedUser := u;
     deleteConfirmUser := deleteConfirmUser state;
     currentPage := currentPage state; itemsPerPage := itemsPerPage state;
     notifications := notifications state; isDeleting := isDeleting state;
     isSaving := isSaving state; sidebarOpen := sidebarOpen state;
     theme := theme state; sortField := sortField state;
     sortDirection := sortDirection state;
     activeFilters := activeFilters state |}.

Definition with_deleteConfirmUser (state : State)
    (u : option (Users.User Id)) : State :=
  {| viewMode := viewMode state;
     isUserModalOpen := isUserModalOpen state; modalMode := modalMode state;
     selectedUser := selectedUser state;
     deleteConfirmUser := u;
     currentPage := currentPage state; itemsPerPage := itemsPerPage state;
     notifications := notifications state; isDeleting := isDeleting state;
     isSaving := isSaving state; sidebarOpen := sidebarOpen state;
     theme := theme state; sortField := sortField state;
     sortDirection := sortDirection state;
     activeFilters := activeFilters state |}.

Definition with_pagination (state : State) (page size : Z) : State :=
  {| viewMode := viewMode state;
     isUserModalOpen := isUserModalOpen state; modalMode := modalMode state;
     selectedUser := selectedUser state;
     deleteConfirmUser := deleteConfirmUser state;
     currentPage := page; itemsPerPage := size;
     notifications := notifications state; isDeleting := isDeleting state;
     isSaving := isSaving state; sidebarOpen := sidebarOpen state;
     theme := theme state; sortField := sortField state;
     sortDirection := sortDirection state;
     activeFilters := activeFilters state |}.

Definition with_notifications (state : State) (ns : list Notification) : State :=
  {| viewMode := viewMode state;
     isUserModalOpen := isUserModalOpen state; modalMode := modalMode state;
     selectedUser := selectedUser state;
     deleteConfirmUser := deleteConfirmUser state;
     currentPage := currentPage state; itemsPerPage := itemsPerPage state;
     notifications := ns; isDeleting := isDeleting state;
     isSaving := isSaving state; sidebarOpen := sidebarOpen state;
     theme := theme state; sortField := sortField state;
     sortDirection := sortDirection state;
     activeFilters := activeFilters state |}.

Definition with_flags (state : State) (deleting saving sidebar : bool) : State :=
  {| viewMode := viewMode state;
     isUserModalOpen := isUserModalOpen state; modalMode := modalMode state;
     selectedUser := selectedUser state;
     deleteConfirmUser := deleteConfirmUser state;
     currentPage := currentPage state; itemsPerPage := itemsPerPage state;
     notifications := notifications state; isDeleting := deleting;
     isSaving := saving; sidebarOpen := sidebar;
     theme := theme state; sortField := sortField state;
     sortDirection := sortDirection state;
     activeFilters := activeFilters state |}.

Definition with_theme (state : State) (t : string) : State :=
  {| viewMode := viewMode state;
     isUserModalOpen := isUserModalOpen state; modalMode := modalMode state;
     selectedUser := selectedUser state;
     deleteConfirmUser := deleteConfirmUser state;
     currentPage := currentPage state; itemsPerPage := itemsPerPage state;
     notifications := notifications state; isDeleting := isDeleting state;
     isSaving := isSaving state; sidebarOpen := sidebarOpen state;
     theme := t; sortField := sortField state;
     sortDirection := sortDirection state;
     activeFilters := activeFilters state |}.

Definition with_sorting (state : State) (field : option string)
    (direction : string) : State :=
  {| viewMode := viewMode state;
     isUserModalOpen := isUserModalOpen state; modalMode := modalMode state;
     selectedUser := selectedUser state;
     deleteConfirmUser := deleteConfirmUser state;
     currentPage := currentPage state; itemsPerPage := itemsPerPage state;
     notifications := notifications state; isDeleting := isDeleting state;
     isSaving := isSaving state; sidebarOpen := sidebarOpen state;
     theme := theme state; sortField := field;
     sortDirection := direction;
     activeFilters := activeFilters state |}.

Definition with_activeFilters (state : State) (fs : gmap string string) : State :=
  {| viewMode := viewMode state;
     isUserModalOpen := isUserModalOpen state; modalMode := modalMode state;
     selectedUser := selectedUser state;
     deleteConfirmUser := deleteConfirmUser state;
     currentPage := currentPage state; itemsPerPage := itemsPerPage state;
     notifications := notifications state; isDeleting := isDeleting state;
     isSaving := isSaving state; sidebarOpen := sidebarOpen state;
     theme := theme state; sortField := sortField state;
     sortDirection := sortDirection state;
     activeFilters := fs |}.

(** *** Reducers *)

Definition setViewMode (state : State) (payload : string) : State :=
  with_viewMode state payload.

(** The payload is [{ mode, user }], the user being optional. *)
Definition openUserModal (state : State) (mode : string)
    (user : option (Users.User Id)) : State :=
  with_modal state true mode user.

Definition closeUserModal (state : State) : State :=
  with_modal state false "create" None.

Definition setDeleteConfirmUser (state : State)
    (payload : option (Users.User Id)) : State :=
  with_deleteConfirmUser state payload.

Definition clearDeleteConfirmUser (state : State) : State :=
  with_deleteConfirmUser state None.

Definition setCurrentPage (state : State) (payload : Z) : State :=
  with_pagination state payload (itemsPerPage state).

Definition setItemsPerPage (state : State) (payload : Z) : State :=
  with_pagination state 1 payload.

Definition resetPagination (state : State) : State :=
  with_pagination state 1 (itemsPerPage state).

(** The object literal of [addNotification]: four computed fields, then
    the spread of the payload over them. *)
Definition makeNotification (env : Env) (p : NotificationPayload) : Notification :=
  let id0 := Js.toDouble (inject_Z (now env) + random env) in
  let type0 := Js.or_default (payload_type p) "info" in
  let duration0 :=
    match payload_duration p with
    | Some d => if d =? 0 then 5000 else d
    | None => 5000
    end in
  let timestamp0 := now env in
  {| id := match payload_id p with Some i => i | None => id0 end;
     type := match payload_type p with Some t => t | None => type0 end;
     message := payload_message p;
     duration := match payload_duration p with Some d => d | None => duration0 end;
     timestamp := match payload_timestamp p with Some t => t | None => timestamp0 end |}.

Definition addNotification (state : State) (env : Env)
    (payload : NotificationPayload) : State :=
  with_notifications state (notifications state ++ [makeNotification env payload]).

Definition removeNotification (state : State) (payload : Q) : State :=
  with_notifications state
    (List.filter (fun notification => negb (Qeq_bool (id notification) payload))
       (notifications state)).

Definition clearAllNotifications (state : State) : State :=
  with_notifications state [].

Definition setDeleting (state : State) (payload : bool) : State :=
  with_flags state payload (isSaving state) (sidebarOpen state).

Definition setSaving (state : State) (payload : bool) : State :=
  with_flags state (isDeleting state) payload (sidebarOpen state).

Definition toggleSidebar (state : State) : State :=
  with_flags state (isDeleting state) (isSaving state) (negb (sidebarOpen state)).

Definition setSidebarOpen (state : State) (payload : bool) : State :=
  with_flags state (isDeleting state) (isSaving state) payload.

Definition setTheme (state : State) (payload : string) : State :=
  with_theme state payload.

Definition toggleTheme (state : State) : State :=
  with_theme state (if String.eqb (theme state) "light" then "dark" else "light").

Definition setSorting (state : State) (field : option string)
    (direction : string) : State :=
  with_sorting state field direction.

Definition toggleSort (state : State) (payload : string) : State :=
  match sortField state with
  | Some f =>
      if String.eqb f payload then
        with_sorting state (sortField state)
          (if String.eqb (sortDirection state) "asc" then "desc" else "asc")
      else with_sorting state (Some payload) "asc"
  | None => with_sorting state (Some payload) "asc"
  end.

Definition clearSort (state : State) : State :=
  with_sorting state None "asc".

(** The payload is [{ key, value }]; an absent or empty value deletes
    the key. *)
Definition setFilter (state : State) (key : string) (value : option string) : State :=
  match value with
  | Some v =>
      if Js.truthy v then with_activeFilters state (<[key := v]> (activeFilters state))
      else with_activeFilters state (delete key (activeFilters state))
  | None => with_activeFilters state (delete key (activeFilters state))
  end.

Definition clearFilter (state : State) (payload : string) : State :=
  with_activeFilters state (delete payload (activeFilters state)).

Definition clearAllFilters (state : State) : State :=
  with_activeFilters state ∅.

(** [{ ...initialState, theme: state.theme }]. *)
Definition resetUIState (state : State) : State :=
  with_theme initialState (theme state).

(** *** Selectors *)

Record PaginationData : Type := mkPaginationData {
  page : Z;
  perPage : Z;
  totalPages : Js.JsNum;
  totalItems : Z;
  startIndex : Z;
  endIndex : Z;
  hasNextPage : bool;
  hasPrevPage : bool;
}.

(** The result function of [selectPaginationData]. *)
Definition paginate (currentPage itemsPerPage totalItems : Z) : PaginationData :=
  let totalPages := Js.max_with 1 (Js.ceil_quot totalItems itemsPerPage) in
  let startIndex := (currentPage - 1) * itemsPerPage in
  let endIndex := startIndex + itemsPerPage in
  {| page := currentPage;
     perPage := itemsPerPage;
     totalPages := totalPages;
     totalItems := totalItems;
     startIndex := startIndex;
     endIndex := endIndex;
     hasNextPage := Js.lt_num currentPage totalPages;
     hasPrevPage := 1 <? currentPage |}.

(** [selectPaginationData]: the third input selector is the length of
    the users collection of the users slice, [state.users.users]. *)
Definition selectPaginationData (ui : State) (users : Users.State Id) : PaginationData :=
  paginate (currentPage ui) (itemsPerPage ui)
    (Z.of_nat (length (Users.users users))).

End WithIds.
Arguments State Id : clear implicits.

Section MoreSelectors.
Context {Id : Type}.

Definition selectNotificationCount (ui : State Id) : nat :=
  length (notifications ui).

(** [Object.keys (state.ui.activeFilters).length]. *)
Definition selectFilterCount (ui : State Id) : nat :=
  size (activeFilters ui).

Definition selectIsDarkMode (ui : State Id) : bool :=
  String.eqb (theme ui) "dark".

End MoreSelectors.
End UI.

(** ** The notification timers ([NotificationComponent.jsx])

    The component is part of the users list and is mounted while the
    list is shown.  It subscribes to the queue; when it mounts and after
    every change of the queue that it renders, its effect runs over the
    whole queue and arms one timer per notification of positive
    duration.  The callback given to [forEach] returns the clean-up
    function, so the effect itself returns none and no timer is ever
    cleared, not even when the component is taken away.  [handleLogout]
    adds its notification and calls [onLogout], on which [App] takes the
    list away within the same event: the component is gone before it
    renders the new queue.  Time is a millisecond clock: a timer fires
    when the clock reaches its due time, timers of one millisecond fire
    in the order they were armed, and a firing timer dispatches
    [removeNotification]. *)

Module Timers.
Section WithIds.
Context {Id : Type}.

Record Timer : Type := mkTimer {
  due : Z;
  target : Q;
}.

Record World : Type := mkWorld {
  ui : UI.State Id;
  pending : list Timer;
  clock : Z;
  mounted : bool;
}.

(** The body of the effect, run at time [t] over the queue [ns]. *)
Definition armTimers (t : Z) (ns : list UI.Notification) : list Timer :=
  List.map (fun notification =>
              {| due := t + UI.duration notification;
                 target := UI.id notification |})
    (List.filter (fun notification => 0 <? UI.duration notification) ns).

(** A dispatch that replaces the queue, followed by the effect when the
    component is there to render the queue. *)
Definition rendered (w : World) (ui' : UI.State Id) : World :=
  {| ui := ui';
     pending :=
       if mounted w then pending w ++ armTimers (clock w) (UI.notifications ui')
       else pending w;
     clock := clock w;
     mounted := mounted w |}.

(** The callback of a timer. *)
Definition fire (w : World) (t : Timer) : World :=
  rendered w (UI.removeNotification (ui w) (target t)).

(** One millisecond passes and the timers then due fire. *)
Definition tick (w : World) : World :=
  let c := clock w + 1 in
  fold_left fire
    (List.filter (fun t => due t <=? c) (pending w))
    {| ui := ui w;
       pending := List.filter (fun t => c <? due t) (pending w);
       clock := c;
       mounted := mounted w |}.

(** The payload of the notification of [handleLogout]. *)
Definition logoutNotice : UI.NotificationPayload :=
  {| UI.payload_id := None; UI.payload_type := Some "info"%string;
     UI.payload_message := Some "You have been logged out successfully"%string;
     UI.payload_duration := None; UI.payload_timestamp := None |}.

(** What happens to the queue and its timers: a handler adds a
    notification, the user closes one, time passes, the user logs out
    ([handleLogout]: the notification is added and the list is taken
    away), the list is shown again after a login. *)
Inductive Event : Type :=
  | Add (random : Q) (payload : UI.NotificationPayload)
  | Close (id : Q)
  | Elapse (ms : nat)
  | Logout (random : Q)
  | Mount.

Definition envAt (w : World) (random : Q) : UI.Env :=
  {| UI.now := clock w; UI.random := random |}.

Definition step (w : World) (e : Event) : World :=
  match e with
  | Add random payload =>
      rendered w (UI.addNotification (ui w) (envAt w random) payload)
  | Close id => rendered w (UI.removeNotification (ui w) id)
  | Elapse ms => Nat.iter ms tick w
  | Logout random =>
      {| ui := UI.addNotification (ui w) (envAt w random) logoutNotice;
         pending := pending w;
         clock := clock w;
         mounted := false |}
  | Mount =>
      if mounted w then w
      else
        {| ui := ui w;
           pending :=
             pending w ++ armTimers (clock w) (UI.notifications (ui w));
           clock := clock w;
           mounted := true |}
  end.

Definition run (w : World) (es : list Event) : World := fold_left step es w.

(** The list is shown, on an empty queue, at time [t0]. *)
Definition init (t0 : Z) : World :=
  {| ui := UI.initialState; pending := []; clock := t0; mounted := true |}.

(** Milliseconds that pass during a run. *)
Fixpoint elapsed (es : list Event) : Z :=
  match es with
  | [] => 0
  | Elapse ms :: rest => Z.of_nat ms + elapsed rest
  | _ :: rest => elapsed rest
  end.

(** Some notification of the queue has the id [i]. *)
Definition queued (i : Q) (w : World) : bool :=
  existsb (fun notification => Qeq_bool (UI.id notification) i)
    (UI.notifications (ui w)).

(** Neither a notification nor a timer of [w] carries the id [i]. *)
Definition unused (i : Q) (w : World) : bool :=
  negb (queued i w)
  && forallb (fun t => negb (Qeq_bool (target t) i)) (pending w).

(** Every notification added during the run gets an id other than [i]. *)
Fixpoint adds_fresh (i : Q) (w : World) (es : list Event) : bool :=
  match es with
  | [] => true
  | e :: rest =>
      match e with
      | Add random payload =>
          negb (Qeq_bool (UI.id (UI.makeNotification (envAt w random) payload)) i)
      | Logout random =>
          negb (Qeq_bool
                  (UI.id (UI.makeNotification (envAt w random) logoutNotice)) i)
      | _ => true
      end && adds_fresh i (step w e) rest
  end.

(** Nobody closes the notification [i] during the run. *)
Definition not_closed (i : Q) (es : list Event) : bool :=
  forallb (fun e => match e with
                    | Close j => negb (Qeq_bool j i)
                    | _ => true
                    end) es.

End WithIds.
Arguments World Id : clear implicits.
End Timers.

(** ** The event handlers of the users list ([UserList.jsx]) *)

Module UsersList.
Section WithIds.
Context {Id : Type} `{LooseEq Id} `{Js.Lowercase}.

Record AppState : Type := mkApp {
  users : Users.State Id;
  ui : UI.State Id;
}.

Definition initialState : AppState :=
  {| users := Users.initialState; ui := UI.initialState |}.

(** A template literal prints an absent field as this word. *)
Definition shown (o : option string) : string :=
  match o with
  | Some s => s
  | None => "undefined"
  end.

Definition notice (type : string) (message : string) : UI.NotificationPayload :=
  {| UI.payload_id := None; UI.payload_type := Some type;
     UI.payload_message := Some message; UI.payload_duration := None;
     UI.payload_timestamp := None |}.

(** How the request of a thunk ends. *)
Inductive Reply : Type :=
  | Succeeds
  | Fails (error : string).

(** [useEffect (() => dispatch (fetchUsers ()))] and [handleRetry], with
    the reply of the service. *)
Definition fetched (s : AppState) (data : list (Users.User Id)) : AppState :=
  {| users := Users.fetchUsers_fulfilled (Users.fetchUsers_pending (users s)) data;
     ui := ui s |}.

Definition handleDeleteUser (s : AppState) (user : Users.User Id) : AppState :=
  {| users := users s; ui := UI.setDeleteConfirmUser (ui s) (Some user) |}.

Definition confirmDelete (s : AppState) (env : UI.Env) (reply : Reply) : AppState :=
  match UI.deleteConfirmUser (ui s) with
  | Some deleteConfirm =>
      match reply with
      | Succeeds =>
          {| users :=
               Users.deleteUser_fulfilled (Users.deleteUser_pending (users s))
                 (Users.id deleteConfirm);
             ui :=
               UI.clearDeleteConfirmUser
                 (UI.resetPagination
                    (UI.addNotification (ui s) env
                       (notice "success"
                          (shown (Users.first_name deleteConfirm) ++ " "
                           ++ shown (Users.last_name deleteConfirm)
                           ++ " deleted successfully")))) |}
      | Fails error =>
          {| users :=
               Users.deleteUser_rejected (Users.deleteUser_pending (users s)) error;
             ui :=
               UI.clearDeleteConfirmUser
                 (UI.addNotification (ui s) env
                    (notice "error" ("Failed to delete user: " ++ error))) |}
      end
  | None => s
  end.

Definition handleViewModeChange (s : AppState) (mode : string) : AppState :=
  {| users := users s; ui := UI.setViewMode (ui s) mode |}.

Definition handlePageChange (s : AppState) (page : Z) : AppState :=
  {| users := users s; ui := UI.setCurrentPage (ui s) page |}.

Definition handlePrevious (s : AppState) : AppState :=
  if 1 <? UI.currentPage (ui s) then
    {| users := users s; ui := UI.setCurrentPage (ui s) (UI.currentPage (ui s) - 1) |}
  else s.

Definition handleNext (s : AppState) : AppState :=
  if Js.lt_num (UI.currentPage (ui s))
       (UI.totalPages (UI.selectPaginationData (ui s) (users s)))
  then {| users := users s; ui := UI.setCurrentPage (ui s) (UI.currentPage (ui s) + 1) |}
  else s.

Definition handleSearch (s : AppState) (value : string) : AppState :=
  {| users := Users.setSearchQuery (users s) value;
     ui := UI.resetPagination (ui s) |}.

(** *** What the table view renders *)

(** The collection the component reads: the filtered view. *)
Definition shownUsers (s : AppState) : list (Users.User Id) :=
  Users.selectFilteredUsers (users s).

(** [currentUsers]: the window of the current page over the filtered
    view. *)
Definition currentUsers (s : AppState) : list (Users.User Id) :=
  let data := UI.selectPaginationData (ui s) (users s) in
  Js.slice (shownUsers s) (UI.startIndex data) (UI.endIndex data).

(** The records rendered with their Edit and Delete buttons: all of the
    filtered view as cards, the current window as table rows, nothing
    while a request is pending. *)
Definition rowsRendered (s : AppState) : list (Users.User Id) :=
  if Users.loading (users s) then []
  else if String.eqb (UI.viewMode (ui s)) "card" then shownUsers s
  else if String.eqb (UI.viewMode (ui s)) "table" then currentUsers s
  else [].

(** The pagination controls are rendered under the table when the
    filtered view has more records than a page. *)
Definition controlsRendered (s : AppState) : bool :=
  String.eqb (UI.viewMode (ui s)) "table"
  && negb (Users.loading (users s))
  && (UI.itemsPerPage (ui s) <? Z.of_nat (length (shownUsers s))).

(** The button of page [pageNum] is rendered among the controls. *)
Definition pageButtonRendered (s : AppState) (pageNum : Z) : bool :=
  controlsRendered s
  && match UI.totalPages (UI.selectPaginationData (ui s) (users s)) with
     | Js.Num totalPages =>
         (1 <=? pageNum) && (pageNum <=? totalPages)
         && ((pageNum =? 1) || (pageNum =? totalPages)
             || (Z.abs (pageNum - UI.currentPage (ui s)) <=? 1))
     | _ => false
     end.

(** *** Reachable states

    States the list goes through: replies to [fetchUsers], the two view
    buttons, typing in the search box, clicks on the rendered pagination
    buttons, and the delete dialogue. *)
Inductive reachable : AppState -> Prop :=
  | reach_init : reachable initialState
  | reach_fetched s data :
      reachable s -> reachable (fetched s data)
  | reach_view s mode :
      reachable s -> mode = "table"%string \/ mode = "card"%string ->
      reachable (handleViewModeChange s mode)
  | reach_search s value :
      reachable s -> reachable (handleSearch s value)
  | reach_page s pageNum :
      reachable s -> pageButtonRendered s pageNum = true ->
      reachable (handlePageChange s pageNum)
  | reach_previous s :
      reachable s -> controlsRendered s = true -> reachable (handlePrevious s)
  | reach_next s :
      reachable s -> controlsRendered s = true -> reachable (handleNext s)
  | reach_delete s user :
      reachable s -> In user (rowsRendered s) ->
      reachable (handleDeleteUser s user)
  | reach_confirm s env reply :
      reachable s -> UI.deleteConfirmUser (ui s) <> None ->
      reachable (confirmDelete s env reply).

End WithIds.
Arguments AppState Id : clear implicits.

(** *** The remaining handlers *)

Section Forms.
Context {Id : Type} `{LooseEq Id} `{IdValue Id} `{Js.Lowercase}.

(** The fetch of the mount effect, with the reply of the service. *)
Definition fetchReplied (s : AppState Id) (r : Users.Reply (Users.Listing Id)) :
    AppState Id :=
  match Users.fetchUsers r with
  | Users.Fulfilled payload =>
      {| users := Users.fetchUsers_fulfilled (Users.fetchUsers_pending (users s))
                    payload;
         ui := ui s |}
  | Users.Rejected payload =>
      {| users := Users.fetchUsers_rejected (Users.fetchUsers_pending (users s))
                    payload;
         ui := ui s |}
  end.

Definition handleRetry (s : AppState Id) (r : Users.Reply (Users.Listing Id)) :
    AppState Id :=
  fetchReplied {| users := Users.clearError (users s); ui := ui s |} r.

(** [unwrap]: a fulfilled thunk returns, a rejected one throws its
    payload. *)
Definition unwrap {P : Type} (o : Users.Outcome P) : Reply :=
  match o with
  | Users.Fulfilled _ => Succeeds
  | Users.Rejected payload => Fails payload
  end.

(** [confirmDelete] with the reply of the service to the delete. *)
Definition confirmDeleteReplied (s : AppState Id) (env : UI.Env)
    (r : Users.Reply (option string)) : AppState Id :=
  match UI.deleteConfirmUser (ui s) with
  | Some deleteConfirm =>
      confirmDelete s env (unwrap (Users.deleteUser (Users.id deleteConfirm) r))
  | None => s
  end.

Definition cancelDelete (s : AppState Id) : AppState Id :=
  {| users := users s; ui := UI.clearDeleteConfirmUser (ui s) |}.

Definition handleAddUser (s : AppState Id) : AppState Id :=
  {| users := users s; ui := UI.openUserModal (ui s) "create" None |}.

Definition handleEditUser (s : AppState Id) (user : Users.User Id) : AppState Id :=
  {| users := users s; ui := UI.openUserModal (ui s) "edit" (Some user) |}.

(** The [onClose] of the modal. *)
Definition closeModal (s : AppState Id) : AppState Id :=
  {| users := users s; ui := UI.closeUserModal (ui s) |}.

(** [handleModalSubmit], with the clock and the random number the thunk
    reads, the environment of the notification, the reply of the service
    and the text of the [TypeError] that [selectedUser.id] throws on an
    absent user. *)
Definition handleModalSubmit (s : AppState Id) (now : Z) (random : Q)
    (env : UI.Env) (userData : Users.Draft Id)
    (r : Users.Reply (Users.Echo Id)) (typeError : string) : AppState Id :=
  let modalMode := UI.modalMode (ui s) in
  let failed (users' : Users.State Id) (error : string) :=
    {| users := users';
       ui := UI.addNotification (ui s) env
               (notice "error" ("Failed to " ++ modalMode ++ " user: " ++ error)) |} in
  if String.eqb modalMode "create" then
    match Users.createUser now random userData r with
    | Users.Fulfilled payload =>
        {| users := Users.createUser_fulfilled (Users.createUser_pending (users s))
                      payload;
           ui := UI.closeUserModal
                   (UI.resetPagination
                      (UI.addNotification (ui s) env
                         (notice "success" "User created successfully"))) |}
    | Users.Rejected error =>
        failed (Users.createUser_rejected (Users.createUser_pending (users s)) error)
          error
    end
  else
    match UI.selectedUser (ui s) with
    | Some selectedUser =>
        match Users.updateUser (Users.id selectedUser) userData r with
        | Users.Fulfilled payload =>
            {| users := Users.updateUser_fulfilled
                          (Users.updateUser_pending (users s)) payload;
               ui := UI.closeUserModal
                       (UI.addNotification (ui s) env
                          (notice "success" "User updated successfully")) |}
        | Users.Rejected error =>
            failed (Users.updateUser_rejected (Users.updateUser_pending (users s))
                      error) error
        end
    | None => failed (users s) typeError
    end.

(** [handleLogout], as far as the users and ui slices go: the payload
    is [Timers.logoutNotice]. *)
Definition handleLogout (s : AppState Id) (env : UI.Env) : AppState Id :=
  {| users := users s;
     ui := UI.addNotification (ui s) env
             (notice "info" "You have been logged out successfully") |}.

(** [handleClose] of the notification component, and the callback of
    its timers. *)
Definition dismiss (s : AppState Id) (id : Q) : AppState Id :=
  {| users := users s; ui := UI.removeNotification (ui s) id |}.

(** *** The pagination bar *)

Inductive PageItem : Type :=
  | PageButton (pageNum : Z)
  | DotsStart
  | DotsEnd.

(** The callback of [Array.from] for one page number; [None] is the
    [null] that renders nothing. *)
Definition pageItem (currentPage totalPages pageNum : Z) : option PageItem :=
  let showPage :=
    (pageNum =? 1) || (pageNum =? totalPages)
    || (Z.abs (pageNum - currentPage) <=? 1) in
  if negb showPage && (pageNum =? 2) && (4 <? currentPage) then Some DotsStart
  else if negb showPage && (pageNum =? totalPages - 1)
          && (currentPage <? totalPages - 3) then Some DotsEnd
  else if negb showPage then None
  else Some (PageButton pageNum).

(** [Array.from ({ length: totalPages }, ...)] for a finite number of
    pages. *)
Definition pageItems (currentPage totalPages : Z) : list PageItem :=
  omap (fun index => pageItem currentPage totalPages (Z.of_nat index + 1))
    (seq 0 (Z.to_nat totalPages)).

(** *** Every state of the two slices

    The states the application produces in the users and ui slices: each
    step is a handler of the list or of the notification component, run
    on what is rendered, with whatever the service replies. *)
Inductive visited : AppState Id -> Prop :=
  | visit_init : visited initialState
  | visit_fetch s r : visited s -> visited (fetchReplied s r)
  | visit_retry s r :
      visited s -> Js.truthy_opt (Users.error (users s)) = true ->
      visited (handleRetry s r)
  | visit_view s mode :
      visited s -> mode = "table"%string \/ mode = "card"%string ->
      visited (handleViewModeChange s mode)
  | visit_search s value : visited s -> visited (handleSearch s value)
  | visit_page s pageNum :
      visited s -> pageButtonRendered s pageNum = true ->
      visited (handlePageChange s pageNum)
  | visit_previous s :
      visited s -> controlsRendered s = true -> visited (handlePrevious s)
  | visit_next s :
      visited s -> controlsRendered s = true -> visited (handleNext s)
  | visit_delete s user :
      visited s -> In user (rowsRendered s) -> visited (handleDeleteUser s user)
  | visit_cancel s :
      visited s -> UI.deleteConfirmUser (ui s) <> None -> visited (cancelDelete s)
  | visit_confirm s env r :
      visited s -> UI.deleteConfirmUser (ui s) <> None ->
      visited (confirmDeleteReplied s env r)
  | visit_add s : visited s -> visited (handleAddUser s)
  | visit_edit s user :
      visited s -> In user (rowsRendered s) -> visited (handleEditUser s user)
  | visit_close s :
      visited s -> UI.isUserModalOpen (ui s) = true -> visited (closeModal s)
  | visit_submit s now random env userData r typeError :
      visited s -> UI.isUserModalOpen (ui s) = true ->
      visited (handleModalSubmit s now random env userData r typeError)
  | visit_logout s env : visited s -> visited (handleLogout s env)
  | visit_dismiss s id : visited s -> visited (dismiss s id).

End Forms.
End UsersList.

(** * Vocabulary of the properties *)

(** ** Text up to case *)

(** Two characters are the same letter when they are equal or are the
    upper-case and lower-case forms of one letter (codes 65-90 and
    97-122). *)
Definition same_letter (a b : ascii) : Prop :=
  let x := nat_of_ascii a in
  let y := nat_of_ascii b in
  x = y
  \/ ((65 <= x <= 90)%nat /\ y = (x + 32)%nat)
  \/ ((65 <= y <= 90)%nat /\ x = (y + 32)%nat).

(** Two strings are equal up to the case of their letters. *)
Inductive same_text : string -> string -> Prop :=
  | same_empty : same_text EmptyString EmptyString
  | same_cons a b s t :
      same_letter a b -> same_text s t -> same_text (String a s) (String b t).

(** [s] contains [q] up to the case of the letters A-Z: some stretch of
    [s] is [q] up to case. *)
Definition contains_ci (s q : string) : Prop :=
  exists pre mid post, s = (pre ++ mid ++ post)%string /\ same_text mid q.

(** Text of Basic Latin characters: every byte is below 128. *)
Fixpoint basic_latin (s : string) : bool :=
  match s with
  | EmptyString => true
  | String c r => (nat_of_ascii c <? 128)%nat && basic_latin r
  end.

(** [q] occurs in [s], as it is written. *)
Definition occurs_in (q s : string) : Prop :=
  exists pre post, s = (pre ++ q ++ post)%string.

Section Vocabulary.
Context {Id : Type} `{LooseEq Id} `{Js.Lowercase}.
Implicit Types (u : Users.User Id) (us : list (Users.User Id))
  (w : Timers.World Id) (n : UI.Notification) (i : Q).

(** ** Records *)




(** [toLowerCase] folds the letters A-Z of [s] and leaves the rest of
    it, as it does on text of Basic Latin characters. *)
Definition folded (s : string) : Prop :=
  Js.toLowerCase s = Js.foldBasicLatin s.

(** The records of [us] whose id [==] [target]. *)
Definition carrying (target : Id) us : list (Users.User Id) :=
  List.filter (fun u => loose_eq (Users.id u) target) us.

(** ** Pages *)

(** The number of pages of the filtered view, counted as the pagination
    engine counts pages; the data model asks the current page to stay
    within it. *)
Definition filteredTotalPages (s : UsersList.AppState Id) : Js.JsNum :=
  Js.max_with 1
    (Js.ceil_quot (Z.of_nat (length (UsersList.shownUsers s)))
       (UI.itemsPerPage (UsersList.ui s))).

(** [page] lies in the range from 1 to [pages]. *)
Definition page_within (page : Z) (pages : Js.JsNum) : Prop :=
  exists last, pages = Js.Num last /\ 1 <= page <= last.

(** ** Timers *)

(** Every pending timer is due after the current millisecond. *)
Definition timers_ahead w : Prop :=
  Forall (fun t => Timers.clock w < Timers.due t) (Timers.pending w).

(** A timer for [i] is pending and due by [deadline]. *)
Definition armed i (deadline : Z) w : Prop :=
  Exists (fun t => Qeq_bool (Timers.target t) i = true /\ Timers.due t <= deadline)
    (Timers.pending w).

(** The notification [i] has left the queue or a timer will remove it
    by [deadline]. *)
Definition expiring i (deadline : Z) w : Prop :=
  Timers.queued i w = false \/ armed i deadline w.

(** The notification [n] is in the queue, the notifications that share
    its id have no positive duration, and no pending timer targets it. *)
Definition persistent n w : Prop :=
  In n (UI.notifications (Timers.ui w))
  /\ Forall (fun m => Qeq_bool (UI.id m) (UI.id n) = true -> UI.duration m <= 0)
       (UI.notifications (Timers.ui w))
  /\ Forall (fun t => Qeq_bool (Timers.target t) (UI.id n) = false)
       (Timers.pending w).

End Vocabulary.

(** ** Sample data *)

Module Sample.

(** The sample data is written with Basic Latin characters and the
    letter sigma. *)
#[local] Existing Instance Js.lowerLatinSigma.

(** Two records created under the same id, as [createUser.fulfilled]
    appends whatever id the reply brings. *)
Definition seven (name : string) : Users.User Z :=
  {| Users.id := 7; Users.first_name := Some name;
     Users.last_name := Some "Holt"%string;
     Users.email := Some "holt@reqres.in"%string; Users.avatar := None |}.

Definition two_sevens : Users.State Z :=
  Users.createUser_fulfilled
    (Users.createUser_fulfilled Users.initialState (seven "Eve"))
    (seven "Eva").

Definition lindsay : Users.User Z :=
  {| Users.id := 8; Users.first_name := Some "Lindsay"%string;
     Users.last_name := Some "Ferguson"%string;
     Users.email := Some "lindsay.ferguson@reqres.in"%string;
     Users.avatar := None |}.

(** A collection of three records with distinct ids. *)
Definition trio : Users.State Z :=
  Users.fetchUsers_fulfilled Users.initialState
    [seven "Eve";
     lindsay;
     {| Users.id := 9; Users.first_name := Some "Tobias"%string;
        Users.last_name := Some "Funke"%string;
        Users.email := None; Users.avatar := None |}].

(** Twenty-five records, eleven of them called Ann. *)
Definition person (k : Z) : Users.User Z :=
  {| Users.id := k;
     Users.first_name := Some (if k <=? 11 then "Ann"%string else "Bob"%string);
     Users.last_name := Some "Ray"%string;
     Users.email := Some "ray@reqres.in"%string;
     Users.avatar := None |}.

Definition crowd : list (Users.User Z) :=
  List.map (fun k => person (Z.of_nat k)) (seq 1 25).

(** The list after the fetch, a search for "ann" and a click on the
    button of page 3. *)
Definition stranded : UsersList.AppState Z :=
  UsersList.handlePageChange
    (UsersList.handleSearch (UsersList.fetched UsersList.initialState crowd) "ann")
    3.


(** On page 3 of the twenty-five records the list is fetched again and
    the service returns two records. *)
Definition shrunk : UsersList.AppState Z :=
  UsersList.fetched
    (UsersList.handlePageChange
       (UsersList.fetched UsersList.initialState crowd) 3)
    [person 1; person 2].

(** The reply to a login with an ok status and a token in the body. *)
Definition served (t : string) : Auth.FetchResult :=
  Auth.Response true {| Auth.body_token := Some t; Auth.body_error := None |}.

(** The reply to a login with an ok status and no token in the body. *)
Definition tokenless : Auth.FetchResult :=
  Auth.Response true {| Auth.body_token := None; Auth.body_error := None |}.

(** A notification payload with an explicit duration. *)
Definition lasting (d : Z) : UI.NotificationPayload :=
  {| UI.payload_id := None; UI.payload_type := Some "success"%string;
     UI.payload_message := Some "User created successfully"%string;
     UI.payload_duration := Some d; UI.payload_timestamp := None |}.

(** The list has shown one notice for 1200 ms. *)
Definition earlier : list Timers.Event :=
  [Timers.Add (3 # 8) (UsersList.notice "info" "Welcome");
   Timers.Elapse (Z.to_nat 1200)].

(** The list has shown one notice for 1200 ms when the user logs out;
    three seconds later the user is back on the list. *)
Definition returned : list Timers.Event :=
  [Timers.Add (3 # 8) (UsersList.notice "info" "Welcome");
   Timers.Elapse (Z.to_nat 1200);
   Timers.Logout (1 # 8);
   Timers.Elapse (Z.to_nat 3000);
   Timers.Mount].

(** Another notice is added, then six seconds pass. *)
Definition later : list Timers.Event :=
  [Timers.Add (1 # 4) (UsersList.notice "success" "User updated successfully");
   Timers.Elapse (Z.to_nat 6000)].

(** A payload of [updateUser.fulfilled] that changes the first name. *)
Definition rename (i : Z) : Users.UserPatch Z :=
  {| Users.patch_id := i;
     Users.patch_first_name := Some (Some "Evelyn"%string);
     Users.patch_last_name := None; Users.patch_email := None;
     Users.patch_avatar := None |}.

(** The form data of the modal for a new record, without an avatar. *)
Definition form : Users.Draft Z :=
  {| Users.draft_id := None;
     Users.draft_first_name := Some (Some "Janet"%string);
     Users.draft_last_name := Some (Some "Weaver"%string);
     Users.draft_email := Some (Some "janet.weaver@reqres.in"%string);
     Users.draft_avatar := None |}.

(** The body of a reply that echoes an id only. *)
Definition echoed : Users.Echo Z :=
  {| Users.echo_error := None;
     Users.echo := {| Users.draft_id := Some 409; Users.draft_first_name := None;
                      Users.draft_last_name := None; Users.draft_email := None;
                      Users.draft_avatar := None |} |}.

(** The body of a reply that echoes an id and [null] for the avatar. *)
Definition echoed_without_avatar : Users.Echo Z :=
  {| Users.echo_error := None;
     Users.echo := {| Users.draft_id := Some 409; Users.draft_first_name := None;
                      Users.draft_last_name := None; Users.draft_email := None;
                      Users.draft_avatar := Some None |} |}.

(** The list once the service has answered the fetch with the
    twenty-five records. *)
Definition listed : UsersList.AppState Z :=
  UsersList.fetchReplied UsersList.initialState
    (Users.Response true
       {| Users.listing_error := None; Users.listing_data := crowd |}).

(** The modal opened on the third record. *)
Definition editing : UsersList.AppState Z :=
  UsersList.handleEditUser listed (person 3).

(** The delete dialogue opened on the third record. *)
Definition deleting : UsersList.AppState Z :=
  UsersList.handleDeleteUser listed (person 3).

(** A reply that refuses a request. *)
Definition refusal : Users.Reply (Users.Echo Z) :=
  Users.Response false
    {| Users.echo_error := Some "Missing fields"%string;
       Users.echo := {| Users.draft_id := None; Users.draft_first_name := None;
                        Users.draft_last_name := None; Users.draft_email := None;
                        Users.draft_avatar := None |} |}.

Definition noon : UI.Env := {| UI.now := 1700000000000; UI.random := 1 # 2 |}.

End Sample.

(** * Further vocabulary *)

Section MoreVocabulary.
Context {Id : Type} `{LooseEq Id}.



End MoreVocabulary.

(** The event [e], dispatched in [w], is a login, a registration or a
    check of the session that succeeds with the token [t]. *)
Definition succeeds_with (w : Auth.World) (e : Auth.Event) (t : string) : Prop :=
  exists payload,
    Auth.session_token payload = Some t
    /\ match e with
       | Auth.LoginDone address r _ =>
           snd (Auth.loginUser (Auth.authToken w) address r)
           = Auth.Fulfilled payload
       | Auth.RegisterDone address r =>
           snd (Auth.registerUser (Auth.authToken w) address r)
           = Auth.Fulfilled payload
       | Auth.CheckDone =>
           snd (Auth.checkAuthStatus (Auth.authToken w)) = Auth.Fulfilled payload
       | _ => False
       end.

(** The page is loaded again: the store starts from its initial state
    and [localStorage] keeps what it held. *)
Definition reloaded (w : Auth.World) : Auth.World :=
  {| Auth.auth := Auth.initialState; Auth.authToken := Auth.authToken w |}.

Section TimerVocabulary.
Context {Id : Type}.

(** Every queued notification of positive duration has a pending timer
    due within its duration from now. *)
Definition covered (w : Timers.World Id) : Prop :=
  Forall (fun n => 0 < UI.duration n ->
                   armed (UI.id n) (Timers.clock w + UI.duration n) w)
    (UI.notifications (Timers.ui w)).

End TimerVocabulary.

Section ListVocabulary.
Context {Id : Type}.

(** The modal is in one of its two modes, with a selected user exactly
    in the edit mode, and in the create mode whenever it is closed. *)
Definition modal_consistent (ui : UI.State Id) : Prop :=
  ((UI.modalMode ui = "create"%string /\ UI.selectedUser ui = None)
   \/ (UI.modalMode ui = "edit"%string /\ UI.selectedUser ui <> None))
  /\ (UI.isUserModalOpen ui = false -> UI.modalMode ui = "create"%string).

(** A notification as the list makes them: of the default duration and
    of one of three types. *)
Definition standard_notice (n : UI.Notification) : Prop :=
  UI.duration n = 5000
  /\ (UI.type n = "success"%string \/ UI.type n = "error"%string
      \/ UI.type n = "info"%string).

(** The fields of the ui slice that no handler assigns. *)
Definition untouched (ui : UI.State Id) : Prop :=
  UI.itemsPerPage ui = 10
  /\ UI.theme ui = "light"%string
  /\ UI.sidebarOpen ui = false
  /\ UI.sortField ui = None
  /\ UI.sortDirection ui = "asc"%string
  /\ UI.activeFilters ui = ∅
  /\ UI.isDeleting ui = false
  /\ UI.isSaving ui = false.

End ListVocabulary.

Section FilterVocabulary.
Context {Id : Type}.

(** The three actions of the ui slice on the active filters. *)
Inductive FilterAction : Type :=
  | SetFilter (key : string) (value : option string)
  | ClearFilter (key : string)
  | ClearAllFilters.

Definition filterStep (ui : UI.State Id) (a : FilterAction) : UI.State Id :=
  match a with
  | SetFilter key value => UI.setFilter ui key value
  | ClearFilter key => UI.clearFilter ui key
  | ClearAllFilters => UI.clearAllFilters ui
  end.

(** No active filter has an empty value. *)
Definition filters_set (ui : UI.State Id) : Prop :=
  map_Forall (fun _ value => Js.truthy value = true) (UI.activeFilters ui).

End FilterVocabulary.

(** * Properties *)

(** ** The embedding at work *)

Section AtWork.
#[local] Existing Instance Js.lowerLatinSigma.

Example toLowerCase_address :
  Js.toLowerCase "Eve.Holt@ReqRes.in" = "eve.holt@reqres.in"%string.
Proof. reflexivity. Qed.

Example toLowerCase_sigma :
  Js.toLowerCase "AΣB" = "aσb"%string
  /\ Js.toLowerCase "AΣ" = "aς"%string
  /\ Js.toLowerCase "Σ" = "σ"%string.
Proof. repeat split. Qed.

Example toDouble_nearest :
  Js.toDouble (1 # 10) = (3602879701896397 # 36028797018963968)%Q
  /\ Js.toDouble 9007199254740993 = 9007199254740992%Q
  /\ Js.toDouble 9007199254740995 = 9007199254740996%Q
  /\ Js.toDouble (1700000000000 + (1 # 2)) = (3400000000001 # 2)%Q.
Proof. repeat split. Qed.

(** Two notifications of one millisecond whose random numbers are close
    get one id. *)
Example makeNotification_same_id :
  let env r := {| UI.now := 1700000000000; UI.random := r |} in
  UI.id (UI.makeNotification (env (1 # 4)) (UsersList.notice "info" "Welcome"))
  = UI.id (UI.makeNotification (env (262145 # 1048576))
             (UsersList.notice "info" "Welcome")).
Proof. vm_compute. reflexivity. Qed.

Example handleLogout_notice :
  forall (s : UsersList.AppState Z) (env : UI.Env),
    UsersList.ui (UsersList.handleLogout s env)
    = UI.addNotification (UsersList.ui s) env Timers.logoutNotice.
Proof. reflexivity. Qed.

Example includes_inside :
  Js.includes "george" "org" = true
  /\ Js.includes "george" "" = true
  /\ Js.includes "george" "geo " = false.
Proof. repeat split. Qed.

Example slice_window :
  Js.slice [1; 2; 3; 4; 5] 2 4 = [3; 4]
  /\ Js.slice [1; 2; 3; 4; 5] 3 10 = [4; 5]
  /\ Js.slice [1; 2; 3; 4; 5] 10 20 = []
  /\ Js.slice [1; 2; 3; 4; 5] (-2) 5 = [4; 5].
Proof. repeat split. Qed.

Example filterUsers_by_last_name :
  List.map Users.id (Users.selectFilteredUsers
                       (Users.setSearchQuery Sample.trio "FERG")) = [8].
Proof. reflexivity. Qed.

Example updateUser_first_carrier :
  List.map Users.first_name
    (Users.users
       (Users.updateUser_fulfilled Sample.two_sevens
          {| Users.patch_id := 7;
             Users.patch_first_name := Some (Some "Evelyn"%string);
             Users.patch_last_name := Some None; Users.patch_email := None;
             Users.patch_avatar := None |}))
  = [Some "Evelyn"%string; Some "Eva"%string]
  /\ List.map Users.last_name
       (Users.users
          (Users.updateUser_fulfilled Sample.two_sevens
             {| Users.patch_id := 7;
                Users.patch_first_name := Some (Some "Evelyn"%string);
                Users.patch_last_name := Some None; Users.patch_email := None;
                Users.patch_avatar := None |}))
     = [None; Some "Holt"%string].
Proof. split; reflexivity. Qed.

Example paginate_last_page :
  UI.paginate 3 10 25
  = {| UI.page := 3; UI.perPage := 10; UI.totalPages := Js.Num 3;
       UI.totalItems := 25; UI.startIndex := 20; UI.endIndex := 30;
       UI.hasNextPage := false; UI.hasPrevPage := true |}.
Proof. reflexivity. Qed.

Example paginate_without_page_size :
  UI.totalPages (UI.paginate 1 0 25) = Js.PosInfinity
  /\ UI.totalPages (UI.paginate 1 0 0) = Js.NaN.
Proof. split; reflexivity. Qed.

Example makeNotification_durations :
  let env := {| UI.now := 1700000000000; UI.random := 1 # 2 |} in
  UI.duration (UI.makeNotification env (Sample.lasting 0)) = 0
  /\ UI.duration (UI.makeNotification env (UsersList.notice "info" "Welcome")) = 5000
  /\ UI.timestamp (UI.makeNotification env (Sample.lasting 0)) = 1700000000000.
Proof. repeat split. Qed.

Example timers_of_two_notices :
  let w : Timers.World Z :=
    Timers.run (Timers.init 0)
      [Timers.Add (1 # 2) (Sample.lasting 0);
       Timers.Add (3 # 8) (Sample.lasting 300);
       Timers.Elapse 299] in
  List.map UI.duration (UI.notifications (Timers.ui w)) = [0; 300]
  /\ List.map Timers.due (Timers.pending w) = [300]
  /\ List.map UI.duration
       (UI.notifications (Timers.ui (Timers.step w (Timers.Elapse 1)))) = [0]
  /\ Timers.pending (Timers.step w (Timers.Elapse 1)) = [].
Proof. repeat split. Qed.

(** The notification of a logout gets its timer when the list is shown
    again. *)
Example timers_after_logout :
  let w : Timers.World Z :=
    Timers.run (Timers.init 0)
      [Timers.Logout (1 # 2); Timers.Elapse (Z.to_nat 7000)] in
  List.map UI.duration (UI.notifications (Timers.ui w)) = [5000]
  /\ Timers.pending w = []
  /\ List.map Timers.due (Timers.pending (Timers.step w Timers.Mount)) = [12000].
Proof. vm_compute. repeat split. Qed.

End AtWork.

(** ** The modal, the page size and the reset of the ui slice *)

Section UiReducers.
Context {Id : Type}.
Implicit Types state : UI.State Id.

(** C8.  Whatever the modal state before (open or closed, any mode, any
    selected user), [closeUserModal] leaves the modal closed, in mode
    [create] and without a selected user. *)
Theorem closeUserModal_resets_modal state :
  UI.isUserModalOpen (UI.closeUserModal state) = false
  /\ UI.modalMode (UI.closeUserModal state) = "create"%string
  /\ UI.selectedUser (UI.closeUserModal state) = None.
Proof. repeat split. Qed.

(** C9.  [setItemsPerPage n] stores [n] as the page size and puts the
    current page back to 1, whatever the page before. *)
Theorem setItemsPerPage_resets_page state (n : Z) :
  UI.itemsPerPage (UI.setItemsPerPage state n) = n
  /\ UI.currentPage (UI.setItemsPerPage state n) = 1.
Proof. split; reflexivity. Qed.

(** C10.  [resetUIState] returns every field of the view state to its
    initial value, except the theme, which keeps the value it had. *)
Theorem resetUIState_keeps_theme_only state :
  let state' := UI.resetUIState state in
  let initial := @UI.initialState Id in
  UI.viewMode state' = UI.viewMode initial
  /\ UI.isUserModalOpen state' = UI.isUserModalOpen initial
  /\ UI.modalMode state' = UI.modalMode initial
  /\ UI.selectedUser state' = UI.selectedUser initial
  /\ UI.deleteConfirmUser state' = UI.deleteConfirmUser initial
  /\ UI.currentPage state' = UI.currentPage initial
  /\ UI.itemsPerPage state' = UI.itemsPerPage initial
  /\ UI.notifications state' = UI.notifications initial
  /\ UI.isDeleting state' = UI.isDeleting initial
  /\ UI.isSaving state' = UI.isSaving initial
  /\ UI.sidebarOpen state' = UI.sidebarOpen initial
  /\ UI.sortField state' = UI.sortField initial
  /\ UI.sortDirection state' = UI.sortDirection initial
  /\ UI.activeFilters state' = UI.activeFilters initial
  /\ UI.theme state' = UI.theme state.
Proof. cbv zeta. repeat split. Qed.

End UiReducers.

(** ** Failed requests of the users slice *)

Section UsersRejected.
Context {Id : Type} `{LooseEq Id}.
Implicit Types state : Users.State Id.

Lemma rejected_frame state (message : string) :
  Users.users (Users.rejected state message) = Users.users state
  /\ Users.searchQuery (Users.rejected state message) = Users.searchQuery state
  /\ Users.error (Users.rejected state message) = Some message
  /\ Users.loading (Users.rejected state message) = false.
Proof. repeat split. Qed.

(** C6.  The rejected transition of each of the four requests (fetch,
    create, update, delete) leaves the collection and the search query
    as they were, sets [error] to the failure message and clears
    [loading]; so does the whole failed request, from its pending action
    on. *)
Theorem rejected_keeps_users_and_query state (message : string) :
  Forall
    (fun rejected : Users.State Id -> string -> Users.State Id =>
       (Users.users (rejected state message) = Users.users state
        /\ Users.searchQuery (rejected state message) = Users.searchQuery state
        /\ Users.error (rejected state message) = Some message
        /\ Users.loading (rejected state message) = false)
       /\ (Users.users (rejected (Users.pending state) message) = Users.users state
           /\ Users.searchQuery (rejected (Users.pending state) message)
              = Users.searchQuery state
           /\ Users.error (rejected (Users.pending state) message) = Some message
           /\ Users.loading (rejected (Users.pending state) message) = false))
    [Users.fetchUsers_rejected; Users.createUser_rejected;
     Users.updateUser_rejected; Users.deleteUser_rejected].
Proof.
  repeat constructor; apply (rejected_frame (Users.pending state)).
Qed.

End UsersRejected.

(** ** The pagination engine *)

Section Pagination.

Lemma Qceiling_quot (a b : Z) :
  Qceiling (inject_Z a / inject_Z b) = - ((- a) `div` b).
Proof.
  unfold Qceiling. f_equal. rewrite Zdiv_Qdiv. apply Qfloor_comp.
  rewrite inject_Z_opp. unfold Qdiv. ring.
Qed.

Lemma ceil_quot_bounds (a b : Z) :
  0 < b ->
  exists c, Js.ceil_quot a b = Js.Num c /\ (c - 1) * b < a <= c * b.
Proof.
  intros Hb. unfold Js.ceil_quot.
  destruct (Z.eqb_spec b 0) as [->|_]; [lia|].
  exists (- ((- a) `div` b)). split; [by rewrite Qceiling_quot|].
  pose proof (Z.div_mod (- a) b ltac:(lia)) as Hdm.
  pose proof (Z.mod_pos_bound (- a) b Hb) as Hm.
  nia.
Qed.

(** C3.  For a page size above zero and a non-negative number of items,
    [totalPages] is the larger of 1 and the ceiling [c] of
    [totalItems / itemsPerPage] (the integer with
    [(c - 1) * itemsPerPage < totalItems <= c * itemsPerPage]), hence
    never below 1; [startIndex] is [(currentPage - 1) * itemsPerPage] and
    [endIndex] is [startIndex + itemsPerPage].  25 items in pages of 10
    make 3 pages and no item still makes 1, the window of page 1 being
    0 to 10 in both cases. *)
Theorem paginate_window (totalItems itemsPerPage currentPage : Z) :
  0 <= totalItems -> 0 < itemsPerPage ->
  let data := UI.paginate currentPage itemsPerPage totalItems in
  (exists c,
     (c - 1) * itemsPerPage < totalItems <= c * itemsPerPage
     /\ UI.totalPages data = Js.Num (Z.max 1 c))
  /\ UI.totalPages data <> Js.Num 0
  /\ UI.startIndex data = (currentPage - 1) * itemsPerPage
  /\ UI.endIndex data = UI.startIndex data + itemsPerPage
  /\ (UI.totalPages (UI.paginate 1 10 25) = Js.Num 3
      /\ UI.startIndex (UI.paginate 1 10 25) = 0
      /\ UI.endIndex (UI.paginate 1 10 25) = 10)
  /\ (UI.totalPages (UI.paginate 1 10 0) = Js.Num 1
      /\ UI.startIndex (UI.paginate 1 10 0) = 0
      /\ UI.endIndex (UI.paginate 1 10 0) = 10).
Proof.
  intros Hn Hp data.
  destruct (ceil_quot_bounds totalItems itemsPerPage Hp) as (c & Hc & Hb).
  assert (Ht : UI.totalPages data = Js.Num (Z.max 1 c)).
  { unfold data, UI.paginate. cbn [UI.totalPages]. by rewrite Hc. }
  split; [by exists c|].
  split; [rewrite Ht; intros [= E]; lia|].
  repeat split; vm_compute; reflexivity.
Qed.

(** The first example of the specification, through the theorem. *)
Lemma paginate_window_witness :
  (0 <= 25 /\ 0 < 10)
  /\ (exists c, (c - 1) * 10 < 25 <= c * 10
                /\ UI.totalPages (UI.paginate 1 10 25) = Js.Num (Z.max 1 c))
  /\ UI.totalPages (UI.paginate 1 10 25) = Js.Num 3.
Proof.
  pose proof (paginate_window 25 10 1 ltac:(lia) ltac:(lia)) as H.
  cbv zeta in H. destruct H as (Hc & _ & _ & _ & (H25 & _) & _).
  split; [lia|]. split; assumption.
Defined.

End Pagination.

(** ** Deleting a record *)

Section Delete.
Context {Id : Type} `{LooseEq Id}.
Implicit Types (state : Users.State Id) (us : list (Users.User Id)).

Lemma filter_negb_length {A : Type} (f : A -> bool) (l : list A) :
  (length (List.filter (fun x => negb (f x)) l) + length (List.filter f l)
   = length l)%nat.
Proof.
  induction l as [|x l IH]; [reflexivity|].
  cbn [List.filter]. destruct (f x); cbn [negb length]; lia.
Qed.

Lemma filter_none {A : Type} (f : A -> bool) (l : list A) :
  List.filter f (List.filter (fun x => negb (f x)) l) = [].
Proof.
  induction l as [|x l IH]; [reflexivity|].
  cbn [List.filter]. destruct (f x) eqn:E; cbn [negb]; [exact IH|].
  cbn [List.filter]. by rewrite E.
Qed.

Lemma filter_all {A : Type} (f : A -> bool) (l : list A) :
  List.filter (fun x => negb (f x)) l = l <-> List.filter f l = [].
Proof.
  induction l as [|x l IH]; [done|].
  cbn [List.filter]. destruct (f x) eqn:E; cbn [negb].
  - split; [|done]. intros Hl.
    pose proof (filter_negb_length f l) as Hlen. rewrite Hl in Hlen.
    cbn [length] in Hlen. lia.
  - rewrite <- IH. split; [by intros [= ->]|by intros ->].
Qed.

(** C5, as the reducer has it.  A fulfilled delete removes every record
    whose id [==] the deleted id: none of them remains and the length
    drops by their number, which is exactly 1 when exactly one record
    carried the id; when no record carried it the collection is
    unchanged. *)
Theorem deleteUser_removes_carriers state (i : Id) :
  let state' := Users.deleteUser_fulfilled state i in
  carrying i (Users.users state') = []
  /\ (length (Users.users state') + length (carrying i (Users.users state))
      = length (Users.users state))%nat
  /\ (length (carrying i (Users.users state)) = 1%nat ->
      S (length (Users.users state')) = length (Users.users state))
  /\ (carrying i (Users.users state) = [] ->
      Users.users state' = Users.users state).
Proof.
  cbv zeta. cbn [Users.deleteUser_fulfilled Users.users]. unfold carrying.
  pose proof (filter_negb_length (fun u => loose_eq (Users.id u) i)
                (Users.users state)) as Hlen.
  split; [apply filter_none|]. split; [exact Hlen|]. split.
  - intros H1. lia.
  - intros H0. by apply filter_all.
Qed.

End Delete.

(** C5, as stated, fails on a collection where two records carry the
    deleted id: the id is present, and the length drops from 2 to 0. *)
Lemma deleteUser_drops_two :
  (exists u, In u (Users.users Sample.two_sevens) /\ loose_eq (Users.id u) 7 = true)
  /\ length (Users.users Sample.two_sevens) = 2%nat
  /\ length (Users.users (Users.deleteUser_fulfilled Sample.two_sevens 7)) = 0%nat
  /\ ~ (forall (state : Users.State Z) (i : Z),
          (exists u, In u (Users.users state) /\ loose_eq (Users.id u) i = true) ->
          S (length (Users.users (Users.deleteUser_fulfilled state i)))
          = length (Users.users state)).
Proof.
  assert (Hin : exists u, In u (Users.users Sample.two_sevens)
                          /\ loose_eq (Users.id u) 7 = true).
  { exists (Sample.seven "Eve"). split; [left; reflexivity|reflexivity]. }
  repeat split; try assumption.
  intros Hall. specialize (Hall Sample.two_sevens 7 Hin). discriminate Hall.
Qed.

(** The amended statement on a collection of three records: one carries
    the id 8, none the id 5. *)
Lemma deleteUser_removes_carriers_witness :
  length (carrying 8 (Users.users Sample.trio)) = 1%nat
  /\ S (length (Users.users (Users.deleteUser_fulfilled Sample.trio 8)))
     = length (Users.users Sample.trio)
  /\ carrying 5 (Users.users Sample.trio) = []
  /\ Users.users (Users.deleteUser_fulfilled Sample.trio 5)
     = Users.users Sample.trio.
Proof.
  pose proof (deleteUser_removes_carriers Sample.trio 8) as (_ & _ & H1 & _).
  pose proof (deleteUser_removes_carriers Sample.trio 5) as (_ & _ & _ & H0).
  split; [reflexivity|]. split; [apply H1; reflexivity|].
  split; [reflexivity|apply H0; reflexivity].
Defined.

(** ** The session *)

Section Session.

Lemma dispatch_consistent (w : Auth.World) (e : Auth.Event) :
  Auth.well_served e = true ->
  Auth.session_consistent (Auth.auth w) = true ->
  Auth.session_consistent (Auth.auth (Auth.dispatch w e)) = true.
Proof.
  intros He Hw. destruct e; cbn [Auth.dispatch Auth.auth]; try exact Hw;
    try reflexivity.
  - unfold Auth.updateUser. destruct (Auth.user (Auth.auth w)); exact Hw.
  - cbn [Auth.well_served] in He. unfold Auth.loginUser.
    destruct r as [m|ok data]; [exact Hw|].
    destruct ok; cbn [negb]; [|exact Hw].
    cbn [Auth.carries_token negb orb] in He.
    unfold Auth.session_consistent, Auth.token_present.
    cbn [Auth.loginUser_fulfilled Auth.token Auth.isAuthenticated
         Auth.session_token].
    destruct (Auth.body_token data); [reflexivity|discriminate He].
  - cbn [Auth.well_served] in He. unfold Auth.registerUser.
    destruct r as [m|ok data]; [exact Hw|].
    destruct ok; cbn [negb]; [|exact Hw].
    cbn [Auth.carries_token negb orb] in He.
    unfold Auth.session_consistent, Auth.token_present.
    cbn [Auth.registerUser_fulfilled Auth.token Auth.isAuthenticated
         Auth.session_token].
    destruct (Auth.body_token data); [reflexivity|discriminate He].
  - unfold Auth.checkAuthStatus.
    destruct (Auth.authToken w) as [t|]; cbn [Js.truthy_opt negb];
      [|reflexivity].
    destruct (Js.truthy t); reflexivity.
Qed.

(** As long as every ok reply to a login or a registration brings a
    token, the flag and the token agree in every state of the store. *)
Lemma session_consistent_when_served (storage : option string)
    (es : list Auth.Event) :
  forallb Auth.well_served es = true ->
  Auth.session_consistent (Auth.auth (Auth.run storage es)) = true.
Proof.
  unfold Auth.run.
  assert (Hgen : forall w,
             Auth.session_consistent (Auth.auth w) = true ->
             forallb Auth.well_served es = true ->
             Auth.session_consistent (Auth.auth (fold_left Auth.dispatch es w))
             = true).
  { induction es as [|e es IH]; intros w Hw Hes; [exact Hw|].
    cbn [forallb] in Hes. apply andb_prop in Hes as [He Hes].
    cbn [fold_left]. apply IH; [|exact Hes].
    by apply dispatch_consistent. }
  intros Hes. by apply Hgen.
Qed.

(** A dispatch leaves the token of the store as it was, clears it, or is
    a login, a registration or a check that succeeds with the new
    token. *)
Lemma dispatch_token_origin (w : Auth.World) (e : Auth.Event) (t : string) :
  Auth.token (Auth.auth (Auth.dispatch w e)) = Some t ->
  Auth.token (Auth.auth w) = Some t \/ succeeds_with w e t.
Proof.
  unfold succeeds_with.
  destruct e; cbn [Auth.dispatch Auth.auth]; try (by left); try discriminate.
  - unfold Auth.updateUser. destruct (Auth.user (Auth.auth w)); by left.
  - destruct (Auth.loginUser (Auth.authToken w) credentials_email r)
      as [storage' [payload|message]]; cbn [Auth.auth snd]; [|by left].
    intros Ht. right. by exists payload.
  - destruct (Auth.registerUser (Auth.authToken w) userData_email r)
      as [storage' [payload|message]]; cbn [Auth.auth snd]; [|by left].
    intros Ht. right. by exists payload.
  - destruct (Auth.checkAuthStatus (Auth.authToken w))
      as [storage' [payload|message]]; cbn [Auth.auth snd]; [|discriminate].
    intros Ht. right. by exists payload.
Qed.

Lemma run_snoc (storage : option string) (es : list Auth.Event) (e : Auth.Event) :
  Auth.run storage (es ++ [e]) = Auth.dispatch (Auth.run storage es) e.
Proof. unfold Auth.run. by rewrite fold_left_app. Qed.

(** C7.  As long as the service answers as it documents, every ok reply
    to a login or a registration bringing a token, every state the
    session store reaches has [isAuthenticated] true if and only if its
    token is present, and a token that is present was set by a login, a
    registration or a check of the session that succeeded with it during
    the run. *)
Theorem session_invariant (storage : option string) (es : list Auth.Event) :
  forallb Auth.well_served es = true ->
  let state := Auth.auth (Auth.run storage es) in
  (Auth.isAuthenticated state = true <-> Auth.token state <> None)
  /\ ~ (Auth.isAuthenticated state = true /\ Auth.token state = None)
  /\ ~ (Auth.token state <> None /\ Auth.isAuthenticated state = false)
  /\ (forall t, Auth.token state = Some t ->
                exists before e after,
                  es = before ++ e :: after
                  /\ succeeds_with (Auth.run storage before) e t).
Proof.
  intros Hes state.
  pose proof (session_consistent_when_served storage es Hes) as Hc.
  fold state in Hc. unfold Auth.session_consistent, Auth.token_present in Hc.
  assert (Hiff : Auth.isAuthenticated state = true <-> Auth.token state <> None).
  { destruct (Auth.isAuthenticated state), (Auth.token state);
      cbn in Hc; try discriminate Hc; done. }
  split; [exact Hiff|]. split; [|split].
  - intros [Ha Ht]. by apply Hiff in Ha.
  - intros [Ht Ha]. apply Hiff in Ht. congruence.
  - subst state. clear Hes Hc Hiff.
    induction es as [|e es IH] using rev_ind; intros t Ht; [discriminate Ht|].
    rewrite run_snoc in Ht.
    destruct (dispatch_token_origin _ _ _ Ht) as [Hold|Hnew].
    + destruct (IH t Hold) as (before & e0 & after & -> & Hs).
      exists before, e0, (after ++ [e]). split; [|exact Hs].
      by rewrite <- app_assoc.
    + exists es, e, []. by split.
Qed.

(** Outside what the service documents.  Were a login answered with an
    ok status and a body without a token, [loginUser] would store
    nothing and resolve, and [loginUser.fulfilled] would raise
    [isAuthenticated] over an absent token. *)
Remark login_without_token_authenticates :
  let w := Auth.run None
             [Auth.LoginPending;
              Auth.LoginDone "eve.holt@reqres.in" Sample.tokenless 1700000000000] in
  Auth.carries_token Sample.tokenless = false
  /\ Auth.isAuthenticated (Auth.auth w) = true
  /\ Auth.token (Auth.auth w) = None
  /\ Auth.authToken w = None
  /\ Auth.session_consistent (Auth.auth w) = false.
Proof. cbv zeta. repeat split. Qed.

End Session.

(** The statement on a session that signs in, signs out and signs in
    again: the token of the last state is the one of the second login. *)
Lemma session_invariant_witness :
  let es := [Auth.LoginPending;
             Auth.LoginDone "eve.holt@reqres.in" (Sample.served "QpwL5tke4Pnpja7X4")
               1700000000000;
             Auth.Logout;
             Auth.CheckDone;
             Auth.LoginDone "eve.holt@reqres.in" (Sample.served "QpwL5tke4Pnpja7X5")
               1700000060000] in
  forallb Auth.well_served es = true
  /\ Auth.isAuthenticated (Auth.auth (Auth.run None es)) = true
  /\ Auth.token (Auth.auth (Auth.run None es)) = Some "QpwL5tke4Pnpja7X5"%string
  /\ (exists before e after,
        es = before ++ e :: after
        /\ succeeds_with (Auth.run None before) e "QpwL5tke4Pnpja7X5").
Proof.
  intros es.
  pose proof (session_invariant None es ltac:(reflexivity)) as H.
  cbv zeta in H. destruct H as (Hiff & _ & _ & Hset).
  split; [reflexivity|]. split; [apply Hiff; discriminate|].
  split; [reflexivity|]. apply Hset. reflexivity.
Defined.

(** ** The filtered view *)

Section Filter.
Context {Id : Type} `{LooseEq Id} `{Js.Lowercase}.
Implicit Types (u : Users.User Id) (us : list (Users.User Id)).

Lemma prefix_app (q s : string) :
  String.prefix q s = true <-> exists post, s = (q ++ post)%string.
Proof.
  revert s. induction q as [|c q IH]; intros s.
  - split; [intros _; by exists s|]. intros _. by destruct s.
  - destruct s as [|a s]; cbn [String.prefix].
    + split; [done|intros [post E]; discriminate E].
    + destruct (Ascii.ascii_dec c a) as [->|Hne].
      * rewrite IH. split; intros [post E]; exists post.
        -- cbn [append]. by rewrite E.
        -- cbn [append] in E. by injection E.
      * split; [done|]. intros [post E]. cbn [append] in E.
        injection E as E1 _. congruence.
Qed.

(** [includes] finds the texts that occur. *)
Lemma includes_app (s q : string) :
  Js.includes s q = true <-> occurs_in q s.
Proof.
  unfold occurs_in. induction s as [|a s IH]; cbn [Js.includes].
  - rewrite orb_false_r, prefix_app. split.
    + intros [post E]. by exists EmptyString, post.
    + intros (pre & post & E). destruct pre as [|c pre]; [|discriminate E].
      by exists post.
  - rewrite orb_true_iff, prefix_app, IH. split.
    + intros [[post E]|(pre & post & E)].
      * by exists EmptyString, post.
      * exists (String a pre), post. cbn [append]. by rewrite E.
    + intros (pre & post & E). destruct pre as [|c pre].
      * left. by exists post.
      * right. cbn [append] in E. injection E as _ E. by exists pre, post.
Qed.



(** *** Text of Basic Latin characters *)

Lemma nat_of_lower (a : ascii) :
  nat_of_ascii (Js.lower_ascii a)
  = if Js.is_upper a then (nat_of_ascii a + 32)%nat else nat_of_ascii a.
Proof.
  unfold Js.lower_ascii. destruct (Js.is_upper a) eqn:E; [|reflexivity].
  apply nat_ascii_embedding. unfold Js.is_upper in E. cbv zeta in E.
  apply andb_prop in E as [_ E]. apply Nat.leb_le in E. lia.
Qed.

Lemma nat_of_ascii_inj (a b : ascii) : nat_of_ascii a = nat_of_ascii b -> a = b.
Proof.
  intros E. rewrite <- (ascii_nat_embedding a), <- (ascii_nat_embedding b).
  by rewrite E.
Qed.

Lemma lower_ascii_same (a b : ascii) :
  Js.lower_ascii a = Js.lower_ascii b <-> same_letter a b.
Proof.
  split.
  - intros E. apply (f_equal nat_of_ascii) in E. rewrite !nat_of_lower in E.
    unfold same_letter, Js.is_upper in *. cbv zeta in *.
    destruct (Nat.leb_spec 65 (nat_of_ascii a)), (Nat.leb_spec (nat_of_ascii a) 90),
      (Nat.leb_spec 65 (nat_of_ascii b)), (Nat.leb_spec (nat_of_ascii b) 90);
      cbn [andb] in E; lia.
  - intros S. apply nat_of_ascii_inj. rewrite !nat_of_lower.
    unfold same_letter, Js.is_upper in *. cbv zeta in *.
    destruct (Nat.leb_spec 65 (nat_of_ascii a)), (Nat.leb_spec (nat_of_ascii a) 90),
      (Nat.leb_spec 65 (nat_of_ascii b)), (Nat.leb_spec (nat_of_ascii b) 90);
      cbn [andb]; lia.
Qed.

Lemma foldBasicLatin_same (s t : string) :
  Js.foldBasicLatin s = Js.foldBasicLatin t <-> same_text s t.
Proof.
  split.
  - revert t. induction s as [|a s IH]; intros [|b t] E; try discriminate E.
    + constructor.
    + cbn [Js.foldBasicLatin] in E. injection E as Ea Es.
      constructor; [by apply lower_ascii_same|by apply IH].
  - induction 1 as [|a b s t Hab _ IH]; [reflexivity|].
    cbn [Js.foldBasicLatin]. f_equal; [by apply lower_ascii_same|exact IH].
Qed.

Lemma foldBasicLatin_app (s t : string) :
  Js.foldBasicLatin (s ++ t)
  = (Js.foldBasicLatin s ++ Js.foldBasicLatin t)%string.
Proof.
  induction s as [|a s IH]; [reflexivity|].
  simpl. by rewrite IH.
Qed.

Lemma foldBasicLatin_split (s x y : string) :
  Js.foldBasicLatin s = (x ++ y)%string ->
  exists s1 s2, s = (s1 ++ s2)%string
                /\ Js.foldBasicLatin s1 = x /\ Js.foldBasicLatin s2 = y.
Proof.
  revert s. induction x as [|c x IH]; intros s E.
  - exists EmptyString, s. repeat split. exact E.
  - destruct s as [|a s]; [discriminate E|].
    cbn [Js.foldBasicLatin append] in E. injection E as Ec Es.
    destruct (IH s Es) as (s1 & s2 & -> & E1 & E2).
    exists (String a s1), s2. repeat split; [|exact E2].
    cbn [Js.foldBasicLatin]. by rewrite Ec, E1.
Qed.

(** On folded text, to occur in lower case is to be contained up to
    case. *)
Lemma folded_occurs_contains (s q : string) :
  occurs_in (Js.foldBasicLatin q) (Js.foldBasicLatin s) <-> contains_ci s q.
Proof.
  unfold occurs_in. split.
  - intros (x & y & E).
    destruct (foldBasicLatin_split _ _ _ E) as (pre & rest & -> & _ & E').
    destruct (foldBasicLatin_split _ _ _ E') as (mid & post & -> & Em & _).
    exists pre, mid, post. split; [reflexivity|by apply foldBasicLatin_same].
  - intros (pre & mid & post & -> & Hm).
    exists (Js.foldBasicLatin pre), (Js.foldBasicLatin post).
    rewrite !foldBasicLatin_app. by apply foldBasicLatin_same in Hm as ->.
Qed.


(** The case conversion of the sample data is the fold on text of Basic
    Latin characters. *)
Lemma lowerLatinSigma_basic (s : string) :
  basic_latin s = true -> Js.lowerLatinSigma s = Js.foldBasicLatin s.
Proof.
  unfold Js.lowerLatinSigma. generalize false.
  induction s as [|c r IH]; intros after Hs; [reflexivity|].
  cbn [basic_latin] in Hs. apply andb_prop in Hs as [Hc Hr].
  apply Nat.ltb_lt in Hc.
  cbn [Js.lowerFrom Js.foldBasicLatin]. destruct r as [|d r']; [reflexivity|].
  unfold Js.is_capital_sigma, Js.is_small_sigma.
  destruct (Nat.eqb_spec (nat_of_ascii c) 206) as [E|_]; [lia|].
  destruct (Nat.eqb_spec (nat_of_ascii c) 207) as [E|_]; [lia|].
  cbn [andb]. f_equal. by apply IH.
Qed.


End Filter.

Section FilterSamples.
#[local] Existing Instance Js.lowerLatinSigma.



End FilterSamples.

(** ** The current page after the view shrinks *)

Section CurrentPage.
Context {Id : Type} `{LooseEq Id} `{Js.Lowercase}.
Implicit Types s : UsersList.AppState Id.

Lemma pages_from_one (n size : Z) :
  0 < size ->
  page_within 1 (Js.max_with 1 (Js.ceil_quot n size)).
Proof.
  intros Hsize. destruct (ceil_quot_bounds n size Hsize) as (c & -> & _).
  exists (Z.max 1 c). split; [reflexivity|lia].
Qed.

(** What the handlers do for the current page.  After a successful
    delete and after every change of the search query the handler
    dispatches [resetPagination]: the current page is 1, which is a page
    both of the pagination data and of the filtered view. *)
Lemma page_reset_after_delete_and_search s (env : UI.Env)
    (deleteConfirm : Users.User Id) (value : string) :
  0 < UI.itemsPerPage (UsersList.ui s) ->
  UI.deleteConfirmUser (UsersList.ui s) = Some deleteConfirm ->
  let deleted := UsersList.confirmDelete s env UsersList.Succeeds in
  let searched := UsersList.handleSearch s value in
  (Users.users (UsersList.users deleted)
   = Users.users (Users.deleteUser_fulfilled (UsersList.users s)
                    (Users.id deleteConfirm))
   /\ UI.currentPage (UsersList.ui deleted) = 1
   /\ page_within (UI.currentPage (UsersList.ui deleted))
        (UI.totalPages (UI.selectPaginationData (UsersList.ui deleted)
                          (UsersList.users deleted)))
   /\ page_within (UI.currentPage (UsersList.ui deleted))
        (filteredTotalPages deleted))
  /\ (Users.searchQuery (UsersList.users searched) = value
      /\ UI.currentPage (UsersList.ui searched) = 1
      /\ page_within (UI.currentPage (UsersList.ui searched))
           (UI.totalPages (UI.selectPaginationData (UsersList.ui searched)
                             (UsersList.users searched)))
      /\ page_within (UI.currentPage (UsersList.ui searched))
           (filteredTotalPages searched)).
Proof.
  intros Hsize Hconfirm deleted searched. split.
  - subst deleted. unfold UsersList.confirmDelete. rewrite Hconfirm.
    repeat split; try reflexivity; by apply pages_from_one.
  - subst searched. repeat split; try reflexivity; by apply pages_from_one.
Qed.

End CurrentPage.

Section CurrentPageSamples.
#[local] Existing Instance Js.lowerLatinSigma.

(** C1 at the failing input.  The list holds 25 records of which 11
    match the query "ann".  The page count of the pagination data comes
    from the whole collection, so the button of page 3 is rendered, and a
    click on it leaves the list on page 3 of a filtered view of 2 pages,
    with no row to show: a reachable state whose current page lies
    beyond the last page of the filtered view. *)
Theorem page_beyond_filtered_view :
  UsersList.reachable Sample.stranded
  /\ length (UsersList.shownUsers Sample.stranded) = 11%nat
  /\ filteredTotalPages Sample.stranded = Js.Num 2
  /\ UI.currentPage (UsersList.ui Sample.stranded) = 3
  /\ UsersList.currentUsers Sample.stranded = []
  /\ ~ (forall s : UsersList.AppState Z,
          UsersList.reachable s ->
          page_within (UI.currentPage (UsersList.ui s))
            (filteredTotalPages s)).
Proof.
  assert (Hreach : UsersList.reachable Sample.stranded).
  { apply UsersList.reach_page; [|vm_compute; reflexivity].
    apply UsersList.reach_search, UsersList.reach_fetched, UsersList.reach_init. }
  assert (Hpages : filteredTotalPages Sample.stranded = Js.Num 2)
    by (vm_compute; reflexivity).
  repeat split; try assumption; try (vm_compute; reflexivity).
  intros Hall. destruct (Hall Sample.stranded Hreach) as (last & Hlast & Hle).
  rewrite Hpages in Hlast. injection Hlast as <-.
  change (UI.currentPage (UsersList.ui Sample.stranded)) with 3 in Hle. lia.
Qed.

(** The same without a search.  On page 3 of the 25 records the list is
    fetched again and the service returns 2 records: [fetchUsers.fulfilled]
    replaces the collection, nothing touches the current page, and the
    list is on page 3 of 1. *)
Lemma page_beyond_after_refetch :
  UsersList.reachable Sample.shrunk
  /\ UI.currentPage (UsersList.ui Sample.shrunk) = 3
  /\ UI.totalPages (UI.selectPaginationData (UsersList.ui Sample.shrunk)
                      (UsersList.users Sample.shrunk)) = Js.Num 1
  /\ filteredTotalPages Sample.shrunk = Js.Num 1
  /\ UsersList.currentUsers Sample.shrunk = [].
Proof.
  split; [|repeat split; vm_compute; reflexivity].
  apply UsersList.reach_fetched.
  apply UsersList.reach_page; [|vm_compute; reflexivity].
  apply UsersList.reach_fetched, UsersList.reach_init.
Qed.

(** The handlers on the list left on page 3: a search and a confirmed
    delete both put it back on page 1. *)
Lemma page_reset_after_delete_and_search_witness :
  let s := UsersList.handleDeleteUser Sample.stranded (Sample.person 3) in
  let env := {| UI.now := 1700000000000; UI.random := 1 # 2 |} in
  0 < UI.itemsPerPage (UsersList.ui s)
  /\ UI.deleteConfirmUser (UsersList.ui s) = Some (Sample.person 3)
  /\ UI.currentPage (UsersList.ui s) = 3
  /\ UI.currentPage
       (UsersList.ui (UsersList.confirmDelete s env UsersList.Succeeds)) = 1
  /\ UI.currentPage (UsersList.ui (UsersList.handleSearch s "bob")) = 1.
Proof.
  intros s env.
  pose proof (page_reset_after_delete_and_search s env (Sample.person 3) "bob"
                ltac:(reflexivity) ltac:(reflexivity)) as H.
  cbv zeta in H. destruct H as ((_ & Hd & _) & (_ & Hs & _)).
  repeat split; assumption.
Defined.

End CurrentPageSamples.

(** ** Expiry of notifications *)

Section Expiry.
Context {Id : Type}.
Implicit Types (w : Timers.World Id) (t : Timers.Timer) (n m : UI.Notification)
  (i j : Q) (e : Timers.Event) (es : list Timers.Event).

Lemma Qeq_bool_sym (x y : Q) : Qeq_bool x y = Qeq_bool y x.
Proof.
  destruct (Qeq_bool x y) eqn:E1, (Qeq_bool y x) eqn:E2; try reflexivity.
  - apply Qeq_bool_iff in E1. symmetry in E1. apply Qeq_bool_iff in E1. congruence.
  - apply Qeq_bool_iff in E2. symmetry in E2. apply Qeq_bool_iff in E2. congruence.
Qed.

Lemma Qeq_bool_trans (x y z : Q) :
  Qeq_bool x y = true -> Qeq_bool y z = true -> Qeq_bool x z = true.
Proof.
  rewrite !Qeq_bool_iff. intros -> ->. reflexivity.
Qed.

(** *** What a dispatch and the mounting do to the timers *)

Lemma rendered_pending w (ui' : UI.State Id) :
  Timers.pending (Timers.rendered w ui')
  = Timers.pending w
    ++ (if Timers.mounted w
        then Timers.armTimers (Timers.clock w) (UI.notifications ui') else []).
Proof.
  cbn [Timers.rendered Timers.pending].
  destruct (Timers.mounted w); [reflexivity|by rewrite app_nil_r].
Qed.

Lemma mount_pending w :
  Timers.pending (Timers.step w Timers.Mount)
  = Timers.pending w
    ++ (if Timers.mounted w then []
        else Timers.armTimers (Timers.clock w)
               (UI.notifications (Timers.ui w))).
Proof.
  cbn [Timers.step].
  destruct (Timers.mounted w); [by rewrite app_nil_r|reflexivity].
Qed.

Lemma mount_ui w : Timers.ui (Timers.step w Timers.Mount) = Timers.ui w.
Proof. cbn [Timers.step]. by destruct (Timers.mounted w). Qed.

Lemma mount_clock w : Timers.clock (Timers.step w Timers.Mount) = Timers.clock w.
Proof. cbn [Timers.step]. by destruct (Timers.mounted w). Qed.

Lemma fires_mounted (ts : list Timers.Timer) w :
  Timers.mounted (fold_left Timers.fire ts w) = Timers.mounted w.
Proof.
  revert w. induction ts as [|t ts IH]; intros w; [reflexivity|].
  cbn [fold_left]. by rewrite IH.
Qed.

Lemma tick_mounted w : Timers.mounted (Timers.tick w) = Timers.mounted w.
Proof. unfold Timers.tick. by rewrite fires_mounted. Qed.

Lemma ticks_mounted (ms : nat) w :
  Timers.mounted (Nat.iter ms Timers.tick w) = Timers.mounted w.
Proof.
  induction ms as [|ms IH]; [reflexivity|].
  change (Nat.iter (S ms) Timers.tick w)
    with (Timers.tick (Nat.iter ms Timers.tick w)).
  by rewrite tick_mounted.
Qed.

(** *** Time *)

Lemma armTimers_ahead (c : Z) (ns : list UI.Notification) :
  Forall (fun t => c < Timers.due t) (Timers.armTimers c ns).
Proof.
  unfold Timers.armTimers. apply Forall_forall. intros t Ht.
  apply list_elem_of_In, in_map_iff in Ht as (n & <- & Hn).
  apply filter_In in Hn as [_ Hn]. cbn [Timers.due]. lia.
Qed.

Lemma rendered_ahead w (ui' : UI.State Id) :
  timers_ahead w -> timers_ahead (Timers.rendered w ui').
Proof.
  unfold timers_ahead. rewrite rendered_pending.
  cbn [Timers.rendered Timers.clock].
  intros Hw. apply Forall_app. split; [exact Hw|].
  destruct (Timers.mounted w); [apply armTimers_ahead|apply Forall_nil_2].
Qed.

Lemma fires_ahead (ts : list Timers.Timer) w :
  timers_ahead w -> timers_ahead (fold_left Timers.fire ts w).
Proof.
  revert w. induction ts as [|t ts IH]; intros w Hw; [exact Hw|].
  cbn [fold_left]. apply IH. by apply rendered_ahead.
Qed.

Lemma tick_ahead w : timers_ahead (Timers.tick w).
Proof.
  unfold Timers.tick. apply fires_ahead. unfold timers_ahead.
  cbn [Timers.pending Timers.clock]. apply Forall_forall. intros t Ht.
  apply list_elem_of_In, filter_In in Ht as [_ Ht]. lia.
Qed.

Lemma step_ahead w e : timers_ahead w -> timers_ahead (Timers.step w e).
Proof.
  intros Hw. destruct e as [random payload|j|ms|random|].
  - by apply rendered_ahead.
  - by apply rendered_ahead.
  - cbn [Timers.step]. destruct ms as [|ms]; [exact Hw|].
    change (Nat.iter (S ms) Timers.tick w)
      with (Timers.tick (Nat.iter ms Timers.tick w)).
    apply tick_ahead.
  - exact Hw.
  - unfold timers_ahead. rewrite mount_pending, mount_clock.
    apply Forall_app. split; [exact Hw|].
    destruct (Timers.mounted w); [apply Forall_nil_2|apply armTimers_ahead].
Qed.

Lemma run_ahead es w : timers_ahead w -> timers_ahead (Timers.run w es).
Proof.
  unfold Timers.run. revert w.
  induction es as [|e es IH]; intros w Hw; [exact Hw|].
  cbn [fold_left]. apply IH. by apply step_ahead.
Qed.

Lemma fires_clock (ts : list Timers.Timer) w :
  Timers.clock (fold_left Timers.fire ts w) = Timers.clock w.
Proof.
  revert w. induction ts as [|t ts IH]; intros w; [reflexivity|].
  cbn [fold_left]. by rewrite IH.
Qed.

Lemma tick_clock w : Timers.clock (Timers.tick w) = Timers.clock w + 1.
Proof. unfold Timers.tick. by rewrite fires_clock. Qed.

Lemma ticks_clock (ms : nat) w :
  Timers.clock (Nat.iter ms Timers.tick w) = Timers.clock w + Z.of_nat ms.
Proof.
  induction ms as [|ms IH]; [simpl; lia|].
  change (Nat.iter (S ms) Timers.tick w)
    with (Timers.tick (Nat.iter ms Timers.tick w)).
  rewrite tick_clock, IH. lia.
Qed.

Lemma run_clock es w :
  Timers.clock (Timers.run w es) = Timers.clock w + Timers.elapsed es.
Proof.
  unfold Timers.run. revert w.
  induction es as [|e es IH]; intros w; [cbn; lia|].
  cbn [fold_left]. rewrite IH.
  destruct e as [random payload|j|ms|random|]; cbn [Timers.elapsed];
    try reflexivity.
  - cbn [Timers.step]. rewrite ticks_clock. lia.
  - by rewrite mount_clock.
Qed.

(** *** A notification of positive duration is removed when due *)

Lemma queued_removed i j (ui0 : UI.State Id) w :
  Timers.queued i w = false ->
  UI.notifications ui0 = UI.notifications (Timers.ui w) ->
  Timers.queued i (Timers.rendered w (UI.removeNotification ui0 j)) = false.
Proof.
  unfold Timers.queued.
  cbn [Timers.rendered Timers.ui UI.removeNotification UI.with_notifications
       UI.notifications].
  intros Hq ->. induction (UI.notifications (Timers.ui w)) as [|n ns IH];
    [reflexivity|].
  cbn [existsb] in Hq. apply orb_false_elim in Hq as [Hn Hns].
  cbn [List.filter]. destruct (negb (Qeq_bool (UI.id n) j)); [|by apply IH].
  cbn [existsb]. rewrite Hn. by apply IH.
Qed.

Lemma queued_target_removed i t w :
  Qeq_bool (Timers.target t) i = true ->
  Timers.queued i (Timers.fire w t) = false.
Proof.
  intros Ht. unfold Timers.queued, Timers.fire.
  cbn [Timers.rendered Timers.ui UI.removeNotification UI.with_notifications
       UI.notifications].
  induction (UI.notifications (Timers.ui w)) as [|n ns IH]; [reflexivity|].
  cbn [List.filter]. destruct (Qeq_bool (UI.id n) (Timers.target t)) eqn:E;
    cbn [negb]; [exact IH|].
  cbn [existsb]. rewrite IH, orb_false_r.
  destruct (Qeq_bool (UI.id n) i) eqn:E'; [|reflexivity].
  rewrite Qeq_bool_sym in Ht.
  by rewrite (Qeq_bool_trans _ _ _ E' Ht) in E.
Qed.

Lemma armed_rendered i deadline w (ui' : UI.State Id) :
  armed i deadline w -> armed i deadline (Timers.rendered w ui').
Proof.
  unfold armed. rewrite rendered_pending. intros Hw.
  apply Exists_app. by left.
Qed.

Lemma fires_unqueued (ts : list Timers.Timer) i w :
  Timers.queued i w = false ->
  Timers.queued i (fold_left Timers.fire ts w) = false.
Proof.
  revert w. induction ts as [|t ts IH]; intros w Hw; [exact Hw|].
  cbn [fold_left]. apply IH. by apply queued_removed.
Qed.

Lemma fires_armed (ts : list Timers.Timer) i deadline w :
  armed i deadline w -> armed i deadline (fold_left Timers.fire ts w).
Proof.
  revert w. induction ts as [|t ts IH]; intros w Hw; [exact Hw|].
  cbn [fold_left]. apply IH. by apply armed_rendered.
Qed.

Lemma fires_target (ts : list Timers.Timer) i w :
  Exists (fun t => Qeq_bool (Timers.target t) i = true) ts ->
  Timers.queued i (fold_left Timers.fire ts w) = false.
Proof.
  intros Hts. revert w.
  induction Hts as [t ts Ht|t ts _ IH]; intros w; cbn [fold_left].
  - apply fires_unqueued. by apply queued_target_removed.
  - apply IH.
Qed.

Lemma tick_expiring i deadline w :
  expiring i deadline w -> expiring i deadline (Timers.tick w).
Proof.
  unfold Timers.tick. intros [Hq|Ha].
  - left. by apply fires_unqueued.
  - apply Exists_exists in Ha as (t & Ht & Hi & Hd).
    apply list_elem_of_In in Ht.
    destruct (Z.ltb_spec (Timers.clock w + 1) (Timers.due t)) as [Hlt|Hge].
    + right. apply fires_armed. unfold armed. cbn [Timers.pending].
      apply Exists_exists. exists t. split; [|by split].
      apply list_elem_of_In, filter_In. split; [exact Ht|by apply Z.ltb_lt].
    + left. apply fires_target. apply Exists_exists. exists t.
      split; [|exact Hi].
      apply list_elem_of_In, filter_In. split; [exact Ht|by apply Z.leb_le].
Qed.

Lemma ticks_expiring (ms : nat) i deadline w :
  expiring i deadline w -> expiring i deadline (Nat.iter ms Timers.tick w).
Proof.
  intros Hw. induction ms as [|ms IH]; [exact Hw|].
  change (Nat.iter (S ms) Timers.tick w)
    with (Timers.tick (Nat.iter ms Timers.tick w)).
  by apply tick_expiring.
Qed.

Lemma existsb_added i (ns : list UI.Notification) n :
  Qeq_bool (UI.id n) i = false ->
  existsb (fun m => Qeq_bool (UI.id m) i) (ns ++ [n])
  = existsb (fun m => Qeq_bool (UI.id m) i) ns.
Proof.
  intros Hi. rewrite existsb_app. cbn [existsb]. rewrite Hi.
  by rewrite !orb_false_r.
Qed.

Lemma queued_added i w (env : UI.Env) (payload : UI.NotificationPayload) :
  Qeq_bool (UI.id (UI.makeNotification env payload)) i = false ->
  Timers.queued i (Timers.rendered w (UI.addNotification (Timers.ui w) env payload))
  = Timers.queued i w.
Proof.
  intros Hi. unfold Timers.queued.
  cbn [Timers.rendered Timers.ui UI.addNotification UI.with_notifications
       UI.notifications].
  by apply existsb_added.
Qed.

Lemma queued_logout i w (random : Q) :
  Qeq_bool
    (UI.id (UI.makeNotification (Timers.envAt w random) Timers.logoutNotice)) i
  = false ->
  Timers.queued i (Timers.step w (Timers.Logout random)) = Timers.queued i w.
Proof.
  intros Hi. unfold Timers.queued.
  cbn [Timers.step Timers.ui UI.addNotification UI.with_notifications
       UI.notifications].
  by apply existsb_added.
Qed.

Lemma run_expiring es i deadline w :
  Timers.adds_fresh i w es = true ->
  expiring i deadline w -> expiring i deadline (Timers.run w es).
Proof.
  unfold Timers.run. revert w.
  induction es as [|e es IH]; intros w Hes Hw; [exact Hw|].
  cbn [Timers.adds_fresh] in Hes. apply andb_prop in Hes as [He Hes].
  cbn [fold_left]. apply IH; [exact Hes|].
  destruct e as [random payload|j|ms|random|].
  - apply negb_true_iff in He. destruct Hw as [Hq|Ha].
    + left. cbn [Timers.step]. by rewrite queued_added.
    + right. by apply armed_rendered.
  - destruct Hw as [Hq|Ha].
    + left. by apply queued_removed.
    + right. by apply armed_rendered.
  - by apply ticks_expiring.
  - apply negb_true_iff in He. destruct Hw as [Hq|Ha].
    + left. by rewrite queued_logout.
    + right. exact Ha.
  - destruct Hw as [Hq|Ha].
    + left. unfold Timers.queued. by rewrite mount_ui.
    + right. unfold armed. rewrite mount_pending. apply Exists_app. by left.
Qed.

Lemma expired i deadline w :
  timers_ahead w -> expiring i deadline w -> deadline <= Timers.clock w ->
  Timers.queued i w = false.
Proof.
  intros Hahead [Hq|Ha] Hd; [exact Hq|].
  apply Exists_exists in Ha as (t & Ht & _ & Hdue).
  unfold timers_ahead in Hahead. rewrite Forall_forall in Hahead.
  specialize (Hahead t Ht). lia.
Qed.

(** The effect that follows an addition arms the timer of the new
    notification: the component has to be there. *)
Lemma added_armed w (random : Q) (payload : UI.NotificationPayload) :
  let n := UI.makeNotification (Timers.envAt w random) payload in
  Timers.mounted w = true ->
  0 < UI.duration n ->
  armed (UI.id n) (Timers.clock w + UI.duration n)
    (Timers.step w (Timers.Add random payload)).
Proof.
  intros n Hm Hd. unfold armed. cbn [Timers.step].
  rewrite rendered_pending, Hm.
  cbn [UI.addNotification UI.with_notifications UI.notifications].
  apply Exists_app. right. unfold Timers.armTimers.
  rewrite List.filter_app, List.map_app. apply Exists_app. right.
  cbn [List.filter]. fold n. destruct (Z.ltb_spec 0 (UI.duration n)); [|lia].
  cbn [List.map]. apply Exists_cons_hd. cbn [Timers.target Timers.due].
  split; [|lia]. apply Qeq_bool_iff. reflexivity.
Qed.

(** *** A notification of duration zero stays *)

Lemma armTimers_spare i (c : Z) (ns : list UI.Notification) :
  Forall (fun m => Qeq_bool (UI.id m) i = true -> UI.duration m <= 0) ns ->
  Forall (fun t => Qeq_bool (Timers.target t) i = false) (Timers.armTimers c ns).
Proof.
  intros Hns. apply Forall_forall. intros t Ht. unfold Timers.armTimers in Ht.
  apply list_elem_of_In, in_map_iff in Ht as (m & <- & Hm).
  apply filter_In in Hm as [Hm Hd]. cbn [Timers.target].
  rewrite Forall_forall in Hns. apply list_elem_of_In in Hm.
  destruct (Qeq_bool (UI.id m) i) eqn:E; [|reflexivity].
  specialize (Hns m Hm E). lia.
Qed.

Lemma rendered_spare i w (ui' : UI.State Id) :
  Forall (fun t => Qeq_bool (Timers.target t) i = false) (Timers.pending w) ->
  Forall (fun m => Qeq_bool (UI.id m) i = true -> UI.duration m <= 0)
    (UI.notifications ui') ->
  Forall (fun t => Qeq_bool (Timers.target t) i = false)
    (Timers.pending (Timers.rendered w ui')).
Proof.
  intros Hspare Hzero. rewrite rendered_pending.
  apply Forall_app. split; [exact Hspare|].
  destruct (Timers.mounted w); [by apply armTimers_spare|apply Forall_nil_2].
Qed.

Lemma persistent_removed n j w :
  persistent n w -> Qeq_bool j (UI.id n) = false ->
  persistent n (Timers.rendered w (UI.removeNotification (Timers.ui w) j)).
Proof.
  intros (Hin & Hzero & Hspare) Hj.
  assert (Hzero' :
            Forall (fun m => Qeq_bool (UI.id m) (UI.id n) = true -> UI.duration m <= 0)
              (List.filter (fun m => negb (Qeq_bool (UI.id m) j))
                 (UI.notifications (Timers.ui w)))).
  { apply Forall_forall. intros m Hm.
    apply list_elem_of_In, filter_In in Hm as [Hm _].
    rewrite Forall_forall in Hzero. by apply Hzero, list_elem_of_In. }
  unfold persistent. split; [|split].
  - cbn [Timers.rendered Timers.ui UI.removeNotification UI.with_notifications
         UI.notifications].
    apply filter_In. split; [exact Hin|]. by rewrite Qeq_bool_sym, Hj.
  - exact Hzero'.
  - apply rendered_spare; [exact Hspare|exact Hzero'].
Qed.

Lemma persistent_added n w (env : UI.Env) (payload : UI.NotificationPayload) :
  persistent n w ->
  Qeq_bool (UI.id (UI.makeNotification env payload)) (UI.id n) = false ->
  persistent n (Timers.rendered w (UI.addNotification (Timers.ui w) env payload)).
Proof.
  intros (Hin & Hzero & Hspare) Hfresh.
  assert (Hzero' :
            Forall (fun m => Qeq_bool (UI.id m) (UI.id n) = true -> UI.duration m <= 0)
              (UI.notifications (Timers.ui w) ++ [UI.makeNotification env payload])).
  { apply Forall_app. split; [exact Hzero|].
    apply Forall_cons. split; [|apply Forall_nil_2]. congruence. }
  unfold persistent. split; [|split].
  - cbn [Timers.rendered Timers.ui UI.addNotification UI.with_notifications
         UI.notifications].
    apply in_or_app. by left.
  - exact Hzero'.
  - apply rendered_spare; [exact Hspare|exact Hzero'].
Qed.

Lemma persistent_logout n w (random : Q) :
  persistent n w ->
  Qeq_bool
    (UI.id (UI.makeNotification (Timers.envAt w random) Timers.logoutNotice))
    (UI.id n) = false ->
  persistent n (Timers.step w (Timers.Logout random)).
Proof.
  intros (Hin & Hzero & Hspare) Hfresh. unfold persistent.
  cbn [Timers.step Timers.ui Timers.pending UI.addNotification
       UI.with_notifications UI.notifications].
  split; [|split].
  - apply in_or_app. by left.
  - apply Forall_app. split; [exact Hzero|].
    apply Forall_cons. split; [|apply Forall_nil_2]. congruence.
  - exact Hspare.
Qed.

Lemma persistent_mount n w :
  persistent n w -> persistent n (Timers.step w Timers.Mount).
Proof.
  intros (Hin & Hzero & Hspare). unfold persistent.
  rewrite mount_ui, mount_pending. split; [exact Hin|]. split; [exact Hzero|].
  apply Forall_app. split; [exact Hspare|].
  destruct (Timers.mounted w); [apply Forall_nil_2|by apply armTimers_spare].
Qed.

Lemma fires_persistent (ts : list Timers.Timer) n w :
  Forall (fun t => Qeq_bool (Timers.target t) (UI.id n) = false) ts ->
  persistent n w -> persistent n (fold_left Timers.fire ts w).
Proof.
  intros Hts. revert w.
  induction Hts as [|t ts Ht _ IH]; intros w Hw; [exact Hw|].
  cbn [fold_left]. apply IH. by apply persistent_removed.
Qed.

Lemma tick_persistent n w : persistent n w -> persistent n (Timers.tick w).
Proof.
  intros (Hin & Hzero & Hspare). unfold Timers.tick.
  rewrite Forall_forall in Hspare.
  apply fires_persistent.
  - apply Forall_forall. intros t Ht.
    apply list_elem_of_In, filter_In in Ht as [Ht _].
    by apply Hspare, list_elem_of_In.
  - split; [exact Hin|]. split; [exact Hzero|].
    cbn [Timers.pending]. apply Forall_forall. intros t Ht.
    apply list_elem_of_In, filter_In in Ht as [Ht _].
    by apply Hspare, list_elem_of_In.
Qed.

Lemma ticks_persistent (ms : nat) n w :
  persistent n w -> persistent n (Nat.iter ms Timers.tick w).
Proof.
  intros Hw. induction ms as [|ms IH]; [exact Hw|].
  change (Nat.iter (S ms) Timers.tick w)
    with (Timers.tick (Nat.iter ms Timers.tick w)).
  by apply tick_persistent.
Qed.

Lemma run_persistent es n w :
  Timers.adds_fresh (UI.id n) w es = true ->
  Timers.not_closed (UI.id n) es = true ->
  persistent n w -> persistent n (Timers.run w es).
Proof.
  unfold Timers.run, Timers.not_closed. revert w.
  induction es as [|e es IH]; intros w Hfresh Hopen Hw; [exact Hw|].
  cbn [Timers.adds_fresh] in Hfresh. apply andb_prop in Hfresh as [He Hfresh].
  cbn [forallb] in Hopen. apply andb_prop in Hopen as [Hj Hopen].
  cbn [fold_left]. apply IH; [exact Hfresh|exact Hopen|].
  destruct e as [random payload|j|ms|random|].
  - apply persistent_added; [exact Hw|by apply negb_true_iff].
  - apply persistent_removed; [exact Hw|by apply negb_true_iff].
  - by apply ticks_persistent.
  - apply persistent_logout; [exact Hw|by apply negb_true_iff].
  - by apply persistent_mount.
Qed.

Lemma added_persistent w (random : Q) (payload : UI.NotificationPayload) :
  let n := UI.makeNotification (Timers.envAt w random) payload in
  UI.duration n = 0 ->
  Timers.unused (UI.id n) w = true ->
  persistent n (Timers.step w (Timers.Add random payload)).
Proof.
  intros n Hd Hun. unfold Timers.unused in Hun.
  apply andb_prop in Hun as [Hq Hp]. apply negb_true_iff in Hq.
  unfold Timers.queued in Hq.
  assert (Hzero :
            Forall (fun m => Qeq_bool (UI.id m) (UI.id n) = true -> UI.duration m <= 0)
              (UI.notifications (Timers.ui w) ++ [n])).
  { apply Forall_app. split.
    - apply Forall_forall. intros m Hm Hid. apply list_elem_of_In in Hm.
      assert (Hex : existsb (fun m => Qeq_bool (UI.id m) (UI.id n))
                      (UI.notifications (Timers.ui w)) = true)
        by (apply existsb_exists; by exists m).
      congruence.
    - apply Forall_cons. split; [|apply Forall_nil_2]. intros _. lia. }
  unfold persistent. cbn [Timers.step]. split; [|split].
  - cbn [Timers.rendered Timers.ui UI.addNotification UI.with_notifications
         UI.notifications].
    fold n. apply in_or_app. right. by left.
  - exact Hzero.
  - apply rendered_spare; [|exact Hzero].
    apply Forall_forall. intros t Ht. apply list_elem_of_In in Ht.
    rewrite forallb_forall in Hp. by apply negb_true_iff, Hp.
Qed.

Lemma duration_of_payload (env : UI.Env) (payload : UI.NotificationPayload) (d : Z) :
  UI.payload_duration payload = Some d ->
  UI.duration (UI.makeNotification env payload) = d.
Proof. unfold UI.makeNotification. cbn [UI.duration]. by intros ->. Qed.

(** C4, as the reducers and the timers have it.  A notification is
    added by a handler at any moment, after logouts and returns to the
    list included, and any time then passes while notifications are
    added and closed, the user logs out and comes back.  Take it that
    every notification added later gets another id.  If the notification
    was added with duration 0 under an id in use by no notification and
    no timer, it is in the queue at every later moment, as long as
    nobody closes it.  If it was added with duration 5000 while the
    notification component was mounted, no notification of its id is in
    the queue once 5000 ms have passed. *)
Theorem notification_expiry (t0 : Z) (history : list Timers.Event)
    (random : Q) (payload : UI.NotificationPayload) es :
  let w : Timers.World Id := Timers.run (Timers.init t0) history in
  let n := UI.makeNotification (Timers.envAt w random) payload in
  let added := Timers.step w (Timers.Add random payload) in
  Timers.adds_fresh (UI.id n) added es = true ->
  (UI.payload_duration payload = Some 0 ->
   Timers.unused (UI.id n) w = true ->
   Timers.not_closed (UI.id n) es = true ->
   In n (UI.notifications (Timers.ui (Timers.run added es))))
  /\ (UI.payload_duration payload = Some 5000 ->
      Timers.mounted w = true ->
      5000 <= Timers.elapsed es ->
      Timers.queued (UI.id n) (Timers.run added es) = false).
Proof.
  intros w n added Hfresh. split.
  - intros Hd Hun Hopen.
    apply (run_persistent es n added Hfresh Hopen).
    apply added_persistent; [by apply duration_of_payload|exact Hun].
  - intros Hd Hm Hel.
    assert (Hn : UI.duration n = 5000) by by apply duration_of_payload.
    apply (expired _ (Timers.clock w + 5000)).
    + apply run_ahead, step_ahead, run_ahead. apply Forall_nil_2.
    + apply run_expiring; [exact Hfresh|]. right.
      rewrite <- Hn. apply added_armed; [exact Hm|]. fold n. lia.
    + rewrite run_clock. unfold added. cbn [Timers.step Timers.rendered Timers.clock].
      lia.
Qed.

End Expiry.

(** C4, as stated, fails in both halves.  Two notifications added within
    one millisecond with close random numbers get one id: the first has
    duration 0, the timer of the second removes both after 5000 ms, and
    nobody has closed the first.  The notification of a logout, of the
    default duration of 5000 ms, is added while the list is taken away:
    no timer is armed for it, and it is in the queue 5000 ms and a
    minute later. *)
Lemma notification_expiry_fails :
  let twins : Timers.World Z :=
    Timers.run (Timers.init 1700000000000)
      [Timers.Add (1 # 4) (Sample.lasting 0);
       Timers.Add (262145 # 1048576) (Sample.lasting 5000)] in
  let left : Timers.World Z :=
    Timers.run (Timers.init 1700000000000) [Timers.Logout (1 # 2)] in
  (List.map UI.duration (UI.notifications (Timers.ui twins)) = [0; 5000]
   /\ UI.notifications
        (Timers.ui (Timers.step twins (Timers.Elapse (Z.to_nat 5000)))) = [])
  /\ (List.map UI.duration (UI.notifications (Timers.ui left)) = [5000]
      /\ Timers.pending left = []
      /\ List.map UI.duration
           (UI.notifications
              (Timers.ui (Timers.step left (Timers.Elapse (Z.to_nat 5000)))))
         = [5000]
      /\ List.map UI.duration
           (UI.notifications
              (Timers.ui (Timers.step left (Timers.Elapse (Z.to_nat 65000)))))
         = [5000]).
Proof.
  cbv zeta. split; [split|split; [|split; [|split]]]; vm_compute; reflexivity.
Qed.

(** Both halves of the statement on a run of the list: a notice is on
    show since 1200 ms when the notification is added, another notice
    follows, and six seconds pass.  Added with duration 0 the
    notification is still queued; added with duration 5000 it is gone. *)
Lemma notification_expiry_witness :
  let w : Timers.World Z := Timers.run (Timers.init 1000) Sample.earlier in
  let stays := UI.makeNotification (Timers.envAt w (1 # 2)) (Sample.lasting 0) in
  let goes := UI.makeNotification (Timers.envAt w (1 # 2)) (Sample.lasting 5000) in
  (Timers.adds_fresh (UI.id stays)
     (Timers.step w (Timers.Add (1 # 2) (Sample.lasting 0))) Sample.later = true
   /\ Timers.unused (UI.id stays) w = true
   /\ Timers.not_closed (UI.id stays) Sample.later = true
   /\ In stays
        (UI.notifications
           (Timers.ui
              (Timers.run (Timers.step w (Timers.Add (1 # 2) (Sample.lasting 0)))
                 Sample.later))))
  /\ (Timers.adds_fresh (UI.id goes)
        (Timers.step w (Timers.Add (1 # 2) (Sample.lasting 5000))) Sample.later = true
      /\ Timers.mounted w = true
      /\ 5000 <= Timers.elapsed Sample.later
      /\ Timers.queued (UI.id goes)
           (Timers.run (Timers.step w (Timers.Add (1 # 2) (Sample.lasting 5000)))
              Sample.later) = false).
Proof.
  intros w stays goes.
  assert (H0 : Timers.adds_fresh (UI.id stays)
                 (Timers.step w (Timers.Add (1 # 2) (Sample.lasting 0)))
                 Sample.later = true) by (vm_compute; reflexivity).
  assert (H5 : Timers.adds_fresh (UI.id goes)
                 (Timers.step w (Timers.Add (1 # 2) (Sample.lasting 5000)))
                 Sample.later = true) by (vm_compute; reflexivity).
  assert (Hun : Timers.unused (UI.id stays) w = true) by (vm_compute; reflexivity).
  assert (Hop : Timers.not_closed (UI.id stays) Sample.later = true)
    by (vm_compute; reflexivity).
  assert (Hm : Timers.mounted w = true) by (vm_compute; reflexivity).
  assert (Hel : 5000 <= Timers.elapsed Sample.later)
    by (vm_compute; discriminate).
  split.
  - split; [exact H0|]. split; [exact Hun|]. split; [exact Hop|].
    exact (proj1 (notification_expiry 1000 Sample.earlier (1 # 2)
                    (Sample.lasting 0) Sample.later H0)
             eq_refl Hun Hop).
  - split; [exact H5|]. split; [exact Hm|]. split; [exact Hel|].
    exact (proj2 (notification_expiry 1000 Sample.earlier (1 # 2)
                    (Sample.lasting 5000) Sample.later H5)
             eq_refl Hm Hel).
Defined.


(** * Further properties *)

(** ** Updating, creating and deleting records *)

Section Records.
Context {Id : Type} `{LooseEq Id}.
Implicit Types (state : Users.State Id) (us : list (Users.User Id))
  (u : Users.User Id) (p : Users.UserPatch Id).

Lemma replace_first_length us p :
  length (Users.replace_first us p) = length us.
Proof.
  induction us as [|u us IH]; [reflexivity|].
  cbn [Users.replace_first].
  destruct (loose_eq (Users.id u) (Users.patch_id p)); cbn [length]; congruence.
Qed.

Lemma replace_first_absent us p :
  carrying (Users.patch_id p) us = [] -> Users.replace_first us p = us.
Proof.
  unfold carrying. induction us as [|u us IH]; [reflexivity|].
  cbn [List.filter Users.replace_first].
  destruct (loose_eq (Users.id u) (Users.patch_id p)); [discriminate|].
  intros Hus. by rewrite IH.
Qed.

(** X1.  [updateUser.fulfilled] never changes the number of records, and
    when no record carries the id of the payload it leaves the
    collection as it is. *)
Theorem updateUser_fulfilled_silent state p :
  length (Users.users (Users.updateUser_fulfilled state p))
  = length (Users.users state)
  /\ (carrying (Users.patch_id p) (Users.users state) = [] ->
      Users.users (Users.updateUser_fulfilled state p) = Users.users state).
Proof.
  cbn [Users.updateUser_fulfilled Users.users]. split.
  - apply replace_first_length.
  - apply replace_first_absent.
Qed.

(** X2.  When some record carries the id of the payload,
    [updateUser.fulfilled] merges the payload into the first such record
    and leaves every other record, the later carriers included, as it
    is. *)
Theorem updateUser_fulfilled_first_carrier state p :
  carrying (Users.patch_id p) (Users.users state) <> [] ->
  exists before u after,
    Users.users state = before ++ u :: after
    /\ carrying (Users.patch_id p) before = []
    /\ loose_eq (Users.id u) (Users.patch_id p) = true
    /\ Users.users (Users.updateUser_fulfilled state p)
       = before ++ Users.merge u p :: after.
Proof.
  cbn [Users.updateUser_fulfilled Users.users]. unfold carrying.
  induction (Users.users state) as [|u us IH]; [done|].
  cbn [List.filter Users.replace_first].
  destruct (loose_eq (Users.id u) (Users.patch_id p)) eqn:E.
  - intros _. by exists [], u, us.
  - intros Hus. destruct (IH Hus) as (before & v & after & -> & Hb & Hv & Hr).
    exists (u :: before), v, after. cbn [List.filter app]. rewrite E, Hr.
    by repeat split.
Qed.

(** X3.  Creating a record under an id that no record carries and then
    deleting that id gives the collection back, provided the id [==]
    itself. *)
Theorem create_then_delete state u :
  carrying (Users.id u) (Users.users state) = [] ->
  loose_eq (Users.id u) (Users.id u) = true ->
  Users.users
    (Users.deleteUser_fulfilled (Users.createUser_fulfilled state u) (Users.id u))
  = Users.users state.
Proof.
  intros Hfresh Hrefl.
  cbn [Users.deleteUser_fulfilled Users.createUser_fulfilled Users.users].
  rewrite List.filter_app. cbn [List.filter]. rewrite Hrefl. cbn [negb].
  rewrite app_nil_r. by apply filter_all.
Qed.

Lemma filter_idempotent {A : Type} (f : A -> bool) (l : list A) :
  List.filter f (List.filter f l) = List.filter f l.
Proof.
  induction l as [|x l IH]; [reflexivity|].
  cbn [List.filter]. destruct (f x) eqn:E; [|exact IH].
  cbn [List.filter]. by rewrite E, IH.
Qed.

Lemma filter_swap {A : Type} (f g : A -> bool) (l : list A) :
  List.filter f (List.filter g l) = List.filter g (List.filter f l).
Proof.
  induction l as [|x l IH]; [reflexivity|].
  cbn [List.filter]. destruct (f x) eqn:Ef, (g x) eqn:Eg; cbn [List.filter];
    rewrite ?Ef, ?Eg, IH; reflexivity.
Qed.

(** X4.  Deleting the same id twice is deleting it once, and two
    deletes give the same collection in either order. *)
Theorem deletes_compose state (i j : Id) :
  Users.users (Users.deleteUser_fulfilled (Users.deleteUser_fulfilled state i) i)
  = Users.users (Users.deleteUser_fulfilled state i)
  /\ Users.users (Users.deleteUser_fulfilled (Users.deleteUser_fulfilled state i) j)
     = Users.users (Users.deleteUser_fulfilled (Users.deleteUser_fulfilled state j) i).
Proof.
  cbn [Users.deleteUser_fulfilled Users.users]. split.
  - apply filter_idempotent.
  - apply filter_swap.
Qed.






End Records.

(** The silent update on three records, none of which carries the id
    5. *)
Lemma updateUser_fulfilled_silent_witness :
  carrying 5 (Users.users Sample.trio) = []
  /\ Users.users (Users.updateUser_fulfilled Sample.trio (Sample.rename 5))
     = Users.users Sample.trio.
Proof.
  split; [reflexivity|].
  exact (proj2 (updateUser_fulfilled_silent Sample.trio (Sample.rename 5)) eq_refl).
Defined.

(** The update of the first of two records that carry the id 7. *)
Lemma updateUser_fulfilled_first_carrier_witness :
  carrying 7 (Users.users Sample.two_sevens) <> []
  /\ exists before u after,
       Users.users Sample.two_sevens = before ++ u :: after
       /\ carrying 7 before = []
       /\ loose_eq (Users.id u) 7 = true
       /\ Users.users (Users.updateUser_fulfilled Sample.two_sevens (Sample.rename 7))
          = before ++ Users.merge u (Sample.rename 7) :: after.
Proof.
  assert (Hc : carrying 7 (Users.users Sample.two_sevens) <> []) by discriminate.
  split; [exact Hc|].
  exact (updateUser_fulfilled_first_carrier Sample.two_sevens (Sample.rename 7) Hc).
Defined.

(** A fourth record is created under the id 10 and deleted again. *)
Lemma create_then_delete_witness :
  carrying 10 (Users.users Sample.trio) = []
  /\ loose_eq (10 : Z) 10 = true
  /\ Users.users
       (Users.deleteUser_fulfilled
          (Users.createUser_fulfilled Sample.trio (Sample.person 10)) 10)
     = Users.users Sample.trio.
Proof.
  split; [reflexivity|]. split; [reflexivity|].
  exact (create_then_delete Sample.trio (Sample.person 10) eq_refl eq_refl).
Defined.

(** ** Searching *)

Section Search.
Context {Id : Type} `{LooseEq Id} `{Js.Lowercase}.
Implicit Types (us : list (Users.User Id)) (u : Users.User Id).

Lemma append_assoc_str (a b c : string) :
  ((a ++ b) ++ c)%string = (a ++ b ++ c)%string.
Proof.
  induction a as [|x a IH]; [reflexivity|].
  change (String x ((a ++ b) ++ c) = String x (a ++ b ++ c))%string.
  by rewrite IH.
Qed.

Lemma includes_trans (s t q : string) :
  Js.includes s t = true -> Js.includes t q = true -> Js.includes s q = true.
Proof.
  rewrite !includes_app. intros (a & b & ->) (c & d & ->).
  exists (a ++ c)%string, (d ++ b)%string. by rewrite !append_assoc_str.
Qed.

Lemma filter_filter_implied {A : Type} (f g : A -> bool) (l : list A) :
  (forall x, g x = true -> f x = true) ->
  List.filter g (List.filter f l) = List.filter g l.
Proof.
  intros Hgf. induction l as [|x l IH]; [reflexivity|].
  cbn [List.filter]. destruct (f x) eqn:Ef.
  - cbn [List.filter]. by rewrite IH.
  - destruct (g x) eqn:Eg; [|exact IH]. apply Hgf in Eg. congruence.
Qed.

Lemma opt_lower_includes_trans (o : option string) (t q : string) :
  Js.includes t q = true ->
  Js.opt_lower_includes o t = true -> Js.opt_lower_includes o q = true.
Proof.
  intros Htq. destruct o as [s|]; [|done]. cbn [Js.opt_lower_includes].
  intros Hst. by apply (includes_trans _ t).
Qed.

Lemma contains_ci_truthy (q' q : string) :
  contains_ci q' q -> Js.truthy q = true -> Js.truthy q' = true.
Proof.
  intros (pre & mid & post & -> & Hm) Hq.
  destruct Hm as [|a b s t _ _]; [discriminate Hq|].
  by destruct pre.
Qed.

(** X6.  Typing on narrows the view: when the query [q], put in lower
    case, occurs in the query [q'], put in lower case and not empty,
    searching for [q'] within the view of [q] gives the view of [q'].
    Where [toLowerCase] folds the two queries letter by letter, as it
    does on text of Basic Latin characters, this is the case whenever
    [q] occurs in [q'] up to case. *)
Theorem filterUsers_narrows us (q q' : string) :
  (Js.truthy q' = true ->
   occurs_in (Js.toLowerCase q) (Js.toLowerCase q') ->
   Users.filterUsers (Users.filterUsers us q) q' = Users.filterUsers us q')
  /\ (folded q -> folded q' -> contains_ci q' q ->
      Users.filterUsers (Users.filterUsers us q) q' = Users.filterUsers us q').
Proof.
  assert (Hlower : Js.truthy q' = true ->
                   occurs_in (Js.toLowerCase q) (Js.toLowerCase q') ->
                   Users.filterUsers (Users.filterUsers us q) q'
                   = Users.filterUsers us q').
  { intros Hq' Hc. unfold Users.filterUsers at 2.
    destruct (Js.truthy q) eqn:Hq; cbn [negb]; [|reflexivity].
    unfold Users.filterUsers. rewrite Hq'. cbn [negb]. cbv zeta.
    apply includes_app in Hc.
    apply filter_filter_implied. intros u Hu.
    apply orb_true_iff in Hu as [Hu|Hu]; [apply orb_true_iff in Hu as [Hu|Hu]|].
    - by rewrite (opt_lower_includes_trans _ _ _ Hc Hu).
    - rewrite (opt_lower_includes_trans _ _ _ Hc Hu). by rewrite orb_true_r.
    - rewrite (opt_lower_includes_trans _ _ _ Hc Hu). by rewrite !orb_true_r. }
  split; [exact Hlower|].
  intros Hq Hq' Hc.
  destruct (Js.truthy q) eqn:Ht; [|by destruct q].
  apply Hlower; [by apply (contains_ci_truthy q' q)|].
  unfold folded in Hq, Hq'. rewrite Hq, Hq'. by apply folded_occurs_contains.
Qed.

End Search.

Section SearchSamples.
#[local] Existing Instance Js.lowerLatinSigma.

(** The query "er" occurs in "Ferg". *)
Lemma filterUsers_narrows_witness :
  Js.truthy "Ferg" = true
  /\ occurs_in (Js.toLowerCase "er") (Js.toLowerCase "Ferg")
  /\ folded "er" /\ folded "Ferg" /\ contains_ci "Ferg" "er"
  /\ Users.filterUsers (Users.filterUsers (Users.users Sample.trio) "er") "Ferg"
     = Users.filterUsers (Users.users Sample.trio) "Ferg"
  /\ Users.filterUsers (Users.users Sample.trio) "Ferg"
     = [Sample.lindsay].
Proof.
  assert (Ho : occurs_in (Js.toLowerCase "er") (Js.toLowerCase "Ferg"))
    by (by exists "f"%string, "g"%string).
  assert (Hc : contains_ci "Ferg" "er").
  { exists "F"%string, "er"%string, "g"%string. split; [reflexivity|].
    repeat constructor; left; reflexivity. }
  pose proof (filterUsers_narrows (Users.users Sample.trio) "er" "Ferg")
    as [Hlower Hci].
  split; [reflexivity|]. split; [exact Ho|].
  split; [reflexivity|]. split; [reflexivity|]. split; [exact Hc|].
  split; [exact (Hlower eq_refl Ho)|reflexivity].
Defined.

End SearchSamples.

(** ** The replies of the service *)

Section Replies.
Context {Id : Type} `{LooseEq Id} `{IdValue Id}.



Lemma stock_face (random : Q) :
  (0 <= random)%Q -> (random < 1)%Q ->
  exists k, 1 <= k <= 12
            /\ Users.stockAvatar random
               = ("https://reqres.in/img/faces/" ++ pretty k ++ "-image.jpg")%string.
Proof.
  intros Hr0 Hr1. exists (Qfloor (random * 12) + 1). split; [|reflexivity].
  assert (Hlo : 0 <= Qfloor (random * 12)).
  { rewrite <- (Qfloor_Z 0). apply Qfloor_resp_le.
    change (inject_Z 0) with (0 * 12)%Q. apply Qmult_le_compat_r; [exact Hr0|done]. }
  assert (Hhi : Qfloor (random * 12) < 12).
  { rewrite Zlt_Qlt. apply (Qle_lt_trans _ (random * 12)); [apply Qfloor_le|].
    change (inject_Z 12) with (1 * 12)%Q. apply Qmult_lt_compat_r; [done|exact Hr1]. }
  lia.
Qed.

(** X7.  On an ok reply [createUser] resolves with a record whose id is
    the one of the reply, else the one of the form data, else the clock
    (whether the id of the reply is truthy plays no part), and whose
    avatar is what the reply holds under the key, [null] included, else
    what the form data holds under it, an empty text or [null] included,
    and only when neither has the key one of the twelve stock
    portraits. *)
Theorem createUser_payload (now : Z) (random : Q) (userData : Users.Draft Id)
    (data : Users.Echo Id) :
  (0 <= random)%Q -> (random < 1)%Q ->
  exists u,
    Users.createUser now random userData (Users.Response true data)
    = Users.Fulfilled u
    /\ (forall i, Users.draft_id (Users.echo data) = Some i -> Users.id u = i)
    /\ (forall i, Users.draft_id (Users.echo data) = None ->
                  Users.draft_id userData = Some i -> Users.id u = i)
    /\ (Users.draft_id (Users.echo data) = None ->
        Users.draft_id userData = None -> Users.id u = id_of_number now)
    /\ (forall a, Users.draft_avatar (Users.echo data) = Some a ->
                  Users.avatar u = a)
    /\ (forall a, Users.draft_avatar (Users.echo data) = None ->
                  Users.draft_avatar userData = Some a -> Users.avatar u = a)
    /\ (Users.draft_avatar (Users.echo data) = None ->
        Users.draft_avatar userData = None ->
        exists k, 1 <= k <= 12
                  /\ Users.avatar u
                     = Some ("https://reqres.in/img/faces/" ++ pretty k
                             ++ "-image.jpg")%string).
Proof.
  intros Hr0 Hr1. eexists. split; [reflexivity|].
  cbn [Users.id Users.avatar]. repeat split.
  - by intros i ->.
  - by intros i -> ->.
  - by intros -> ->.
  - by intros a ->.
  - by intros a -> ->.
  - intros -> ->. cbn [Js.assign Js.read Js.or_default].
    destruct (stock_face random Hr0 Hr1) as (k & Hk & ->). by exists k.
Qed.

End Replies.

(** The form of the modal, which has no avatar, submitted at random
    number 1/2.  The service echoes an id and the seventh portrait is
    picked; were the avatar [null] in the echo, the record would have
    none. *)
Lemma createUser_payload_witness :
  (0 <= 1 # 2)%Q /\ (1 # 2 < 1)%Q
  /\ (exists u : Users.User Z,
        Users.createUser 1700000000000 (1 # 2) Sample.form
          (Users.Response true Sample.echoed) = Users.Fulfilled u
        /\ Users.id u = 409
        /\ Users.avatar u
           = Some "https://reqres.in/img/faces/7-image.jpg"%string)
  /\ (exists u : Users.User Z,
        Users.createUser 1700000000000 (1 # 2) Sample.form
          (Users.Response true Sample.echoed_without_avatar) = Users.Fulfilled u
        /\ Users.id u = 409
        /\ Users.avatar u = None).
Proof.
  assert (Hr0 : (0 <= 1 # 2)%Q) by done.
  assert (Hr1 : (1 # 2 < 1)%Q) by done.
  split; [exact Hr0|]. split; [exact Hr1|]. split.
  - destruct (createUser_payload 1700000000000 (1 # 2) Sample.form Sample.echoed
                Hr0 Hr1) as (u & Hu & Hid & _).
    exists u. split; [exact Hu|]. split; [by apply Hid|].
    injection Hu as <-. reflexivity.
  - destruct (createUser_payload 1700000000000 (1 # 2) Sample.form
                Sample.echoed_without_avatar Hr0 Hr1)
      as (u & Hu & Hid & _ & _ & Hav & _).
    exists u. split; [exact Hu|]. split; [by apply Hid|]. by apply Hav.
Defined.

(** ** Sessions *)

Section Sessions.
Implicit Types (w : Auth.World) (e : Auth.Event) (es : list Auth.Event).

Lemma run_invariant (P : Auth.World -> Prop) (storage : option string) es :
  P {| Auth.auth := Auth.initialState; Auth.authToken := storage |} ->
  (forall w e, In e es -> P w -> P (Auth.dispatch w e)) ->
  P (Auth.run storage es).
Proof.
  unfold Auth.run.
  generalize {| Auth.auth := Auth.initialState; Auth.authToken := storage |}.
  induction es as [|e es IH]; intros w Hw Hstep; [exact Hw|].
  cbn [fold_left]. apply IH.
  - apply Hstep; [by left|exact Hw].
  - intros w' e' He'. apply Hstep. by right.
Qed.

(** X10.  After a logout, by the [logout] action or by the [logoutUser]
    thunk, the stored token is gone, and a check of the session, at once
    or after the page is loaded again, leaves the session unauthenticated
    and without a token. *)
Theorem logout_then_check w e :
  e = Auth.Logout \/ e = Auth.LogoutDone ->
  let out := Auth.dispatch w e in
  Auth.authToken out = None
  /\ Forall
       (fun checked =>
          Auth.isAuthenticated (Auth.auth checked) = false
          /\ Auth.token (Auth.auth checked) = None
          /\ Auth.authToken checked = None)
       [Auth.dispatch out Auth.CheckDone;
        Auth.dispatch (reloaded out) Auth.CheckDone].
Proof.
  intros [-> | ->]; cbv zeta; (split; [reflexivity|]); repeat constructor.
Qed.

(** X11.  A login that the service answers with an ok status and a
    non-empty token authenticates the session under that token and
    stores it, and a check of the session after the page is loaded again
    restores the same token. *)
Theorem login_then_restore w (address : string) (data : Auth.Body) (t : string)
    (now : Z) :
  Auth.body_token data = Some t -> Js.truthy t = true ->
  let signed := Auth.dispatch w (Auth.LoginDone address (Auth.Response true data) now) in
  let restored := Auth.dispatch (reloaded signed) Auth.CheckDone in
  (Auth.isAuthenticated (Auth.auth signed) = true
   /\ Auth.token (Auth.auth signed) = Some t
   /\ Auth.authToken signed = Some t)
  /\ (Auth.isAuthenticated (Auth.auth restored) = true
      /\ Auth.token (Auth.auth restored) = Some t
      /\ Auth.authToken restored = Some t).
Proof.
  intros Hdata Ht signed restored.
  assert (Hsigned : signed
                    = {| Auth.auth :=
                           Auth.loginUser_fulfilled (Auth.auth w)
                             {| Auth.session_token := Some t;
                                Auth.session_user :=
                                  {| Auth.user_email := Some address;
                                     Auth.user_name := None |} |};
                         Auth.authToken := Some t |}).
  { subst signed. cbn [Auth.dispatch]. unfold Auth.loginUser. cbn [negb].
    rewrite Hdata. cbn [Js.truthy_opt]. by rewrite Ht. }
  subst restored. rewrite Hsigned. unfold reloaded.
  cbn [Auth.dispatch Auth.authToken]. unfold Auth.checkAuthStatus.
  cbn [Js.truthy_opt]. rewrite Ht. cbn [negb]. repeat split.
Qed.



(** X13.  Whatever the service replies, the session is authenticated
    exactly when it has a user. *)
Theorem authenticated_iff_user (storage : option string) es :
  Auth.isAuthenticated (Auth.auth (Auth.run storage es)) = true
  <-> Auth.user (Auth.auth (Auth.run storage es)) <> None.
Proof.
  apply (run_invariant
           (fun w => Auth.isAuthenticated (Auth.auth w) = true
                     <-> Auth.user (Auth.auth w) <> None)); [done|].
  intros w e _ Hw.
  destruct e; cbn [Auth.dispatch Auth.auth]; try exact Hw; try done.
  - unfold Auth.updateUser. destruct (Auth.user (Auth.auth w)) eqn:E; [|by rewrite E].
    cbn [Auth.isAuthenticated Auth.user]. rewrite Hw. done.
  - unfold Auth.loginUser. destruct r as [m|[|] data]; cbn [negb Auth.auth];
      try exact Hw; done.
  - unfold Auth.registerUser. destruct r as [m|[|] data]; cbn [negb Auth.auth];
      try exact Hw; done.
  - unfold Auth.checkAuthStatus.
    destruct (Js.truthy_opt (Auth.authToken w)); cbn [negb Auth.auth]; done.
Qed.

(** X14.  The counter of failed logins is never negative, and the time
    of the last attempt is recorded exactly when the counter is above
    zero. *)
Theorem attempts_and_their_time (storage : option string) es :
  0 <= Auth.loginAttempts (Auth.auth (Auth.run storage es))
  /\ (Auth.loginAttempts (Auth.auth (Auth.run storage es)) = 0
      <-> Auth.lastLoginAttempt (Auth.auth (Auth.run storage es)) = None).
Proof.
  apply (run_invariant
           (fun w => 0 <= Auth.loginAttempts (Auth.auth w)
                     /\ (Auth.loginAttempts (Auth.auth w) = 0
                         <-> Auth.lastLoginAttempt (Auth.auth w) = None)));
    [done|].
  intros w e _ [Hpos Hiff].
  destruct e; cbn [Auth.dispatch Auth.auth]; try (split; [exact Hpos|exact Hiff]);
    try done.
  - cbn [Auth.incrementLoginAttempts Auth.loginAttempts Auth.lastLoginAttempt].
    split; [lia|]. split; [lia|done].
  - unfold Auth.updateUser. destruct (Auth.user (Auth.auth w)); by split.
  - unfold Auth.loginUser. destruct r as [m|[|] data]; cbn [negb Auth.auth];
      cbn [Auth.loginUser_rejected Auth.loginUser_fulfilled Auth.loginAttempts
           Auth.lastLoginAttempt]; try done; (split; [lia|]); (split; [lia|done]).
  - unfold Auth.registerUser. destruct r as [m|[|] data]; cbn [negb Auth.auth];
      by split.
  - unfold Auth.checkAuthStatus.
    destruct (Js.truthy_opt (Auth.authToken w)); cbn [negb Auth.auth]; by split.
Qed.

End Sessions.

(** A logout by the action, from a session restored from a stored
    token. *)
Lemma logout_then_check_witness :
  let w := Auth.run (Some "QpwL5tke4Pnpja7X4"%string) [Auth.CheckPending; Auth.CheckDone] in
  Auth.isAuthenticated (Auth.auth w) = true
  /\ Auth.authToken (Auth.dispatch w Auth.Logout) = None
  /\ Auth.isAuthenticated
       (Auth.auth (Auth.dispatch (reloaded (Auth.dispatch w Auth.Logout)) Auth.CheckDone))
     = false.
Proof.
  intros w.
  pose proof (logout_then_check w Auth.Logout (or_introl eq_refl)) as H.
  cbv zeta in H. destruct H as (Hs & Hc).
  split; [reflexivity|]. split; [exact Hs|].
  apply Forall_cons in Hc as [_ Hc]. apply Forall_cons in Hc as [(Hr & _) _].
  exact Hr.
Defined.

(** The login of the demonstration account. *)
Lemma login_then_restore_witness :
  let data := {| Auth.body_token := Some "QpwL5tke4Pnpja7X4"%string;
                 Auth.body_error := None |} in
  let w := {| Auth.auth := Auth.initialState; Auth.authToken := None |} in
  Auth.body_token data = Some "QpwL5tke4Pnpja7X4"%string
  /\ Js.truthy "QpwL5tke4Pnpja7X4" = true
  /\ Auth.token
       (Auth.auth
          (Auth.dispatch
             (reloaded
                (Auth.dispatch w
                   (Auth.LoginDone "eve.holt@reqres.in" (Auth.Response true data) 0)))
             Auth.CheckDone))
     = Some "QpwL5tke4Pnpja7X4"%string.
Proof.
  intros data w. split; [reflexivity|]. split; [reflexivity|].
  pose proof (login_then_restore w "eve.holt@reqres.in" data "QpwL5tke4Pnpja7X4" 0
                eq_refl eq_refl) as H.
  cbv zeta in H. destruct H as (_ & _ & H & _). exact H.
Defined.


(** ** Pages and their windows *)

Section Windows.

Lemma totalPages_cases (totalItems itemsPerPage currentPage : Z) :
  0 < itemsPerPage ->
  exists c,
    (c - 1) * itemsPerPage < totalItems <= c * itemsPerPage
    /\ UI.totalPages (UI.paginate currentPage itemsPerPage totalItems)
       = Js.Num (Z.max 1 c).
Proof.
  intros Hp. destruct (ceil_quot_bounds totalItems itemsPerPage Hp) as (c & Hc & Hb).
  exists c. split; [exact Hb|].
  unfold UI.paginate. cbn [UI.totalPages]. by rewrite Hc.
Qed.

(** X15.  For a page size above zero and a current page of at least 1,
    [hasNextPage] holds exactly when items lie beyond the window of the
    current page, and [hasPrevPage] exactly when the window does not
    start at the first item. *)
Theorem next_and_previous_flags (totalItems itemsPerPage currentPage : Z) :
  0 <= totalItems -> 0 < itemsPerPage -> 1 <= currentPage ->
  let data := UI.paginate currentPage itemsPerPage totalItems in
  (UI.hasNextPage data = true <-> UI.endIndex data < totalItems)
  /\ (UI.hasPrevPage data = true <-> 0 < UI.startIndex data).
Proof.
  intros Hn Hp Hc data.
  destruct (totalPages_cases totalItems itemsPerPage currentPage Hp)
    as (c & Hb & Ht).
  assert (Hnext : UI.hasNextPage data = (currentPage <? Z.max 1 c)).
  { unfold data, UI.paginate in *. cbn [UI.hasNextPage UI.totalPages] in *.
    by rewrite Ht. }
  rewrite Hnext. subst data. cbn [UI.paginate UI.endIndex UI.startIndex UI.hasPrevPage].
  rewrite !Z.ltb_lt. split; split; intros H; nia.
Qed.

(** X16.  The windows of the pages 1 to [totalPages] tile the
    collection: for a page size above zero every index of an item lies
    in the window of exactly one page, and that page is one of 1 to
    [totalPages]. *)
Theorem windows_tile (totalItems itemsPerPage index : Z) :
  0 < itemsPerPage -> 0 <= index < totalItems ->
  exists last page,
    UI.totalPages (UI.paginate page itemsPerPage totalItems) = Js.Num last
    /\ 1 <= page <= last
    /\ UI.startIndex (UI.paginate page itemsPerPage totalItems) <= index
       < UI.endIndex (UI.paginate page itemsPerPage totalItems)
    /\ forall other,
         UI.startIndex (UI.paginate other itemsPerPage totalItems) <= index
         < UI.endIndex (UI.paginate other itemsPerPage totalItems) ->
         other = page.
Proof.
  intros Hp Hi.
  destruct (totalPages_cases totalItems itemsPerPage (index `div` itemsPerPage + 1) Hp)
    as (c & Hb & Ht).
  exists (Z.max 1 c), (index `div` itemsPerPage + 1).
  pose proof (Z.div_mod index itemsPerPage ltac:(lia)) as Hdm.
  pose proof (Z.mod_pos_bound index itemsPerPage Hp) as Hm.
  assert (Hq : 0 <= index `div` itemsPerPage) by (apply Z.div_pos; lia).
  split; [exact Ht|]. cbn [UI.paginate UI.startIndex UI.endIndex].
  split; [nia|]. split; [nia|]. intros other Ho. nia.
Qed.

End Windows.

Section Rows.
Context {Id : Type} `{LooseEq Id} `{Js.Lowercase}.
Implicit Types s : UsersList.AppState Id.



(** X18.  The arrows and the page buttons keep the current page within
    the pages of the pagination data: from a page within 1 to
    [totalPages], [handleNext] and [handlePrevious] lead to such a page,
    and so does a click on any rendered page button from any page. *)
Theorem navigation_stays_within s :
  let pages s := UI.totalPages (UI.selectPaginationData (UsersList.ui s)
                                  (UsersList.users s)) in
  (page_within (UI.currentPage (UsersList.ui s)) (pages s) ->
   page_within (UI.currentPage (UsersList.ui (UsersList.handleNext s)))
     (pages (UsersList.handleNext s))
   /\ page_within (UI.currentPage (UsersList.ui (UsersList.handlePrevious s)))
        (pages (UsersList.handlePrevious s)))
  /\ (forall pageNum,
        UsersList.pageButtonRendered s pageNum = true ->
        page_within
          (UI.currentPage (UsersList.ui (UsersList.handlePageChange s pageNum)))
          (pages (UsersList.handlePageChange s pageNum))).
Proof.
  cbv zeta. split.
  - intros (last & Hlast & Hle). split.
    + unfold UsersList.handleNext.
      destruct (Js.lt_num _ _) eqn:E; [|by exists last].
      exists last. split; [exact Hlast|].
      unfold UI.selectPaginationData in *. rewrite Hlast in E.
      cbn [Js.lt_num] in E. apply Z.ltb_lt in E.
      cbn [UsersList.ui UI.setCurrentPage UI.with_pagination UI.currentPage]. lia.
    + unfold UsersList.handlePrevious.
      destruct (Z.ltb_spec 1 (UI.currentPage (UsersList.ui s))); [|by exists last].
      exists last. split; [exact Hlast|].
      cbn [UsersList.ui UI.setCurrentPage UI.with_pagination UI.currentPage]. lia.
  - intros pageNum Hb. unfold UsersList.pageButtonRendered in Hb.
    apply andb_prop in Hb as [_ Hb].
    destruct (UI.totalPages (UI.selectPaginationData (UsersList.ui s)
                               (UsersList.users s))) as [last| | |] eqn:E;
      try discriminate Hb.
    apply andb_prop in Hb as [Hb _]. apply andb_prop in Hb as [H1 H2].
    exists last. split; [exact E|].
    cbn [UsersList.ui UsersList.handlePageChange UI.setCurrentPage
         UI.with_pagination UI.currentPage]. lia.
Qed.

End Rows.

Section WindowSamples.
#[local] Existing Instance Js.lowerLatinSigma.

(** Page 2 of 25 items in pages of 10 has a next and a previous page. *)
Lemma next_and_previous_flags_witness :
  (0 <= 25 /\ 0 < 10 /\ 1 <= 2)
  /\ (UI.hasNextPage (UI.paginate 2 10 25) = true
      <-> UI.endIndex (UI.paginate 2 10 25) < 25)
  /\ UI.hasNextPage (UI.paginate 2 10 25) = true.
Proof.
  split; [lia|]. split; [|reflexivity].
  exact (proj1 (next_and_previous_flags 25 10 2 ltac:(lia) ltac:(lia) ltac:(lia))).
Defined.

(** Item 24 of 25 lies on page 3 only. *)
Lemma windows_tile_witness :
  (0 < 10 /\ 0 <= 24 < 25)
  /\ exists last page,
       UI.totalPages (UI.paginate page 10 25) = Js.Num last
       /\ 1 <= page <= last
       /\ UI.startIndex (UI.paginate page 10 25) <= 24
          < UI.endIndex (UI.paginate page 10 25)
       /\ forall other,
            UI.startIndex (UI.paginate other 10 25) <= 24
            < UI.endIndex (UI.paginate other 10 25) ->
            other = page.
Proof.
  split; [lia|].
  exact (windows_tile 25 10 24 ltac:(lia) ltac:(lia)).
Defined.


(** The arrows on the list of twenty-five records, on page 1. *)
Lemma navigation_stays_within_witness :
  let s := UsersList.fetched UsersList.initialState Sample.crowd in
  page_within (UI.currentPage (UsersList.ui s))
    (UI.totalPages (UI.selectPaginationData (UsersList.ui s) (UsersList.users s)))
  /\ UI.currentPage (UsersList.ui (UsersList.handleNext s)) = 2
  /\ page_within (UI.currentPage (UsersList.ui (UsersList.handleNext s)))
       (UI.totalPages
          (UI.selectPaginationData (UsersList.ui (UsersList.handleNext s))
             (UsersList.users (UsersList.handleNext s)))).
Proof.
  intros s.
  assert (Hs : page_within (UI.currentPage (UsersList.ui s))
                 (UI.totalPages (UI.selectPaginationData (UsersList.ui s)
                                   (UsersList.users s)))).
  { exists 3. split; [reflexivity|done]. }
  split; [exact Hs|]. split; [reflexivity|].
  exact (proj1 (proj1 (navigation_stays_within s) Hs)).
Defined.

End WindowSamples.

(** ** The queue over time *)

Section Queue.
Context {Id : Type}.
Implicit Types (w : Timers.World Id) (t : Timers.Timer) (n : UI.Notification)
  (es : list Timers.Event).

(** X19.  A notification of any positive duration, the default of 5000
    ms included, that a handler adds while the notification component
    is mounted has left the queue once its duration has passed, whatever
    else is added (under other ids) or closed meanwhile, and whether or
    not the user logs out and comes back. *)
Theorem notification_gone_when_due (t0 : Z) (history : list Timers.Event)
    (random : Q) (payload : UI.NotificationPayload) es :
  let w : Timers.World Id := Timers.run (Timers.init t0) history in
  let n := UI.makeNotification (Timers.envAt w random) payload in
  let added := Timers.step w (Timers.Add random payload) in
  Timers.mounted w = true ->
  Timers.adds_fresh (UI.id n) added es = true ->
  (0 < UI.duration n -> UI.duration n <= Timers.elapsed es ->
   Timers.queued (UI.id n) (Timers.run added es) = false)
  /\ (UI.payload_duration payload = None -> 5000 <= Timers.elapsed es ->
      Timers.queued (UI.id n) (Timers.run added es) = false).
Proof.
  intros w n added Hm Hfresh.
  assert (Hgone : 0 < UI.duration n -> UI.duration n <= Timers.elapsed es ->
                  Timers.queued (UI.id n) (Timers.run added es) = false).
  { intros Hd Hel. apply (expired _ (Timers.clock w + UI.duration n)).
    - apply run_ahead, step_ahead, run_ahead. apply Forall_nil_2.
    - apply run_expiring; [exact Hfresh|]. right. by apply added_armed.
    - rewrite run_clock. unfold added.
      cbn [Timers.step Timers.rendered Timers.clock]. lia. }
  split; [exact Hgone|].
  intros Hnone Hel.
  assert (Hd : UI.duration n = 5000).
  { unfold n, UI.makeNotification. cbn [UI.duration]. by rewrite Hnone. }
  apply Hgone; lia.
Qed.

Lemma due_later i (d d' : Z) (ts : list Timers.Timer) :
  d <= d' ->
  Exists (fun t => Qeq_bool (Timers.target t) i = true /\ Timers.due t <= d) ts ->
  Exists (fun t => Qeq_bool (Timers.target t) i = true /\ Timers.due t <= d') ts.
Proof.
  intros Hd Hex. eapply Exists_impl; [exact Hex|].
  intros t [Ht Hdue]. split; [exact Ht|lia].
Qed.

(** The effect covers the queue it runs over. *)
Lemma armTimers_covers (c : Z) (ts : list Timers.Timer)
    (ns : list UI.Notification) :
  Forall (fun n => 0 < UI.duration n ->
                   Exists (fun t => Qeq_bool (Timers.target t) (UI.id n) = true
                                    /\ Timers.due t <= c + UI.duration n)
                     (ts ++ Timers.armTimers c ns))
    ns.
Proof.
  apply Forall_forall. intros n Hn Hd. apply Exists_app. right.
  apply Exists_exists.
  exists {| Timers.due := c + UI.duration n; Timers.target := UI.id n |}.
  cbn [Timers.target Timers.due]. split; [|split; [|lia]].
  - apply list_elem_of_In. unfold Timers.armTimers. apply in_map_iff.
    exists n. split; [reflexivity|]. apply filter_In.
    split; [by apply list_elem_of_In|by apply Z.ltb_lt].
  - apply Qeq_bool_iff. reflexivity.
Qed.

Lemma rendered_covered w (ui' : UI.State Id) :
  Timers.mounted w = true -> covered (Timers.rendered w ui').
Proof.
  intros Hm. unfold covered, armed. rewrite rendered_pending, Hm.
  cbn [Timers.rendered Timers.ui Timers.clock]. apply armTimers_covers.
Qed.

Lemma fires_covered (ts : list Timers.Timer) w :
  Timers.mounted w = true -> covered w -> covered (fold_left Timers.fire ts w).
Proof.
  revert w. induction ts as [|t ts IH]; intros w Hm Hw; [exact Hw|].
  cbn [fold_left]. apply IH; [exact Hm|]. by apply rendered_covered.
Qed.

Lemma filter_none_due (c : Z) (ts : list Timers.Timer) :
  List.filter (fun t => Timers.due t <=? c) ts = [] ->
  List.filter (fun t => c <? Timers.due t) ts = ts.
Proof.
  induction ts as [|t ts IH]; [reflexivity|]. cbn [List.filter].
  destruct (Z.leb_spec (Timers.due t) c); [discriminate|].
  intros Hts. destruct (Z.ltb_spec c (Timers.due t)); [|lia]. by rewrite IH.
Qed.

Lemma tick_covered w :
  Timers.mounted w = true -> covered w -> covered (Timers.tick w).
Proof.
  intros Hm Hw. unfold Timers.tick.
  destruct (List.filter (fun t => Timers.due t <=? Timers.clock w + 1)
              (Timers.pending w)) as [|t ts] eqn:E.
  - cbn [fold_left]. rewrite (filter_none_due _ _ E).
    unfold covered, armed in *. cbn [Timers.ui Timers.pending Timers.clock].
    eapply Forall_impl; [exact Hw|]. intros n Hn Hd. cbn beta in Hn.
    apply (due_later _ (Timers.clock w + UI.duration n)); [lia|by apply Hn].
  - cbn [fold_left]. apply fires_covered; [exact Hm|]. by apply rendered_covered.
Qed.

Lemma ticks_covered (ms : nat) w :
  Timers.mounted w = true -> covered w -> covered (Nat.iter ms Timers.tick w).
Proof.
  intros Hm Hw. induction ms as [|ms IH]; [exact Hw|].
  change (Nat.iter (S ms) Timers.tick w)
    with (Timers.tick (Nat.iter ms Timers.tick w)).
  apply tick_covered; [by rewrite ticks_mounted|exact IH].
Qed.

(** While the component is mounted, every notification of positive
    duration has its timer. *)
Lemma run_covered es w :
  (Timers.mounted w = true -> covered w) ->
  Timers.mounted (Timers.run w es) = true -> covered (Timers.run w es).
Proof.
  unfold Timers.run. revert w.
  induction es as [|e es IH]; intros w Hw; [exact Hw|].
  cbn [fold_left]. apply IH.
  destruct e as [random payload|j|ms|random|].
  - cbn [Timers.step Timers.rendered Timers.mounted]. apply rendered_covered.
  - cbn [Timers.step Timers.rendered Timers.mounted]. apply rendered_covered.
  - cbn [Timers.step]. rewrite ticks_mounted. intros Hm.
    apply ticks_covered; [exact Hm|by apply Hw].
  - cbn [Timers.step Timers.mounted]. discriminate.
  - intros _. unfold covered, armed. rewrite mount_ui, mount_pending, mount_clock.
    destruct (Timers.mounted w) eqn:Hm.
    + rewrite app_nil_r. by apply Hw.
    + apply armTimers_covers.
Qed.

Lemma filter_sublist {A : Type} (f : A -> bool) (l : list A) :
  sublist (List.filter f l) l.
Proof.
  induction l as [|x l IH]; [constructor|].
  cbn [List.filter]. destruct (f x); by constructor.
Qed.

Lemma fires_sublist (ts : list Timers.Timer) w :
  sublist (UI.notifications (Timers.ui (fold_left Timers.fire ts w)))
    (UI.notifications (Timers.ui w)).
Proof.
  revert w. induction ts as [|t ts IH]; intros w; [reflexivity|].
  cbn [fold_left]. etrans; [apply IH|].
  cbn [Timers.fire Timers.rendered Timers.ui UI.removeNotification
       UI.with_notifications UI.notifications].
  apply filter_sublist.
Qed.

Lemma ticks_sublist (ms : nat) w :
  sublist (UI.notifications (Timers.ui (Nat.iter ms Timers.tick w)))
    (UI.notifications (Timers.ui w)).
Proof.
  induction ms as [|ms IH]; [reflexivity|].
  change (Nat.iter (S ms) Timers.tick w)
    with (Timers.tick (Nat.iter ms Timers.tick w)).
  etrans; [|exact IH]. unfold Timers.tick at 1. etrans; [apply fires_sublist|].
  reflexivity.
Qed.

(** X20.  While time passes and nothing is dispatched from outside, the
    queue only loses notifications, in place; and while the notification
    component is mounted, once as many milliseconds have passed as the
    longest duration in the queue, no notification of positive duration
    is left. *)
Theorem queue_drains (t0 : Z) (history : list Timers.Event) (ms : nat) :
  let w : Timers.World Id := Timers.run (Timers.init t0) history in
  let after := Timers.step w (Timers.Elapse ms) in
  sublist (UI.notifications (Timers.ui after)) (UI.notifications (Timers.ui w))
  /\ (Timers.mounted w = true ->
      Forall (fun n => UI.duration n <= Z.of_nat ms)
        (UI.notifications (Timers.ui w)) ->
      Forall (fun n => UI.duration n <= 0) (UI.notifications (Timers.ui after))).
Proof.
  intros w after. subst after. cbn [Timers.step].
  split; [apply ticks_sublist|].
  intros Hm Hshort. apply Forall_forall. intros n Hn.
  destruct (Z.le_gt_cases (UI.duration n) 0) as [Hle|Hd]; [exact Hle|].
  exfalso.
  assert (Hin : n ∈ UI.notifications (Timers.ui w)).
  { eapply elem_of_sublist; [exact Hn|apply ticks_sublist]. }
  assert (Hcov : covered w).
  { apply run_covered; [|exact Hm]. intros _. unfold covered. apply Forall_nil_2. }
  unfold covered in Hcov. rewrite Forall_forall in Hcov.
  rewrite Forall_forall in Hshort.
  assert (Hgone : Timers.queued (UI.id n) (Nat.iter ms Timers.tick w) = false).
  { apply (expired _ (Timers.clock w + UI.duration n)).
    - apply (step_ahead w (Timers.Elapse ms)), run_ahead. apply Forall_nil_2.
    - apply ticks_expiring. right. by apply Hcov.
    - rewrite ticks_clock. specialize (Hshort n Hin). cbn beta in Hshort. lia. }
  unfold Timers.queued in Hgone.
  assert (Hq : existsb (fun m => Qeq_bool (UI.id m) (UI.id n))
                 (UI.notifications (Timers.ui (Nat.iter ms Timers.tick w))) = true).
  { apply existsb_exists. exists n. split; [by apply list_elem_of_In|].
    apply Qeq_bool_iff. reflexivity. }
  congruence.
Qed.

End Queue.

(** A notice of the default duration, added after the user has logged
    out and come back, and a later one, over six seconds. *)
Lemma notification_gone_when_due_witness :
  let w : Timers.World Z := Timers.run (Timers.init 1000) Sample.returned in
  let payload := UsersList.notice "error" "Failed to delete user: Not found" in
  let n := UI.makeNotification (Timers.envAt w (1 # 2)) payload in
  Timers.mounted w = true
  /\ Timers.adds_fresh (UI.id n) (Timers.step w (Timers.Add (1 # 2) payload))
       Sample.later = true
  /\ 0 < UI.duration n
  /\ UI.duration n <= Timers.elapsed Sample.later
  /\ Timers.queued (UI.id n)
       (Timers.run (Timers.step w (Timers.Add (1 # 2) payload)) Sample.later)
     = false.
Proof.
  intros w payload n.
  assert (Hm : Timers.mounted w = true) by (vm_compute; reflexivity).
  assert (Hfresh : Timers.adds_fresh (UI.id n)
                     (Timers.step w (Timers.Add (1 # 2) payload)) Sample.later
                   = true) by (vm_compute; reflexivity).
  assert (Hd : 0 < UI.duration n) by (vm_compute; reflexivity).
  assert (Hel : UI.duration n <= Timers.elapsed Sample.later)
    by (vm_compute; discriminate).
  split; [exact Hm|]. split; [exact Hfresh|]. split; [exact Hd|].
  split; [exact Hel|].
  exact (proj1 (notification_gone_when_due 1000 Sample.returned (1 # 2) payload
                  Sample.later Hm Hfresh) Hd Hel).
Defined.

(** The queue after a logout and the return to the list holds two
    notices of 5000 ms, the one of the logout among them; five seconds
    later it is empty. *)
Lemma queue_drains_witness :
  let w : Timers.World Z := Timers.run (Timers.init 1000) Sample.returned in
  Timers.mounted w = true
  /\ List.map UI.duration (UI.notifications (Timers.ui w)) = [5000; 5000]
  /\ Forall (fun n => UI.duration n <= Z.of_nat (Z.to_nat 5000))
       (UI.notifications (Timers.ui w))
  /\ Forall (fun n => UI.duration n <= 0)
       (UI.notifications
          (Timers.ui (Timers.step w (Timers.Elapse (Z.to_nat 5000))))).
Proof.
  intros w.
  assert (Hm : Timers.mounted w = true) by (vm_compute; reflexivity).
  assert (Hshort : Forall (fun n => UI.duration n <= Z.of_nat (Z.to_nat 5000))
                     (UI.notifications (Timers.ui w))).
  { vm_compute. repeat constructor; discriminate. }
  split; [exact Hm|]. split; [vm_compute; reflexivity|]. split; [exact Hshort|].
  exact (proj2 (queue_drains 1000 Sample.returned (Z.to_nat 5000)) Hm Hshort).
Defined.

(** ** Every state of the list *)

Section Visited.
Context {Id : Type} `{LooseEq Id} `{IdValue Id} `{Js.Lowercase}.
Implicit Types s : UsersList.AppState Id.

Ltac handlers :=
  unfold UsersList.handleRetry, UsersList.fetchReplied,
    UsersList.handleViewModeChange, UsersList.handleSearch,
    UsersList.handlePageChange, UsersList.handlePrevious, UsersList.handleNext,
    UsersList.handleDeleteUser, UsersList.cancelDelete,
    UsersList.confirmDeleteReplied, UsersList.confirmDelete, UsersList.unwrap,
    UsersList.handleAddUser, UsersList.handleEditUser, UsersList.closeModal,
    UsersList.handleModalSubmit, UsersList.handleLogout, UsersList.dismiss;
  cbv zeta; repeat case_match; cbn [UsersList.ui UsersList.users].

Lemma filter_Forall {A : Type} (P : A -> Prop) (f : A -> bool) (l : list A) :
  Forall P l -> Forall P (List.filter f l).
Proof.
  intros Hl. apply Forall_forall. intros x Hx.
  apply list_elem_of_In, filter_In in Hx as [Hx _].
  rewrite Forall_forall in Hl. by apply Hl, list_elem_of_In.
Qed.

Lemma notice_standard (env : UI.Env) (type message : string) :
  type = "success"%string \/ type = "error"%string \/ type = "info"%string ->
  standard_notice (UI.makeNotification env (UsersList.notice type message)).
Proof. intros Ht. split; [reflexivity|exact Ht]. Qed.

(** X21.  In every state of the list the current page is at least 1 and
    the page size is 10, so that the pagination data has a finite number
    of pages and a window that starts at or after the first record; and
    the list leaves the theme, the sidebar, the sorting, the filters and
    the two saving and deleting flags of the ui slice at their initial
    values. *)
Theorem visited_page_and_untouched s :
  UsersList.visited s ->
  1 <= UI.currentPage (UsersList.ui s)
  /\ untouched (UsersList.ui s)
  /\ (exists last,
        UI.totalPages (UI.selectPaginationData (UsersList.ui s) (UsersList.users s))
        = Js.Num last /\ 1 <= last)
  /\ 0 <= UI.startIndex
            (UI.selectPaginationData (UsersList.ui s) (UsersList.users s)).
Proof.
  intros Hs.
  assert (Hinv : 1 <= UI.currentPage (UsersList.ui s) /\ untouched (UsersList.ui s)).
  { induction Hs as [|s r _ IH|s r _ IH _|s mode _ IH _|s value _ IH
                     |s pageNum _ IH Hb|s _ IH _|s _ IH _|s user _ IH _|s _ IH _
                     |s env r _ IH _|s _ IH|s user _ IH _|s _ IH _
                     |s now random env userData r typeError _ IH _|s env _ IH
                     |s i _ IH];
      try (split; [done|by repeat split]);
      destruct IH as [Hpage Hun]; unfold untouched in *;
      try (handlers; (split; [first [exact Hpage|done|cbn; lia]|exact Hun])).
    - unfold UsersList.pageButtonRendered in Hb. apply andb_prop in Hb as [_ Hb].
      destruct (UI.totalPages _); try discriminate Hb.
      apply andb_prop in Hb as [Hb _]. apply andb_prop in Hb as [Hb _].
      handlers; (split; [cbn; lia|exact Hun]). }
  destruct Hinv as [Hpage Hun]. split; [exact Hpage|]. split; [exact Hun|].
  destruct Hun as (Hsize & _).
  unfold UI.selectPaginationData. rewrite Hsize. split.
  - destruct (totalPages_cases (Z.of_nat (length (Users.users (UsersList.users s))))
                10 (UI.currentPage (UsersList.ui s)) ltac:(lia)) as (c & _ & ->).
    exists (Z.max 1 c). split; [reflexivity|lia].
  - cbn [UI.paginate UI.startIndex]. lia.
Qed.

(** X22.  In every state of the list the modal is consistent: its mode
    is create or edit, a user is selected exactly in the edit mode, and a
    closed modal is in the create mode.  The branch of
    [handleModalSubmit] that reads the id of an absent user is therefore
    never taken. *)
Theorem visited_modal_consistent s :
  UsersList.visited s ->
  modal_consistent (UsersList.ui s)
  /\ (String.eqb (UI.modalMode (UsersList.ui s)) "create" = false ->
      UI.selectedUser (UsersList.ui s) <> None).
Proof.
  intros Hs.
  assert (Hinv : modal_consistent (UsersList.ui s)).
  { induction Hs as [|s r _ IH|s r _ IH _|s mode _ IH _|s value _ IH
                     |s pageNum _ IH Hb|s _ IH _|s _ IH _|s user _ IH _|s _ IH _
                     |s env r _ IH _|s _ IH|s user _ IH _|s _ IH _
                     |s now random env userData r typeError _ IH _|s env _ IH
                     |s i _ IH];
      unfold modal_consistent in *;
      handlers;
      first [exact IH | by (split; [by left|done]) | by (split; [by right|done])
            | (cbn [UI.modalMode UI.selectedUser UI.isUserModalOpen
                    UI.addNotification UI.with_notifications];
               intuition congruence)]. }
  split; [exact Hinv|].
  intros Hmode. destruct Hinv as [[[Hc _]|[_ Hu]] _]; [|exact Hu].
  rewrite Hc in Hmode. discriminate Hmode.
Qed.

(** X23.  Every notification the list puts in the queue is of the
    default duration of 5000 ms and of type success, error or info. *)
Theorem visited_notices_standard s :
  UsersList.visited s ->
  Forall standard_notice (UI.notifications (UsersList.ui s)).
Proof.
  induction 1 as [|s r _ IH|s r _ IH _|s mode _ IH _|s value _ IH
                  |s pageNum _ IH Hb|s _ IH _|s _ IH _|s user _ IH _|s _ IH _
                  |s env r _ IH _|s _ IH|s user _ IH _|s _ IH _
                  |s now random env userData r typeError _ IH _|s env _ IH
                  |s i _ IH];
    [by constructor|..];
    handlers; try exact IH;
    try (cbn [UI.notifications UI.closeUserModal UI.resetPagination
              UI.clearDeleteConfirmUser UI.with_modal UI.with_pagination
              UI.with_deleteConfirmUser UI.addNotification UI.with_notifications];
         apply Forall_app; split; [exact IH|];
         apply Forall_cons; split; [|apply Forall_nil_2];
         apply notice_standard; tauto).
  cbn [UI.removeNotification UI.with_notifications UI.notifications].
  by apply filter_Forall.
Qed.

End Visited.

(** ** The modal and the delete dialogue *)

Section Dialogues.
Context {Id : Type} `{LooseEq Id} `{IdValue Id} `{Js.Lowercase}.
Implicit Types s : UsersList.AppState Id.

(** X24.  A submit of the modal that the service refuses, or that
    fails before an answer, leaves the modal as it is (open, in its mode,
    on its user), the collection and the current page unchanged, records
    the error and queues one notification of type error.  A submit that
    succeeds closes the modal; in the create mode it appends one record
    and goes back to page 1, in the edit mode it keeps the number of
    records and the page. *)
Theorem submit_outcomes s (now : Z) (random : Q) (env : UI.Env)
    (userData : Users.Draft Id) (r : Users.Reply (Users.Echo Id))
    (typeError : string) :
  String.eqb (UI.modalMode (UsersList.ui s)) "create" = true
  \/ UI.selectedUser (UsersList.ui s) <> None ->
  let s' := UsersList.handleModalSubmit s now random env userData r typeError in
  ((forall data, r <> Users.Response true data) ->
   Users.users (UsersList.users s') = Users.users (UsersList.users s)
   /\ Users.error (UsersList.users s') <> None
   /\ UI.isUserModalOpen (UsersList.ui s') = UI.isUserModalOpen (UsersList.ui s)
   /\ UI.modalMode (UsersList.ui s') = UI.modalMode (UsersList.ui s)
   /\ UI.selectedUser (UsersList.ui s') = UI.selectedUser (UsersList.ui s)
   /\ UI.currentPage (UsersList.ui s') = UI.currentPage (UsersList.ui s)
   /\ exists n, UI.notifications (UsersList.ui s')
                = UI.notifications (UsersList.ui s) ++ [n]
                /\ UI.type n = "error"%string)
  /\ ((exists data, r = Users.Response true data) ->
      UI.isUserModalOpen (UsersList.ui s') = false
      /\ UI.selectedUser (UsersList.ui s') = None
      /\ Users.error (UsersList.users s') = None
      /\ (if String.eqb (UI.modalMode (UsersList.ui s)) "create" then
            length (Users.users (UsersList.users s'))
            = S (length (Users.users (UsersList.users s)))
            /\ UI.currentPage (UsersList.ui s') = 1
          else
            length (Users.users (UsersList.users s'))
            = length (Users.users (UsersList.users s))
            /\ UI.currentPage (UsersList.ui s') = UI.currentPage (UsersList.ui s))).
Proof.
  intros Hmode s'. subst s'. unfold UsersList.handleModalSubmit. cbv zeta. split.
  - intros Hr.
    destruct (String.eqb (UI.modalMode (UsersList.ui s)) "create") eqn:Em.
    + destruct r as [m|[|] data]; [|by destruct (Hr data)|];
        cbn [Users.createUser negb UsersList.users UsersList.ui];
        (repeat split; try done; by eexists).
    + destruct Hmode as [Hm|Hu]; [discriminate Hm|].
      destruct (UI.selectedUser (UsersList.ui s)) as [u|] eqn:Eu; [|done].
      destruct r as [m|[|] data]; [|by destruct (Hr data)|];
        cbn [Users.updateUser negb UsersList.users UsersList.ui];
        (repeat split; try done; by eexists).
  - intros (data & ->).
    destruct (String.eqb (UI.modalMode (UsersList.ui s)) "create") eqn:Em.
    + cbn [Users.createUser negb UsersList.users UsersList.ui].
      repeat split.
      cbn [Users.createUser_fulfilled Users.users]. rewrite length_app.
      cbn [length Users.createUser_pending Users.pending Users.users]. lia.
    + destruct Hmode as [Hm|Hu]; [discriminate Hm|].
      destruct (UI.selectedUser (UsersList.ui s)) as [u|] eqn:Eu; [|done].
      cbn [Users.updateUser negb UsersList.users UsersList.ui].
      repeat split.
      cbn [Users.updateUser_fulfilled Users.users]. apply replace_first_length.
Qed.

(** X25.  Whatever the service replies, [confirmDelete] closes the
    delete dialogue.  After a refusal the collection and the current page
    are as before and the error is recorded; after an ok reply no record
    carries the id of the deleted user, the page is 1 and one
    notification of type success is queued. *)
Theorem confirm_outcomes s (env : UI.Env) (r : Users.Reply (option string))
    (deleteConfirm : Users.User Id) :
  UI.deleteConfirmUser (UsersList.ui s) = Some deleteConfirm ->
  let s' := UsersList.confirmDeleteReplied s env r in
  UI.deleteConfirmUser (UsersList.ui s') = None
  /\ ((forall data_error, r <> Users.Response true data_error) ->
      Users.users (UsersList.users s') = Users.users (UsersList.users s)
      /\ Users.error (UsersList.users s') <> None
      /\ UI.currentPage (UsersList.ui s') = UI.currentPage (UsersList.ui s))
  /\ ((exists data_error, r = Users.Response true data_error) ->
      carrying (Users.id deleteConfirm) (Users.users (UsersList.users s')) = []
      /\ UI.currentPage (UsersList.ui s') = 1
      /\ exists n, UI.notifications (UsersList.ui s')
                   = UI.notifications (UsersList.ui s) ++ [n]
                   /\ UI.type n = "success"%string).
Proof.
  intros Hd s'. subst s'. unfold UsersList.confirmDeleteReplied. rewrite Hd.
  unfold UsersList.confirmDelete. rewrite Hd. split; [|split].
  - destruct r as [m|[|] data]; reflexivity.
  - intros Hr. destruct r as [m|[|] data]; [|by destruct (Hr data)|];
      by repeat split.
  - intros (data & ->). cbn [Users.deleteUser negb UsersList.unwrap].
    cbn [UsersList.users UsersList.ui]. split; [|split; [reflexivity|by eexists]].
    cbn [Users.deleteUser_fulfilled Users.users]. unfold carrying.
    apply filter_none.
Qed.

End Dialogues.

Section ListSamples.
#[local] Existing Instance Js.lowerLatinSigma.

Lemma visited_editing : UsersList.visited Sample.editing.
Proof.
  apply UsersList.visit_edit; [apply UsersList.visit_fetch, UsersList.visit_init|].
  vm_compute. tauto.
Qed.

(** The invariants on the list with the modal open on the third of
    twenty-five records. *)
Lemma visited_page_and_untouched_witness :
  UsersList.visited Sample.editing
  /\ 1 <= UI.currentPage (UsersList.ui Sample.editing)
  /\ untouched (UsersList.ui Sample.editing).
Proof.
  split; [exact visited_editing|].
  destruct (visited_page_and_untouched Sample.editing visited_editing)
    as (Hp & Hu & _).
  split; assumption.
Defined.

Lemma visited_modal_consistent_witness :
  UsersList.visited Sample.editing
  /\ modal_consistent (UsersList.ui Sample.editing)
  /\ UI.selectedUser (UsersList.ui Sample.editing) = Some (Sample.person 3).
Proof.
  split; [exact visited_editing|].
  split; [|reflexivity].
  exact (proj1 (visited_modal_consistent Sample.editing visited_editing)).
Defined.

Lemma visited_notices_standard_witness :
  let s := UsersList.handleModalSubmit Sample.editing 0 (1 # 2) Sample.noon
             Sample.form Sample.refusal "TypeError" in
  UsersList.visited s
  /\ length (UI.notifications (UsersList.ui s)) = 1%nat
  /\ Forall standard_notice (UI.notifications (UsersList.ui s)).
Proof.
  intros s.
  assert (Hs : UsersList.visited s).
  { apply UsersList.visit_submit; [exact visited_editing|reflexivity]. }
  split; [exact Hs|]. split; [reflexivity|].
  exact (visited_notices_standard s Hs).
Defined.

(** The refused submit of the modal opened on the third record. *)
Lemma submit_outcomes_witness :
  let s' := UsersList.handleModalSubmit Sample.editing 0 (1 # 2) Sample.noon
              Sample.form Sample.refusal "TypeError" in
  UI.selectedUser (UsersList.ui Sample.editing) <> None
  /\ (forall data, Sample.refusal <> Users.Response true data)
  /\ UI.isUserModalOpen (UsersList.ui s') = true
  /\ Users.users (UsersList.users s') = Users.users (UsersList.users Sample.editing).
Proof.
  intros s'.
  assert (Hu : UI.selectedUser (UsersList.ui Sample.editing) <> None) by discriminate.
  assert (Hr : forall data, Sample.refusal <> Users.Response true data)
    by (intros data; discriminate).
  split; [exact Hu|]. split; [exact Hr|].
  destruct (proj1 (submit_outcomes Sample.editing 0 (1 # 2) Sample.noon Sample.form
                     Sample.refusal "TypeError" (or_intror Hu)) Hr)
    as (Husers & _ & Hopen & _).
  split; [exact Hopen|exact Husers].
Defined.

(** The confirmed delete of the third record. *)
Lemma confirm_outcomes_witness :
  let s' := UsersList.confirmDeleteReplied Sample.deleting Sample.noon
              (Users.Response true None) in
  UI.deleteConfirmUser (UsersList.ui Sample.deleting) = Some (Sample.person 3)
  /\ UI.deleteConfirmUser (UsersList.ui s') = None
  /\ carrying 3 (Users.users (UsersList.users s')) = []
  /\ length (Users.users (UsersList.users s')) = 24%nat.
Proof.
  intros s'.
  destruct (confirm_outcomes Sample.deleting Sample.noon (Users.Response true None)
              (Sample.person 3) eq_refl) as (Hclosed & _ & Hok).
  split; [reflexivity|]. split; [exact Hclosed|].
  split; [|reflexivity].
  exact (proj1 (Hok (ex_intro _ None eq_refl))).
Defined.

End ListSamples.

(** ** The ui slice *)

Section UiSlice.
Context {Id : Type}.
Implicit Types state : UI.State Id.

Lemma filterStep_set state (a : FilterAction) :
  filters_set state -> filters_set (filterStep state a).
Proof.
  unfold filters_set. intros Hs. destruct a as [key [v|]|key|];
    cbn [filterStep UI.setFilter UI.clearFilter UI.clearAllFilters].
  - destruct (Js.truthy v) eqn:Ev; cbn [UI.with_activeFilters UI.activeFilters].
    + by apply map_Forall_insert_2.
    + by apply map_Forall_delete.
  - cbn [UI.with_activeFilters UI.activeFilters]. by apply map_Forall_delete.
  - cbn [UI.with_activeFilters UI.activeFilters]. by apply map_Forall_delete.
  - cbn [UI.with_activeFilters UI.activeFilters]. apply map_Forall_empty.
Qed.

(** X26.  The filter actions never store an empty value: from a state
    whose active filters all have a non-empty value, as the initial
    state, every sequence of [setFilter], [clearFilter] and
    [clearAllFilters] leads to such a state. *)
Theorem filters_never_empty state (actions : list FilterAction) :
  filters_set state -> filters_set (fold_left filterStep actions state).
Proof.
  revert state. induction actions as [|a actions IH]; intros state Hs; [exact Hs|].
  cbn [fold_left]. apply IH. by apply filterStep_set.
Qed.

(** X27.  [setFilter] reads back as written and counts as it should:
    after [setFilter key value] the filter [key] is [value] when the
    value is present and not empty and absent otherwise, the other
    filters are as before, and the number of active filters goes up by
    one for a new key with a value, down by one for a cleared key that
    was set, and stays as it is otherwise. *)
Theorem setFilter_lookup_and_count state (key : string) (value : option string)
    (other : string) :
  let written :=
    match value with
    | Some v => if Js.truthy v then Some v else None
    | None => None
    end in
  UI.activeFilters (UI.setFilter state key value) !! other
  = (if decide (key = other) then written else UI.activeFilters state !! other)
  /\ UI.selectFilterCount (UI.setFilter state key value)
     = match written, UI.activeFilters state !! key with
       | Some _, None => S (UI.selectFilterCount state)
       | None, Some _ => Nat.pred (UI.selectFilterCount state)
       | _, _ => UI.selectFilterCount state
       end.
Proof.
  cbv zeta. unfold UI.selectFilterCount, UI.setFilter.
  destruct value as [v|]; [destruct (Js.truthy v)|];
    cbn [UI.with_activeFilters UI.activeFilters];
    rewrite ?lookup_insert, ?lookup_delete, ?map_size_insert, ?map_size_delete;
    (split; [reflexivity|]);
    by destruct (UI.activeFilters state !! key).
Qed.

(** X28.  After [toggleTheme] the theme is light or dark, and two
    toggles give the state back exactly when the theme was one of the
    two: any other theme becomes light for good. *)
Theorem toggleTheme_two_themes state :
  (UI.theme (UI.toggleTheme state) = "light"%string
   \/ UI.theme (UI.toggleTheme state) = "dark"%string)
  /\ (UI.toggleTheme (UI.toggleTheme state) = state
      <-> UI.theme state = "light"%string \/ UI.theme state = "dark"%string).
Proof.
  destruct state. unfold UI.toggleTheme.
  cbn [UI.theme UI.with_theme UI.viewMode UI.isUserModalOpen UI.modalMode
       UI.selectedUser UI.deleteConfirmUser UI.currentPage UI.itemsPerPage
       UI.notifications UI.isDeleting UI.isSaving UI.sidebarOpen UI.sortField
       UI.sortDirection UI.activeFilters].
  destruct (String.eqb_spec theme "light") as [->|Hl]; [cbn; split; [by right|]|].
  - split; [by left|reflexivity].
  - split; [by left|]. cbn.
    destruct (String.eqb_spec theme "dark") as [->|Hd].
    + split; [by right|reflexivity].
    + split; [intros [= E]; congruence|intros [?|?]; congruence].
Qed.

(** X29.  A notification added under an id that no queued notification
    has is taken out again by [removeNotification] on that id, which
    gives the queue back; and removing an id that no queued notification
    has changes nothing. *)
Theorem add_then_remove state (env : UI.Env) (payload : UI.NotificationPayload)
    (i : Q) :
  let n := UI.makeNotification env payload in
  (Forall (fun m => Qeq_bool (UI.id m) (UI.id n) = false) (UI.notifications state) ->
   UI.notifications
     (UI.removeNotification (UI.addNotification state env payload) (UI.id n))
   = UI.notifications state
   /\ UI.selectNotificationCount (UI.addNotification state env payload)
      = S (UI.selectNotificationCount state))
  /\ (Forall (fun m => Qeq_bool (UI.id m) i = false) (UI.notifications state) ->
      UI.notifications (UI.removeNotification state i) = UI.notifications state).
Proof.
  intros n.
  assert (Hkeep : forall j,
             Forall (fun m => Qeq_bool (UI.id m) j = false) (UI.notifications state) ->
             List.filter (fun m => negb (Qeq_bool (UI.id m) j)) (UI.notifications state)
             = UI.notifications state).
  { intros j Hj. apply forallb_filter_id, forallb_forall. intros m Hm.
    rewrite Forall_forall in Hj. rewrite Hj; [done|by apply list_elem_of_In]. }
  split.
  - intros Hfresh.
    cbn [UI.removeNotification UI.addNotification UI.with_notifications
         UI.notifications UI.selectNotificationCount].
    fold n. rewrite List.filter_app, (Hkeep _ Hfresh). cbn [List.filter].
    assert (Hn : Qeq_bool (UI.id n) (UI.id n) = true) by (apply Qeq_bool_iff; reflexivity).
    rewrite Hn. cbn [negb]. rewrite app_nil_r. split; [reflexivity|].
    unfold UI.selectNotificationCount.
    cbn [UI.addNotification UI.with_notifications UI.notifications].
    rewrite length_app. cbn [length]. lia.
  - intros Hi. cbn [UI.removeNotification UI.with_notifications UI.notifications].
    by apply Hkeep.
Qed.

End UiSlice.

Section PageBar.

Lemma NoDup_omap_inj {A B : Type} (f : A -> option B) (l : list A) :
  NoDup l ->
  (forall x y z, x ∈ l -> y ∈ l -> f x = Some z -> f y = Some z -> x = y) ->
  NoDup (omap f l).
Proof.
  induction 1 as [|x l Hx Hl IH]; intros Hinj; [constructor|].
  cbn [omap list_omap]. destruct (f x) as [z|] eqn:E.
  - constructor.
    + intros Hz. apply list_elem_of_omap in Hz as (y & Hy & Ey).
      assert (x = y) by (eapply Hinj; [left|by right|exact E|exact Ey]).
      by subst.
    + apply IH. intros a b c Ha Hb. apply Hinj; by right.
  - apply IH. intros a b c Ha Hb. apply Hinj; by right.
Qed.

Lemma pageItem_button (currentPage totalPages pageNum p : Z) :
  UsersList.pageItem currentPage totalPages pageNum
  = Some (UsersList.PageButton p)
  <-> p = pageNum
      /\ (pageNum = 1 \/ pageNum = totalPages \/ Z.abs (pageNum - currentPage) <= 1).
Proof.
  unfold UsersList.pageItem. cbv zeta.
  destruct (Z.eqb_spec pageNum 1), (Z.eqb_spec pageNum totalPages),
    (Z.leb_spec (Z.abs (pageNum - currentPage)) 1); cbn [orb negb andb];
    repeat case_match; split; try discriminate;
      try (intros [= ->]; split; [reflexivity|lia]);
      try (intros [-> _]; reflexivity); intros [_ ?]; lia.
Qed.

Lemma pageItem_dots (currentPage totalPages pageNum : Z) :
  (UsersList.pageItem currentPage totalPages pageNum = Some UsersList.DotsStart ->
   pageNum = 2)
  /\ (UsersList.pageItem currentPage totalPages pageNum = Some UsersList.DotsEnd ->
      pageNum = totalPages - 1).
Proof.
  unfold UsersList.pageItem. cbv zeta.
  split; repeat case_match; try discriminate; intros _.
  - repeat match goal with
           | E : _ && _ = true |- _ => apply andb_prop in E as [? ?]
           end. lia.
  - repeat match goal with
           | E : _ && _ = true |- _ => apply andb_prop in E as [? ?]
           end. lia.
Qed.

(** X30.  The pagination bar, for any current page and any number of
    pages: it shows a button exactly for the pages from 1 to
    [totalPages] that are the first, the last or within one of the
    current page; no item occurs twice, so the keys of the rendered
    items are distinct; and it never has more than seven items. *)
Theorem pagination_bar (currentPage totalPages : Z) :
  (forall p,
     UsersList.PageButton p ∈ UsersList.pageItems currentPage totalPages
     <-> 1 <= p <= totalPages
         /\ (p = 1 \/ p = totalPages \/ Z.abs (p - currentPage) <= 1))
  /\ NoDup (UsersList.pageItems currentPage totalPages)
  /\ (length (UsersList.pageItems currentPage totalPages) <= 7)%nat.
Proof.
  assert (Hbutton : forall p,
             UsersList.PageButton p ∈ UsersList.pageItems currentPage totalPages
             <-> 1 <= p <= totalPages
                 /\ (p = 1 \/ p = totalPages \/ Z.abs (p - currentPage) <= 1)).
  { intros p. unfold UsersList.pageItems. rewrite list_elem_of_omap. split.
    - intros (index & Hi & Hp). apply elem_of_seq in Hi.
      apply pageItem_button in Hp as [-> Hshow]. split; [lia|exact Hshow].
    - intros [Hp Hshow]. exists (Z.to_nat (p - 1)). split; [apply elem_of_seq; lia|].
      apply pageItem_button. split; [lia|].
      replace (Z.of_nat (Z.to_nat (p - 1)) + 1) with p by lia. exact Hshow. }
  assert (Hnodup : NoDup (UsersList.pageItems currentPage totalPages)).
  { unfold UsersList.pageItems. apply NoDup_omap_inj; [apply NoDup_seq|].
    intros x y z _ _ Hx Hy. destruct z as [p| |].
    - apply pageItem_button in Hx as [? _], Hy as [? _]. lia.
    - apply pageItem_dots in Hx, Hy. lia.
    - apply pageItem_dots in Hx, Hy. lia. }
  split; [exact Hbutton|]. split; [exact Hnodup|].
  change 7%nat
    with (length [UsersList.PageButton 1; UsersList.PageButton totalPages;
                  UsersList.PageButton (currentPage - 1);
                  UsersList.PageButton currentPage;
                  UsersList.PageButton (currentPage + 1);
                  UsersList.DotsStart; UsersList.DotsEnd]).
  apply submseteq_length, NoDup_submseteq; [exact Hnodup|].
  intros [p| |] Hin; [|apply list_elem_of_In; cbn [In]; tauto..].
  apply Hbutton in Hin as [_ Hshow].
  assert (p = 1 \/ p = totalPages \/ p = currentPage - 1 \/ p = currentPage
          \/ p = currentPage + 1) as [->|[->|[->|[->| ->]]]] by lia;
    apply list_elem_of_In; cbn [In]; tauto.
Qed.

End PageBar.

(** The filters after a new filter is set, set again to the empty
    string and cleared. *)
Lemma filters_never_empty_witness :
  let actions := [SetFilter "role" (Some "admin"%string);
                  SetFilter "city" (Some ""%string);
                  ClearFilter "role"] in
  filters_set (@UI.initialState Z)
  /\ filters_set (fold_left filterStep actions (@UI.initialState Z)).
Proof.
  intros actions.
  assert (H0 : filters_set (@UI.initialState Z)) by apply map_Forall_empty.
  split; [exact H0|].
  exact (filters_never_empty UI.initialState actions H0).
Defined.

(** A queue of two notices; a third notification is added within the
    same millisecond as the second, under a random number far enough
    from the other two for its id to be new, and removed again. *)
Lemma add_then_remove_witness :
  let state : UI.State Z :=
    UI.addNotification
      (UI.addNotification UI.initialState
         {| UI.now := 1699999999000; UI.random := 5 # 8 |}
         (UsersList.notice "info" "Welcome"))
      {| UI.now := 1700000000000; UI.random := 3 # 8 |}
      (UsersList.notice "success" "User updated successfully") in
  let n := UI.makeNotification Sample.noon (Sample.lasting 0) in
  length (UI.notifications state) = 2%nat
  /\ Forall (fun m => Qeq_bool (UI.id m) (UI.id n) = false) (UI.notifications state)
  /\ UI.notifications
       (UI.removeNotification (UI.addNotification state Sample.noon (Sample.lasting 0))
          (UI.id n))
     = UI.notifications state
  /\ UI.selectNotificationCount
       (UI.addNotification state Sample.noon (Sample.lasting 0)) = 3%nat.
Proof.
  intros state n.
  assert (Hfresh : Forall (fun m => Qeq_bool (UI.id m) (UI.id n) = false)
                     (UI.notifications state))
    by (repeat constructor).
  destruct (proj1 (add_then_remove state Sample.noon (Sample.lasting 0) 0) Hfresh)
    as [Hback Hcount].
  split; [reflexivity|]. split; [exact Hfresh|]. split; [exact Hback|].
  rewrite Hcount. reflexivity.
Defined.
